(** * SavFlo: the derived-metrics and insight engine, embedded in Rocq

    The development follows the TypeScript sources of the dashboard
    (BudgetTracker, SavingsGoals, SubscriptionTracker, SpendingAnalytics)
    and of the chat hook (use-openai-gpt-chat.ts).  Each module below
    embeds one source file; the names of the source are kept.

    Modelling conventions.
    - A JavaScript number is a value of [JSNum.num]: an exact rational, or
      one of the three special values [PInf], [NInf], [NaN] that IEEE
      arithmetic produces on division by zero.  Rounding of binary64 and
      the sign of zero are not modelled.
    - A [Date] is its time value in milliseconds, with the civil fields
      of the language standard; local time has a constant offset.
    - A JavaScript string is a list of UTF-16 code units, and the regular
      expressions of the hook are terms of [JSString.regex], run by a
      backtracking matcher.
    - Handlers that talk to the ORM or to the chat endpoint are written
      with explicit effects: the outcome of the external call is an
      argument or an answer of the endpoint, the toasts, writes and
      requests they produce are results. *)

From Stdlib Require Import ZArith NArith QArith Qround Qminmax List String Ascii Bool Lia Lqa.
From Stdlib Require Floats.PrimFloat.
Import ListNotations.

Set Implicit Arguments.

(* ===================================================================== *)
(** * JavaScript numbers                                                  *)
(* ===================================================================== *)

Module JSNum.

Inductive num : Type :=
| Fin (q : Q)
| PInf
| NInf
| NaN.

Definition neg (a : num) : num :=
  match a with
  | Fin q => Fin (- q)
  | PInf => NInf
  | NInf => PInf
  | NaN => NaN
  end.

Definition add (a b : num) : num :=
  match a, b with
  | NaN, _ | _, NaN => NaN
  | Fin x, Fin y => Fin (x + y)
  | PInf, NInf | NInf, PInf => NaN
  | PInf, _ | _, PInf => PInf
  | NInf, _ | _, NInf => NInf
  end.

Definition sub (a b : num) : num := add a (neg b).

(** An infinity multiplied by a finite [q]: the sign of [q] decides, and
    [Infinity * 0] is [NaN]. *)
Definition scaleInf (pos : bool) (q : Q) : num :=
  match q ?= 0 with
  | Eq => NaN
  | Gt => if pos then PInf else NInf
  | Lt => if pos then NInf else PInf
  end.

Definition mul (a b : num) : num :=
  match a, b with
  | NaN, _ | _, NaN => NaN
  | Fin x, Fin y => Fin (x * y)
  | PInf, Fin y => scaleInf true y
  | NInf, Fin y => scaleInf false y
  | Fin x, PInf => scaleInf true x
  | Fin x, NInf => scaleInf false x
  | PInf, PInf | NInf, NInf => PInf
  | PInf, NInf | NInf, PInf => NInf
  end.

(** [x / 0] is [+Infinity], [-Infinity] or [NaN] by the sign of [x]
    (zero is taken as [+0]); [x / Infinity] is [0]. *)
Definition div (a b : num) : num :=
  match a, b with
  | NaN, _ | _, NaN => NaN
  | Fin x, Fin y =>
      match y ?= 0 with
      | Eq => match x ?= 0 with
              | Eq => NaN
              | Gt => PInf
              | Lt => NInf
              end
      | _ => Fin (x / y)
      end
  | Fin _, (PInf | NInf) => Fin 0
  | PInf, Fin y => match y ?= 0 with Lt => NInf | _ => PInf end
  | NInf, Fin y => match y ?= 0 with Lt => PInf | _ => NInf end
  | (PInf | NInf), (PInf | NInf) => NaN
  end.

(** The relational operators: every comparison with [NaN] is false. *)
Definition ltb (a b : num) : bool :=
  match a, b with
  | NaN, _ | _, NaN => false
  | Fin x, Fin y => match x ?= y with Lt => true | _ => false end
  | NInf, NInf => false
  | NInf, _ => true
  | _, NInf => false
  | PInf, _ => false
  | Fin _, PInf => true
  end.

(** Strict equality [===] on numbers. *)
Definition eqb (a b : num) : bool :=
  match a, b with
  | Fin x, Fin y => Qeq_bool x y
  | PInf, PInf | NInf, NInf => true
  | _, _ => false
  end.

Definition leb (a b : num) : bool := ltb a b || eqb a b.
Definition gtb (a b : num) : bool := ltb b a.
Definition geb (a b : num) : bool := leb b a.

(** Truthiness of a number: [0] and [NaN] are falsy. *)
Definition truthy (a : num) : bool :=
  match a with
  | Fin q => negb (Qeq_bool q 0)
  | NaN => false
  | _ => true
  end.

(** [Math.min] of two numbers. *)
Definition min (a b : num) : num :=
  match a, b with
  | NaN, _ | _, NaN => NaN
  | _, _ => if ltb b a then b else a
  end.

(** [Math.ceil]. *)
Definition ceil (a : num) : num :=
  match a with
  | Fin q => Fin (inject_Z (Qceiling q))
  | _ => a
  end.

(** Equality of numbers up to the representation of the rational. *)
Definition eqv (a b : num) : Prop :=
  match a, b with
  | Fin x, Fin y => x == y
  | PInf, PInf | NInf, NInf | NaN, NaN => True
  | _, _ => False
  end.

(** [toFixed(2)] of a finite number, as a number of hundredths: the
    integer [n] with [n / 100] closest to the magnitude, the larger one on
    a tie, with the sign put back. *)
Definition toFixed2_cents (q : Q) : Z :=
  match (q ?= 0)%Q with
  | Lt => (- Qfloor (- q * 100 + (1 # 2))%Q)%Z
  | _ => Qfloor (q * 100 + (1 # 2))%Q
  end.

Lemma eqv_refl a : eqv a a.
Proof. destruct a; simpl; auto. reflexivity. Qed.

Lemma eqv_sym a b : eqv a b -> eqv b a.
Proof. destruct a, b; simpl; auto. intros H; symmetry; exact H. Qed.

Lemma eqv_trans a b c : eqv a b -> eqv b c -> eqv a c.
Proof.
  destruct a, b, c; simpl; auto; try contradiction.
  intros H1 H2. rewrite H1. exact H2.
Qed.

Lemma Qcompare_Lt_iff (x y : Q) : (x ?= y) = Lt <-> x < y.
Proof. symmetry. apply Qlt_alt. Qed.

Lemma Qcompare_Gt_iff (x y : Q) : (x ?= y) = Gt <-> y < x.
Proof. symmetry. apply Qgt_alt. Qed.

Lemma Qcompare_Eq_iff (x y : Q) : (x ?= y) = Eq <-> x == y.
Proof. symmetry. apply Qeq_alt. Qed.

Lemma ltb_Fin (x y : Q) : ltb (Fin x) (Fin y) = true <-> x < y.
Proof.
  simpl. rewrite <- Qcompare_Lt_iff.
  destruct (x ?= y); split; congruence.
Qed.

Lemma ltb_Fin_false (x y : Q) : ltb (Fin x) (Fin y) = false <-> y <= x.
Proof.
  rewrite <- Bool.not_true_iff_false, ltb_Fin. split.
  - apply Qnot_lt_le.
  - apply Qle_not_lt.
Qed.

Lemma eqb_Fin (x y : Q) : eqb (Fin x) (Fin y) = true <-> x == y.
Proof. simpl. apply Qeq_bool_iff. Qed.

Lemma leb_Fin (x y : Q) : leb (Fin x) (Fin y) = true <-> x <= y.
Proof.
  unfold leb. rewrite Bool.orb_true_iff, ltb_Fin, eqb_Fin. split.
  - intros [H | H]; [apply Qlt_le_weak; exact H | rewrite H; apply Qle_refl].
  - intros H. destruct (Qlt_le_dec x y) as [Hlt | Hge]; [left; exact Hlt |].
    right. apply Qle_antisym; assumption.
Qed.

Lemma geb_Fin (x y : Q) : geb (Fin x) (Fin y) = true <-> y <= x.
Proof. unfold geb. apply leb_Fin. Qed.

Lemma geb_Fin_false (x y : Q) : geb (Fin x) (Fin y) = false <-> x < y.
Proof.
  rewrite <- Bool.not_true_iff_false, geb_Fin. split.
  - apply Qnot_le_lt.
  - apply Qlt_not_le.
Qed.

Lemma gtb_Fin (x y : Q) : gtb (Fin x) (Fin y) = true <-> y < x.
Proof. unfold gtb. apply ltb_Fin. Qed.

Lemma div_Fin_pos (x y : Q) : 0 < y -> div (Fin x) (Fin y) = Fin (x / y).
Proof.
  intros Hy. simpl. apply Qcompare_Gt_iff in Hy. rewrite Hy. reflexivity.
Qed.

Lemma div_Fin_nonzero (x y : Q) : ~ y == 0 -> div (Fin x) (Fin y) = Fin (x / y).
Proof.
  intros Hy. simpl. destruct (y ?= 0) eqn:E; try reflexivity.
  apply Qcompare_Eq_iff in E. contradiction.
Qed.

End JSNum.

(* ===================================================================== *)
(** * BudgetTracker.tsx                                                   *)
(* ===================================================================== *)

Module BudgetTracker.
Import JSNum.

Record BudgetModel : Type := {
  category_name : string;
  monthly_limit : num;
  current_spent : num;
  alert_threshold : num;
  is_active : bool
}.

Inductive Status : Type := ok | warning | exceeded.

(** [(budget.current_spent / budget.monthly_limit) * 100], the expression
    that [getBudgetStatus] and the card of each budget both evaluate. *)
Definition percentage (budget : BudgetModel) : num :=
  mul (div (current_spent budget) (monthly_limit budget)) (Fin 100).

Definition getBudgetStatus (budget : BudgetModel) : Status :=
  let percentage := percentage budget in
  if geb percentage (alert_threshold budget) then warning
  else if geb percentage (Fin 100) then exceeded
  else ok.

(** The value handed to the progress bar: [Math.min(percentage, 100)]. *)
Definition progressValue (budget : BudgetModel) : num :=
  min (percentage budget) (Fin 100).

(** The utilization as the specification words it: 0 for a zero limit. *)
Definition utilization_spec (budget : BudgetModel) : num :=
  if eqb (monthly_limit budget) (Fin 0) then Fin 0
  else mul (div (current_spent budget) (monthly_limit budget)) (Fin 100).

(** The status as the specification words it: the limit is looked at
    first, the alert threshold second. *)
Definition status_spec (budget : BudgetModel) : Status :=
  if geb (current_spent budget) (monthly_limit budget) then exceeded
  else if geb (utilization_spec budget) (alert_threshold budget) then warning
  else ok.

Definition mkBudget (limit spent threshold : Q) : BudgetModel :=
  {| category_name := "Food"; monthly_limit := Fin limit;
     current_spent := Fin spent; alert_threshold := Fin threshold;
     is_active := true |}.

(** The total utilization of DashboardOverview, over all budgets: here the
    division is guarded, and a total limit of 0 gives 0. *)
Definition budgetPercentage (budgets : list BudgetModel) : num :=
  let totalBudget := fold_left (fun sum b => add sum (monthly_limit b)) budgets (Fin 0) in
  let totalSpent := fold_left (fun sum b => add sum (current_spent b)) budgets (Fin 0) in
  if gtb totalBudget (Fin 0) then mul (div totalSpent totalBudget) (Fin 100)
  else Fin 0.

Section FiniteBudget.

Variable budget : BudgetModel.
Variables l s th : Q.
Hypothesis limit_is : monthly_limit budget = Fin l.
Hypothesis spent_is : current_spent budget = Fin s.
Hypothesis threshold_is : alert_threshold budget = Fin th.
Hypothesis limit_positive : 0 < l.

Lemma percentage_finite : percentage budget = Fin (s / l * 100).
Proof.
  unfold percentage. rewrite limit_is, spent_is.
  rewrite div_Fin_pos by exact limit_positive. reflexivity.
Qed.

Lemma percentage_ge_100 : 100 <= s / l * 100 <-> l <= s.
Proof.
  split; intros H.
  - destruct (Qlt_le_dec s l) as [Hlt | Hge]; [| exact Hge].
    assert (s / l < 1) by (apply Qlt_shift_div_r; lra). lra.
  - assert (1 <= s / l) by (apply Qle_shift_div_l; lra). lra.
Qed.

(** What the code computes for a positive limit: the threshold test comes
    first, so [exceeded] is only reached below the threshold. *)
Lemma getBudgetStatus_finite :
  getBudgetStatus budget =
    if Qle_bool th (s / l * 100) then warning
    else if Qle_bool l s then exceeded else ok.
Proof.
  unfold getBudgetStatus. rewrite percentage_finite, threshold_is.
  destruct (Qle_bool th (s / l * 100)) eqn:E1.
  - apply Qle_bool_iff in E1. apply geb_Fin in E1. rewrite E1. reflexivity.
  - assert (G1 : geb (Fin (s / l * 100)) (Fin th) = false).
    { apply geb_Fin_false. apply Qnot_le_lt. intros H.
      apply Qle_bool_iff in H. congruence. }
    rewrite G1. destruct (Qle_bool l s) eqn:E2.
    + apply Qle_bool_iff in E2. apply percentage_ge_100 in E2.
      apply geb_Fin in E2. rewrite E2. reflexivity.
    + assert (G2 : geb (Fin (s / l * 100)) (Fin 100) = false).
      { apply geb_Fin_false. apply Qnot_le_lt. intros H.
        apply percentage_ge_100 in H. apply Qle_bool_iff in H. congruence. }
      rewrite G2. reflexivity.
Qed.

(** With an alert threshold of at most 100 the status [exceeded] is never
    returned: a budget at or over its limit is reported as [warning]. *)
Lemma getBudgetStatus_never_exceeded :
  th <= 100 -> getBudgetStatus budget <> exceeded.
Proof.
  intros Hth. rewrite getBudgetStatus_finite.
  destruct (Qle_bool th (s / l * 100)) eqn:E1; [discriminate |].
  destruct (Qle_bool l s) eqn:E2; [| discriminate].
  exfalso. apply Qle_bool_iff in E2. apply percentage_ge_100 in E2.
  assert (H : th <= s / l * 100) by lra.
  apply Qle_bool_iff in H. congruence.
Qed.

Lemma status_spec_finite :
  status_spec budget =
    if Qle_bool l s then exceeded
    else if Qle_bool th (s / l * 100) then warning else ok.
Proof.
  unfold status_spec, utilization_spec.
  rewrite limit_is, spent_is, threshold_is.
  assert (Z0 : eqb (Fin l) (Fin 0) = false).
  { apply Bool.not_true_iff_false. rewrite eqb_Fin. lra. }
  rewrite Z0, div_Fin_pos by exact limit_positive. cbn [mul].
  destruct (Qle_bool l s) eqn:E2.
  - apply Qle_bool_iff in E2. apply geb_Fin in E2. rewrite E2. reflexivity.
  - assert (G : geb (Fin s) (Fin l) = false).
    { apply geb_Fin_false. apply Qnot_le_lt. intros H.
      apply Qle_bool_iff in H. congruence. }
    rewrite G. destruct (Qle_bool th (s / l * 100)) eqn:E1.
    + apply Qle_bool_iff in E1. apply geb_Fin in E1. rewrite E1. reflexivity.
    + assert (G1 : geb (Fin (s / l * 100)) (Fin th) = false).
      { apply geb_Fin_false. apply Qnot_le_lt. intros H.
        apply Qle_bool_iff in H. congruence. }
      rewrite G1. reflexivity.
Qed.

(** Below the limit the code and the specification agree. *)
Lemma getBudgetStatus_below_limit :
  s < l -> getBudgetStatus budget = status_spec budget.
Proof.
  intros Hs. rewrite getBudgetStatus_finite, status_spec_finite.
  assert (L : Qle_bool l s = false).
  { apply Bool.not_true_iff_false. rewrite Qle_bool_iff. lra. }
  rewrite L. destruct (Qle_bool th (s / l * 100)); reflexivity.
Qed.

(** At or over the limit they differ as soon as the threshold is
    reached, and it is reached whenever it is at most 100. *)
Lemma getBudgetStatus_at_or_over_limit :
  l <= s -> th <= 100 ->
  getBudgetStatus budget = warning /\ status_spec budget = exceeded.
Proof.
  intros Hs Hth. rewrite getBudgetStatus_finite, status_spec_finite.
  assert (L : Qle_bool l s = true) by (apply Qle_bool_iff; exact Hs).
  assert (T : Qle_bool th (s / l * 100) = true).
  { apply Qle_bool_iff. apply percentage_ge_100 in Hs. lra. }
  rewrite L, T. split; reflexivity.
Qed.

End FiniteBudget.

(** C1 (the code departs from the claim).  A budget with limit 100, spent
    100 and the default alert threshold 80 has reached its limit, so the
    claimed status is [exceeded]; [getBudgetStatus] tests the threshold
    before the limit and returns [warning]. *)
Theorem getBudgetStatus_at_limit_is_warning :
  getBudgetStatus (mkBudget 100 100 80) = warning /\
  status_spec (mkBudget 100 100 80) = exceeded.
Proof. split; reflexivity. Qed.

(** Division by a zero limit is not guarded: the percentage is an
    infinity or [NaN] by the sign of the amount spent. *)
Lemma percentage_zero_limit (budget : BudgetModel) (s : Q) :
  monthly_limit budget = Fin 0 -> current_spent budget = Fin s ->
  percentage budget =
    match s ?= 0 with Eq => NaN | Gt => PInf | Lt => NInf end.
Proof.
  intros El Es. unfold percentage. rewrite El, Es. simpl.
  destruct (s ?= 0); reflexivity.
Qed.

(** C2 (the code departs from the claim).  For a budget with limit 0 and
    50 spent the claimed utilization is 0; the code divides by the limit
    without a guard, the percentage is [+Infinity] and the status is
    [warning].  With nothing spent the percentage is [NaN].  The total
    utilization of the overview, which has the guard, is 0 on the same
    budget. *)
Theorem percentage_zero_limit_not_zero :
  percentage (mkBudget 0 50 80) = PInf /\
  getBudgetStatus (mkBudget 0 50 80) = warning /\
  percentage (mkBudget 0 0 80) = NaN /\
  utilization_spec (mkBudget 0 50 80) = Fin 0 /\
  budgetPercentage [mkBudget 0 50 80] = Fin 0.
Proof. repeat split; reflexivity. Qed.

(** The two inputs above once more, in binary64 arithmetic: the results
    do not come from the rational model of the numbers. *)
Module Binary64.
Import PrimFloat.

Definition percentage64 (current_spent monthly_limit : float) : float :=
  PrimFloat.mul (PrimFloat.div current_spent monthly_limit) 100%float.

Definition getBudgetStatus64 (current_spent monthly_limit alert_threshold : float)
  : Status :=
  let percentage := percentage64 current_spent monthly_limit in
  if PrimFloat.leb alert_threshold percentage then warning
  else if PrimFloat.leb 100%float percentage then exceeded
  else ok.

Example at_limit_is_warning64 :
  getBudgetStatus64 100%float 100%float 80%float = warning.
Proof. reflexivity. Qed.

Example zero_limit_is_infinite64 :
  percentage64 50%float 0%float = infinity /\
  getBudgetStatus64 50%float 0%float 80%float = warning /\
  PrimFloat.is_nan (percentage64 0%float 0%float) = true.
Proof. repeat split; reflexivity. Qed.

End Binary64.

End BudgetTracker.

(* ===================================================================== *)
(** * SavingsGoals.tsx                                                    *)
(* ===================================================================== *)

Module SavingsGoals.
Import JSNum.

Record SavingsGoalModel : Type := {
  goal_name : string;
  target_amount : num;
  current_amount : num;
  deadline : option string;
  priority_level : Z;
  is_completed : bool
}.

Record Milestone : Type := {
  percentage : num;
  label : string;
  message : string
}.

Definition MILESTONES : list Milestone :=
  [ {| percentage := Fin 25; label := "25% Complete";
       message := "Great start! You're building momentum!" |};
    {| percentage := Fin 50; label := "Halfway There!";
       message := "Amazing progress! Keep it going!" |};
    {| percentage := Fin 75; label := "75% Complete";
       message := "You're so close! Don't give up now!" |};
    {| percentage := Fin 100; label := "Goal Achieved!";
       message := "Congratulations! You did it!" |} ].

(** The toasts of [handleAddContribution], one constructor per call of
    [toast.error] or [toast.success] in the handler. *)
Inductive Toast : Type :=
| InvalidAmount
    (* toast.error("Please enter a valid amount") *)
| MilestoneAchieved (m : Milestone)
    (* toast.success(m.label, { description: m.message, duration: 5000 }) *)
| Added (amount newBalance : num)
    (* toast.success(`Added $..`, { description: `New balance: $..` }) *)
| FailedToAdd.
    (* toast.error("Failed to add contribution") *)

(** What one run of the handler does: the toast it shows and the record
    it has stored through the ORM, if the write went through. *)
Record Outcome : Type := {
  toast : Toast;
  stored : option SavingsGoalModel
}.

Definition oldPercentage (goal : SavingsGoalModel) : num :=
  mul (div (current_amount goal) (target_amount goal)) (Fin 100).

Definition newPercentage (goal : SavingsGoalModel) (newAmount : num) : num :=
  mul (div newAmount (target_amount goal)) (Fin 100).

Definition crosses (oldP newP : num) (m : Milestone) : bool :=
  ltb oldP (percentage m) && geb newP (percentage m).

Definition achievedMilestone (goal : SavingsGoalModel) (newAmount : num)
  : option Milestone :=
  find (crosses (oldPercentage goal) (newPercentage goal newAmount)) MILESTONES.

(** [contributionAmount] is the text of the amount field: [None] for the
    empty text, [Some v] with [v] the value [parseFloat] reads from it.
    [ormOk] tells whether [orm.setSavingsGoalById] resolves or rejects. *)
Definition handleAddContribution
    (contributionAmount : option num) (ormOk : bool)
    (goal : SavingsGoalModel) : Outcome :=
  match contributionAmount with
  | None => {| toast := InvalidAmount; stored := None |}
  | Some amount =>
      if leb amount (Fin 0) then {| toast := InvalidAmount; stored := None |}
      else
        let newAmount := add (current_amount goal) amount in
        let isCompleted := geb newAmount (target_amount goal) in
        let achieved := achievedMilestone goal newAmount in
        let updated :=
          {| goal_name := goal_name goal;
             target_amount := target_amount goal;
             current_amount := newAmount;
             deadline := deadline goal;
             priority_level := priority_level goal;
             is_completed := isCompleted |} in
        if ormOk then
          {| toast := match achieved with
                      | Some m => MilestoneAchieved m
                      | None => Added amount newAmount
                      end;
             stored := Some updated |}
        else {| toast := FailedToAdd; stored := None |}
  end.

Definition getProgress (goal : SavingsGoalModel) : num :=
  min (mul (div (current_amount goal) (target_amount goal)) (Fin 100)) (Fin 100).

Definition mkGoal (target current : Q) : SavingsGoalModel :=
  {| goal_name := "Vacation"; target_amount := Fin target;
     current_amount := Fin current; deadline := None;
     priority_level := 2; is_completed := false |}.

(** The milestone messages shown by one run: at most one. *)
Definition milestoneMessages (o : Outcome) : list string :=
  match toast o with
  | MilestoneAchieved m => [message m]
  | _ => []
  end.













(** The two examples of milestone detection: from 20% to 30%, and from
    10% to 90%, the message of the 25% milestone and no other. *)
Example milestone_examples :
  milestoneMessages (handleAddContribution (Some (Fin 10)) true (mkGoal 100 20))
    = ["Great start! You're building momentum!"%string] /\
  milestoneMessages (handleAddContribution (Some (Fin 80)) true (mkGoal 100 10))
    = ["Great start! You're building momentum!"%string] /\
  milestoneMessages (handleAddContribution (Some (Fin 1)) true (mkGoal 100 30))
    = [].
Proof. repeat split; reflexivity. Qed.




End SavingsGoals.

(* ===================================================================== *)
(** * SubscriptionTracker.tsx                                             *)
(* ===================================================================== *)

Module SubscriptionTracker.
Import JSNum.

Record SubscriptionModel : Type := {
  service_name : string;
  amount : num;
  billing_cycle : Z;
  next_billing_date : string;
  category : string;
  is_active : bool
}.

(** An entry of [BILLING_CYCLES].  [value] is the enum member whose
    decimal text the entry holds; [bc.value === cycle.toString()] then is
    equality of the two members. *)
Record BillingCycle : Type := {
  value : Z;
  label : string;
  multiplier : num
}.

Section Cycles.

(** The enum [SubscriptionBillingCycle] is declared by the generated ORM
    client, which is not part of the sources: the numeric values of its
    three members are parameters, pairwise different as enum members are. *)
Variables Weekly Monthly Yearly : Z.
Hypothesis members_distinct : NoDup [Weekly; Monthly; Yearly].

Definition BILLING_CYCLES : list BillingCycle :=
  [ {| value := Weekly; label := "Weekly"; multiplier := Fin 52 |};
    {| value := Monthly; label := "Monthly"; multiplier := Fin 12 |};
    {| value := Yearly; label := "Yearly"; multiplier := Fin 1 |} ].

Definition getYearlyCost (amount : num) (cycle : Z) : num :=
  let multiplier :=
    match find (fun bc => Z.eqb (value bc) cycle) BILLING_CYCLES with
    | Some bc => if truthy (multiplier bc) then multiplier bc else Fin 12
    | None => Fin 12
    end in
  mul amount multiplier.

Definition getTotalMonthlySpend (subscriptions : list SubscriptionModel) : num :=
  fold_left
    (fun total sub =>
       let yearlyCost := getYearlyCost (amount sub) (billing_cycle sub) in
       add total (div yearlyCost (Fin 12)))
    (filter is_active subscriptions) (Fin 0).

Definition getTotalYearlySpend (subscriptions : list SubscriptionModel) : num :=
  fold_left
    (fun total sub => add total (getYearlyCost (amount sub) (billing_cycle sub)))
    (filter is_active subscriptions) (Fin 0).

(** The multiplier as the specification words it. *)
Definition multiplier_spec (cycle : Z) : Q :=
  if Z.eqb cycle Weekly then 52
  else if Z.eqb cycle Monthly then 12
  else if Z.eqb cycle Yearly then 1
  else 12.

(** The sum of [f] over exactly the active subscriptions. *)
Fixpoint sum_active (f : SubscriptionModel -> num)
    (subscriptions : list SubscriptionModel) : num :=
  match subscriptions with
  | [] => Fin 0
  | sub :: rest =>
      if is_active sub then add (f sub) (sum_active f rest)
      else sum_active f rest
  end.

Definition yearly_of (sub : SubscriptionModel) : num :=
  mul (amount sub) (Fin (multiplier_spec (billing_cycle sub))).

Definition monthly_of (sub : SubscriptionModel) : num :=
  div (yearly_of sub) (Fin 12).

Definition weekly10 : SubscriptionModel :=
  {| service_name := "Gym"; amount := Fin 10; billing_cycle := Weekly;
     next_billing_date := "2025-01-01"; category := "fitness";
     is_active := true |}.

Lemma getYearlyCost_spec (a : num) (cycle : Z) :
  getYearlyCost a cycle = mul a (Fin (multiplier_spec cycle)).
Proof.
  unfold getYearlyCost, multiplier_spec, BILLING_CYCLES. simpl find.
  rewrite (Z.eqb_sym cycle Weekly), (Z.eqb_sym cycle Monthly),
    (Z.eqb_sym cycle Yearly).
  destruct (Weekly =? cycle)%Z; [reflexivity |].
  destruct (Monthly =? cycle)%Z; [reflexivity |].
  destruct (Yearly =? cycle)%Z; reflexivity.
Qed.

Lemma members_ne :
  Weekly <> Monthly /\ Weekly <> Yearly /\ Monthly <> Yearly.
Proof.
  inversion members_distinct as [| x l Hw Hr]; subst.
  inversion Hr as [| y l' Hm _]; subst.
  simpl in Hw, Hm. repeat split; intros E; subst; tauto.
Qed.

Lemma multiplier_spec_members :
  multiplier_spec Weekly = 52 /\ multiplier_spec Monthly = 12 /\
  multiplier_spec Yearly = 1 /\
  forall cycle, cycle <> Weekly -> cycle <> Monthly -> cycle <> Yearly ->
                multiplier_spec cycle = 12.
Proof.
  destruct members_ne as [Hwm [Hwy Hmy]]. unfold multiplier_spec.
  rewrite !Z.eqb_refl.
  assert (E1 : (Monthly =? Weekly)%Z = false) by (apply Z.eqb_neq; congruence).
  assert (E2 : (Yearly =? Weekly)%Z = false) by (apply Z.eqb_neq; congruence).
  assert (E3 : (Yearly =? Monthly)%Z = false) by (apply Z.eqb_neq; congruence).
  rewrite E1, E2, E3. repeat split.
  intros cycle H1 H2 H3.
  apply Z.eqb_neq in H1, H2, H3. rewrite H1, H2, H3. reflexivity.
Qed.

End Cycles.

Lemma add_assoc (a b c : num) : eqv (add (add a b) c) (add a (add b c)).
Proof. destruct a, b, c; simpl; auto. ring. Qed.

Lemma add_zero_l (a : num) : eqv (add (Fin 0) a) a.
Proof. destruct a; simpl; auto. ring. Qed.

Lemma add_zero_r (a : num) : eqv (add a (Fin 0)) a.
Proof. destruct a; simpl; auto. ring. Qed.

Lemma add_eqv (a a' b b' : num) :
  eqv a a' -> eqv b b' -> eqv (add a b) (add a' b').
Proof.
  destruct a, a', b, b'; simpl; auto; try contradiction.
  intros H1 H2. rewrite H1, H2. reflexivity.
Qed.

Lemma fold_left_add (A : Type) (f : A -> num) (l : list A) (acc : num) :
  eqv (fold_left (fun total x => add total (f x)) l acc)
      (add acc (fold_right (fun x r => add (f x) r) (Fin 0) l)).
Proof.
  revert acc. induction l as [| x l IH]; intros acc; simpl.
  - apply eqv_sym, add_zero_r.
  - eapply eqv_trans; [apply IH |]. apply add_assoc.
Qed.

Lemma sum_active_filter (f : SubscriptionModel -> num) (l : list SubscriptionModel) :
  fold_right (fun x r => add (f x) r) (Fin 0) (filter is_active l) = sum_active f l.
Proof.
  induction l as [| x l IH]; simpl; [reflexivity |].
  destruct (is_active x); simpl; rewrite IH; reflexivity.
Qed.

Lemma sum_active_inactive (f : SubscriptionModel -> num)
    (l1 l2 : list SubscriptionModel) (sub : SubscriptionModel) :
  is_active sub = false ->
  sum_active f (l1 ++ sub :: l2) = sum_active f (l1 ++ l2).
Proof.
  intros Hs. induction l1 as [| x l1 IH]; simpl.
  - rewrite Hs. reflexivity.
  - rewrite IH. reflexivity.
Qed.

Lemma sum_active_ext (f g : SubscriptionModel -> num) (l : list SubscriptionModel) :
  (forall sub, f sub = g sub) -> sum_active f l = sum_active g l.
Proof.
  intros E. induction l as [| x l IH]; simpl; [reflexivity |].
  rewrite IH, E. reflexivity.
Qed.

Lemma totals_as_sums (W M Y : Z) (subscriptions : list SubscriptionModel) :
  eqv (getTotalYearlySpend W M Y subscriptions)
      (sum_active (yearly_of W M Y) subscriptions) /\
  eqv (getTotalMonthlySpend W M Y subscriptions)
      (sum_active (monthly_of W M Y) subscriptions).
Proof.
  unfold getTotalYearlySpend, getTotalMonthlySpend. split.
  - eapply eqv_trans;
      [apply (fold_left_add
                (fun sub => getYearlyCost W M Y (amount sub) (billing_cycle sub))) |].
    eapply eqv_trans; [apply add_zero_l |].
    rewrite sum_active_filter.
    rewrite (sum_active_ext _ (yearly_of W M Y)); [apply eqv_refl |].
    intros sub. apply getYearlyCost_spec.
  - eapply eqv_trans;
      [apply (fold_left_add
                (fun sub => div (getYearlyCost W M Y (amount sub) (billing_cycle sub))
                                (Fin 12))) |].
    eapply eqv_trans; [apply add_zero_l |].
    rewrite sum_active_filter.
    rewrite (sum_active_ext _ (monthly_of W M Y)); [apply eqv_refl |].
    intros sub. unfold monthly_of, yearly_of. rewrite getYearlyCost_spec.
    reflexivity.
Qed.

(** C10.  The yearly total is the sum over the active subscriptions of
    amount x multiplier, with multiplier 52 for weekly, 12 for monthly, 1
    for yearly and 12 for any other billing cycle; the monthly total is
    the sum of the yearly costs divided by 12.  An amount of 10 billed
    weekly gives 520 a year and 43.33 a month, and an inactive
    subscription changes neither total. *)
Theorem subscription_totals (W M Y : Z) (subscriptions : list SubscriptionModel) :
  NoDup [W; M; Y] ->
  (multiplier_spec W M Y W = 52 /\ multiplier_spec W M Y M = 12 /\
   multiplier_spec W M Y Y = 1 /\
   forall cycle, cycle <> W -> cycle <> M -> cycle <> Y ->
                 multiplier_spec W M Y cycle = 12) /\
  (forall a cycle,
      getYearlyCost W M Y a cycle = mul a (Fin (multiplier_spec W M Y cycle))) /\
  eqv (getTotalYearlySpend W M Y subscriptions)
      (sum_active (fun sub => mul (amount sub)
                                  (Fin (multiplier_spec W M Y (billing_cycle sub))))
                  subscriptions) /\
  eqv (getTotalMonthlySpend W M Y subscriptions)
      (sum_active (fun sub => div (mul (amount sub)
                                       (Fin (multiplier_spec W M Y (billing_cycle sub))))
                                  (Fin 12))
                  subscriptions) /\
  (eqv (getTotalYearlySpend W M Y [weekly10 W]) (Fin 520) /\
   exists q, getTotalMonthlySpend W M Y [weekly10 W] = Fin q /\
             toFixed2_cents q = 4333%Z) /\
  (forall l1 l2 sub, is_active sub = false ->
      eqv (getTotalYearlySpend W M Y (l1 ++ sub :: l2))
          (getTotalYearlySpend W M Y (l1 ++ l2)) /\
      eqv (getTotalMonthlySpend W M Y (l1 ++ sub :: l2))
          (getTotalMonthlySpend W M Y (l1 ++ l2))).
Proof.
  intros Hd. split; [exact (multiplier_spec_members Hd) |].
  split; [intros a cycle; apply getYearlyCost_spec |].
  split; [exact (proj1 (totals_as_sums W M Y subscriptions)) |].
  split; [exact (proj2 (totals_as_sums W M Y subscriptions)) |].
  split.
  - unfold getTotalYearlySpend, getTotalMonthlySpend.
    cbn [filter fold_left is_active amount billing_cycle weekly10].
    rewrite getYearlyCost_spec.
    destruct (multiplier_spec_members Hd) as [E _]. rewrite E. split.
    + vm_compute. reflexivity.
    + eexists. split; [reflexivity |]. vm_compute. reflexivity.
  - intros l1 l2 sub Hs. split.
    + eapply eqv_trans; [apply totals_as_sums |].
      rewrite (sum_active_inactive _ l1 l2 sub Hs).
      apply eqv_sym, totals_as_sums.
    + eapply eqv_trans; [apply totals_as_sums |].
      rewrite (sum_active_inactive _ l1 l2 sub Hs).
      apply eqv_sym, totals_as_sums.
Qed.

Lemma subscription_totals_witness :
  NoDup [1; 2; 3]%Z /\
  eqv (getTotalYearlySpend 1 2 3 [weekly10 1]) (Fin 520).
Proof.
  assert (Hd : NoDup [1; 2; 3]%Z).
  { repeat constructor; simpl; intuition discriminate. }
  split; [exact Hd |].
  exact (proj1 (proj1 (proj2 (proj2 (proj2 (proj2
           (@subscription_totals 1 2 3 [] Hd))))))).
Defined.

End SubscriptionTracker.

(* ===================================================================== *)
(** * Dates                                                               *)
(* ===================================================================== *)

(** The [Date] of JavaScript, after the definitions of the language
    standard: a time value in milliseconds, split into a day number and a
    time within the day, and the civil fields computed from the day
    number.  Time values are read in local time, and the offset of local
    time is taken as constant (no daylight saving shift). *)
Module JSDate.
Local Open Scope Z_scope.

Definition msPerDay : Z := 86400000.

Definition Day (t : Z) : Z := t / msPerDay.
Definition TimeWithinDay (t : Z) : Z := t mod msPerDay.

Definition DayFromYear (y : Z) : Z :=
  365 * (y - 1970) + (y - 1969) / 4 - (y - 1901) / 100 + (y - 1601) / 400.

Definition InLeapYear (y : Z) : bool :=
  ((y mod 4 =? 0) && negb (y mod 100 =? 0)) || (y mod 400 =? 0).

Definition leapDay (y : Z) : Z := if InLeapYear y then 1 else 0.

Definition DaysInYear (y : Z) : Z := 365 + leapDay y.

(** The largest [y] with [DayFromYear y <= d]: an estimate from the mean
    length of a year, corrected by at most one year either way. *)
Definition YearFromDay (d : Z) : Z :=
  let y0 := 1970 + (400 * d) / 146097 in
  if DayFromYear (y0 + 1) <=? d then y0 + 1
  else if DayFromYear y0 <=? d then y0
  else y0 - 1.

(** The day within the year on which month [m] (0 to 11) begins. *)
Definition DaysBeforeMonth (y m : Z) : Z :=
  let L := leapDay y in
  match m with
  | 0 => 0
  | 1 => 31
  | 2 => 59 + L
  | 3 => 90 + L
  | 4 => 120 + L
  | 5 => 151 + L
  | 6 => 181 + L
  | 7 => 212 + L
  | 8 => 243 + L
  | 9 => 273 + L
  | 10 => 304 + L
  | _ => 334 + L
  end.

Definition DaysInMonth (y m : Z) : Z :=
  match m with
  | 1 => 28 + leapDay y
  | 3 | 5 | 8 | 10 => 30
  | _ => 31
  end.

Definition DayWithinYear (d : Z) : Z := d - DayFromYear (YearFromDay d).

Definition MonthFromDay (d : Z) : Z :=
  let w := DayWithinYear d in
  let L := leapDay (YearFromDay d) in
  if w <? 31 then 0
  else if w <? 59 + L then 1
  else if w <? 90 + L then 2
  else if w <? 120 + L then 3
  else if w <? 151 + L then 4
  else if w <? 181 + L then 5
  else if w <? 212 + L then 6
  else if w <? 243 + L then 7
  else if w <? 273 + L then 8
  else if w <? 304 + L then 9
  else if w <? 334 + L then 10
  else 11.

Definition DateFromDay (d : Z) : Z :=
  DayWithinYear d - DaysBeforeMonth (YearFromDay d) (MonthFromDay d) + 1.

Definition WeekDay (d : Z) : Z := (d + 4) mod 7.

Definition MakeTime (hour min sec ms : Z) : Z :=
  hour * 3600000 + min * 60000 + sec * 1000 + ms.

Definition MakeDay (year month date : Z) : Z :=
  let ym := year + month / 12 in
  let mn := month mod 12 in
  DayFromYear ym + DaysBeforeMonth ym mn + date - 1.

Definition MakeDate (day time : Z) : Z := day * msPerDay + time.

(** A [Date] is its time value, read in local time. *)
Definition Date : Type := Z.

Definition getFullYear (t : Date) : Z := YearFromDay (Day t).
Definition getMonth (t : Date) : Z := MonthFromDay (Day t).
Definition getDate (t : Date) : Z := DateFromDay (Day t).
Definition getDay (t : Date) : Z := WeekDay (Day t).

Definition setDate (t : Date) (date : Z) : Date :=
  MakeDate (MakeDay (getFullYear t) (getMonth t) date) (TimeWithinDay t).

Definition setMonth (t : Date) (month date : Z) : Date :=
  MakeDate (MakeDay (getFullYear t) month date) (TimeWithinDay t).

Definition setFullYear (t : Date) (year month date : Z) : Date :=
  MakeDate (MakeDay year month date) (TimeWithinDay t).

Definition setHours (t : Date) (hour min sec ms : Z) : Date :=
  MakeDate (Day t) (MakeTime hour min sec ms).

Lemma DayFromYear_succ y : DayFromYear (y + 1) = DayFromYear y + DaysInYear y.
Proof.
  unfold DayFromYear, DaysInYear, leapDay, InLeapYear.
  destruct (y mod 4 =? 0) eqn:E4; destruct (y mod 100 =? 0) eqn:E100;
    destruct (y mod 400 =? 0) eqn:E400; cbn [andb orb negb];
    rewrite ?Z.eqb_eq, ?Z.eqb_neq in *;
    Z.to_euclidean_division_equations; lia.
Qed.

Lemma leapDay_range y : 0 <= leapDay y <= 1.
Proof. unfold leapDay. destruct (InLeapYear y); lia. Qed.

Lemma YearFromDay_bounds d :
  DayFromYear (YearFromDay d) <= d < DayFromYear (YearFromDay d + 1).
Proof.
  unfold YearFromDay.
  destruct (DayFromYear (1970 + 400 * d / 146097 + 1) <=? d) eqn:E1.
  - apply Z.leb_le in E1. split; [exact E1 |].
    unfold DayFromYear in *. Z.to_euclidean_division_equations; lia.
  - apply Z.leb_gt in E1.
    destruct (DayFromYear (1970 + 400 * d / 146097) <=? d) eqn:E2.
    + apply Z.leb_le in E2. split; [exact E2 | exact E1].
    + apply Z.leb_gt in E2.
      replace (1970 + 400 * d / 146097 - 1 + 1)
        with (1970 + 400 * d / 146097) by lia.
      split; [| exact E2].
      unfold DayFromYear in *. Z.to_euclidean_division_equations; lia.
Qed.

Lemma DayFromYear_mono y y' : y < y' -> DayFromYear (y + 1) <= DayFromYear y'.
Proof.
  intros H. unfold DayFromYear. Z.to_euclidean_division_equations; lia.
Qed.

Lemma YearFromDay_unique y d :
  DayFromYear y <= d < DayFromYear (y + 1) -> YearFromDay d = y.
Proof.
  intros [H1 H2]. pose proof (YearFromDay_bounds d) as [B1 B2].
  destruct (Z.lt_trichotomy (YearFromDay d) y) as [Hlt | [Heq | Hgt]].
  - pose proof (DayFromYear_mono Hlt). lia.
  - exact Heq.
  - pose proof (DayFromYear_mono Hgt). lia.
Qed.

Lemma DayWithinYear_range d :
  0 <= DayWithinYear d < DaysInYear (YearFromDay d).
Proof.
  unfold DayWithinYear. pose proof (YearFromDay_bounds d) as [B1 B2].
  rewrite DayFromYear_succ in B2. lia.
Qed.

Ltac eval_pred :=
  repeat match goal with
         | |- context [Z.pos ?p - 1] =>
             let v := eval compute in (Z.pos p - 1) in
             change (Z.pos p - 1) with v
         end.

Ltac month_cases m H :=
  assert (m = 0 \/ m = 1 \/ m = 2 \/ m = 3 \/ m = 4 \/ m = 5 \/ m = 6 \/
          m = 7 \/ m = 8 \/ m = 9 \/ m = 10 \/ m = 11) as H by lia;
  repeat (destruct H as [H | H]); subst m.

Lemma MakeDay_month_in_range y m dt :
  0 <= m <= 11 ->
  MakeDay y m dt = DayFromYear y + DaysBeforeMonth y m + dt - 1.
Proof.
  intros Hm. unfold MakeDay.
  rewrite Z.div_small, Z.mod_small, Z.add_0_r by lia. reflexivity.
Qed.

Lemma MonthFromDay_spec d :
  let y := YearFromDay d in
  let m := MonthFromDay d in
  0 <= m <= 11 /\
  DaysBeforeMonth y m <= DayWithinYear d < DaysBeforeMonth y m + DaysInMonth y m.
Proof.
  pose proof (DayWithinYear_range d) as Hw.
  pose proof (leapDay_range (YearFromDay d)) as HL.
  unfold DaysInYear in Hw. unfold MonthFromDay. cbv zeta.
  repeat match goal with
         | |- context [?a <? ?b] =>
             let E := fresh "E" in
             destruct (a <? b) eqn:E;
             [apply Z.ltb_lt in E | apply Z.ltb_ge in E]
         end;
    unfold DaysBeforeMonth, DaysInMonth; lia.
Qed.

(** Every day number is the day of one civil date. *)
Lemma civil_of_day d :
  0 <= MonthFromDay d <= 11 /\
  1 <= DateFromDay d <= DaysInMonth (YearFromDay d) (MonthFromDay d) /\
  MakeDay (YearFromDay d) (MonthFromDay d) (DateFromDay d) = d.
Proof.
  destruct (MonthFromDay_spec d) as [Hm Hw].
  split; [exact Hm |]. rewrite MakeDay_month_in_range by exact Hm.
  unfold DateFromDay. unfold DayWithinYear in *. lia.
Qed.

(** A civil date is recovered from its day number. *)
Lemma day_of_civil y m dt :
  0 <= m <= 11 -> 1 <= dt <= DaysInMonth y m ->
  YearFromDay (MakeDay y m dt) = y /\
  MonthFromDay (MakeDay y m dt) = m /\
  DateFromDay (MakeDay y m dt) = dt.
Proof.
  intros Hm Hdt. rewrite MakeDay_month_in_range by exact Hm.
  set (d := DayFromYear y + DaysBeforeMonth y m + dt - 1).
  pose proof (leapDay_range y) as HL.
  assert (Hy : YearFromDay d = y).
  { apply YearFromDay_unique. rewrite DayFromYear_succ. unfold DaysInYear.
    subst d. clear - Hm Hdt HL. month_cases m H;
      unfold DaysBeforeMonth, DaysInMonth in *; lia. }
  destruct (MonthFromDay_spec d) as [Hm' Hw]. cbv zeta in Hw.
  unfold DateFromDay. unfold DayWithinYear in *. rewrite Hy in *.
  assert (Em : MonthFromDay d = m).
  { generalize dependent (MonthFromDay d). intros m' Hm' Hw. subst d.
    clear - Hm Hdt HL Hm' Hw.
    month_cases m H; month_cases m' H';
      unfold DaysBeforeMonth, DaysInMonth in *; lia. }
  rewrite Em. split; [reflexivity |]. split; [reflexivity |]. subst d. lia.
Qed.

Lemma Day_MakeDate day time :
  0 <= time < msPerDay ->
  Day (MakeDate day time) = day /\ TimeWithinDay (MakeDate day time) = time.
Proof.
  intros Ht. unfold Day, TimeWithinDay, MakeDate, msPerDay in *.
  Z.to_euclidean_division_equations; lia.
Qed.

Lemma MakeDate_Day t : MakeDate (Day t) (TimeWithinDay t) = t.
Proof.
  unfold Day, TimeWithinDay, MakeDate, msPerDay.
  Z.to_euclidean_division_equations; lia.
Qed.

Lemma TimeWithinDay_range t : 0 <= TimeWithinDay t < msPerDay.
Proof. unfold TimeWithinDay, msPerDay. apply Z.mod_pos_bound. lia. Qed.

Lemma MakeDay_shift y m dt k : MakeDay y m (dt + k) = MakeDay y m dt + k.
Proof. unfold MakeDay. lia. Qed.

Lemma MakeDay_civil (t : Date) :
  MakeDay (getFullYear t) (getMonth t) (getDate t) = Day t.
Proof. apply civil_of_day. Qed.

Lemma MakeDate_shift day k time :
  MakeDate (day + k) time = MakeDate day time + k * msPerDay.
Proof. unfold MakeDate. lia. Qed.

(** [setDate] with an offset from the current date moves the time value by
    whole days, across the ends of months and years. *)
Lemma setDate_shift (t : Date) k :
  setDate t (getDate t + k) = t + k * msPerDay.
Proof.
  unfold setDate. rewrite MakeDay_shift, MakeDay_civil, MakeDate_shift.
  rewrite MakeDate_Day. reflexivity.
Qed.

Lemma MakeTime_start : MakeTime 0 0 0 0 = 0.
Proof. reflexivity. Qed.

Lemma MakeTime_end : MakeTime 23 59 59 999 = msPerDay - 1.
Proof. reflexivity. Qed.

Lemma Day_shift (t : Date) k : Day (t + k * msPerDay) = Day t + k.
Proof. unfold Day, msPerDay. rewrite Z.div_add by lia. reflexivity. Qed.

Lemma TimeWithinDay_shift (t : Date) k :
  TimeWithinDay (t + k * msPerDay) = TimeWithinDay t.
Proof. unfold TimeWithinDay, msPerDay. rewrite Z.mod_add by lia. reflexivity. Qed.

Lemma MakeDate_end day : MakeDate day (msPerDay - 1) = MakeDate (day + 1) 0 - 1.
Proof. unfold MakeDate. lia. Qed.

Lemma MakeDay_zero_pred y m : MakeDay y m 0 = MakeDay y m 1 - 1.
Proof. unfold MakeDay. lia. Qed.

(** Months outside 0..11 carry into the year. *)
Lemma MakeDay_carry y m k dt : MakeDay y (m + k * 12) dt = MakeDay (y + k) m dt.
Proof.
  unfold MakeDay. rewrite Z.div_add, Z.mod_add by lia.
  replace (y + (m / 12 + k)) with (y + k + m / 12) by lia. reflexivity.
Qed.

(** The day before the first day of a month is the last day of the month
    before it, in the year before when the month is January. *)
Lemma MakeDay_zero y m :
  0 <= m <= 11 ->
  let y' := if m =? 0 then y - 1 else y in
  let m' := if m =? 0 then 11 else m - 1 in
  MakeDay y m 0 = MakeDay y' m' (DaysInMonth y' m') /\ 0 <= m' <= 11 /\
  1 <= DaysInMonth y' m' /\ MakeDay y' (m' + 1) 1 = MakeDay y m 1.
Proof.
  intros Hm. cbv zeta.
  pose proof (leapDay_range y) as HL. pose proof (leapDay_range (y - 1)) as HL'.
  pose proof (DayFromYear_succ (y - 1)) as Hs.
  replace (y - 1 + 1) with y in Hs by lia. unfold DaysInYear in Hs.
  destruct (m =? 0) eqn:E0.
  - apply Z.eqb_eq in E0. subst m.
    replace (11 + 1) with (0 + 1 * 12) by lia. rewrite MakeDay_carry.
    replace (y - 1 + 1) with y by lia.
    rewrite !MakeDay_month_in_range by lia.
    unfold DaysBeforeMonth, DaysInMonth. repeat split; lia.
  - apply Z.eqb_neq in E0. replace (m - 1 + 1) with m by lia.
    rewrite !MakeDay_month_in_range by lia.
    split; [| split; [lia | split; [| reflexivity]]].
    + month_cases m H; eval_pred; unfold DaysBeforeMonth, DaysInMonth; lia.
    + month_cases m H; eval_pred; unfold DaysInMonth; lia.
Qed.

End JSDate.


(** The functions of date-fns that SpendingAnalytics.tsx imports, written
    with the getters and setters of [Date] as the library writes them. *)
Module DateFns.
Import JSDate.
Local Open Scope Z_scope.

(** The first day of the week of the default locale: Sunday. *)
Definition weekStartsOn : Z := 0.

Definition startOfWeek (date : Date) : Date :=
  let day := getDay date in
  let diff := (if day <? weekStartsOn then 7 else 0) + day - weekStartsOn in
  setHours (setDate date (getDate date - diff)) 0 0 0 0.

Definition endOfWeek (date : Date) : Date :=
  let day := getDay date in
  let diff := (if day <? weekStartsOn then -7 else 0) + 6 - (day - weekStartsOn) in
  setHours (setDate date (getDate date + diff)) 23 59 59 999.

Definition startOfMonth (date : Date) : Date :=
  setHours (setDate date 1) 0 0 0 0.

Definition endOfMonth (date : Date) : Date :=
  let month := getMonth date in
  setHours (setFullYear date (getFullYear date) (month + 1) 0) 23 59 59 999.

Definition startOfQuarter (date : Date) : Date :=
  let currentMonth := getMonth date in
  let month := currentMonth - currentMonth mod 3 in
  setHours (setMonth date month 1) 0 0 0 0.

Definition endOfQuarter (date : Date) : Date :=
  let currentMonth := getMonth date in
  let month := currentMonth - currentMonth mod 3 + 3 in
  setHours (setMonth date month 0) 23 59 59 999.

Definition startOfYear (date : Date) : Date :=
  setHours (setFullYear 0 (getFullYear date) 0 1) 0 0 0 0.

Definition endOfYear (date : Date) : Date :=
  let year := getFullYear date in
  setHours (setFullYear date (year + 1) 0 0) 23 59 59 999.

Definition addMonths (date : Date) (amount : Z) : Date :=
  if amount =? 0 then date
  else
    let dayOfMonth := getDate date in
    let endOfDesiredMonth := setMonth date (getMonth date + amount + 1) 0 in
    let daysInMonth := getDate endOfDesiredMonth in
    if dayOfMonth >=? daysInMonth then endOfDesiredMonth
    else setFullYear date (getFullYear endOfDesiredMonth)
                     (getMonth endOfDesiredMonth) dayOfMonth.

Definition subMonths (date : Date) (amount : Z) : Date :=
  addMonths date (- amount).

Lemma setHours_start (t : Date) : setHours t 0 0 0 0 = MakeDate (Day t) 0.
Proof. reflexivity. Qed.

Lemma setHours_end (t : Date) :
  setHours t 23 59 59 999 = MakeDate (Day t + 1) 0 - 1.
Proof. unfold setHours. rewrite MakeTime_end. apply MakeDate_end. Qed.

Lemma Day_MakeDate_within day (t : Date) :
  Day (MakeDate day (TimeWithinDay t)) = day.
Proof. apply Day_MakeDate. apply TimeWithinDay_range. Qed.

Lemma WeekDay_range d : 0 <= WeekDay d <= 6.
Proof. unfold WeekDay. pose proof (Z.mod_pos_bound (d + 4) 7). lia. Qed.

Lemma startOfWeek_eq (t : Date) :
  startOfWeek t = MakeDate (Day t - WeekDay (Day t)) 0.
Proof.
  unfold startOfWeek, weekStartsOn, getDay.
  pose proof (WeekDay_range (Day t)) as Hw.
  destruct (WeekDay (Day t) <? 0) eqn:E; [apply Z.ltb_lt in E; lia |].
  rewrite setHours_start.
  replace (getDate t - (0 + WeekDay (Day t) - 0))
    with (getDate t + - WeekDay (Day t)) by lia.
  rewrite setDate_shift, Day_shift. unfold MakeDate, msPerDay. lia.
Qed.

Lemma endOfWeek_eq (t : Date) :
  endOfWeek t = MakeDate (Day t - WeekDay (Day t) + 7) 0 - 1.
Proof.
  unfold endOfWeek, weekStartsOn, getDay.
  pose proof (WeekDay_range (Day t)) as Hw.
  destruct (WeekDay (Day t) <? 0) eqn:E; [apply Z.ltb_lt in E; lia |].
  rewrite setHours_end, setDate_shift, Day_shift. unfold MakeDate, msPerDay. lia.
Qed.

Lemma startOfMonth_eq (t : Date) :
  startOfMonth t = MakeDate (MakeDay (getFullYear t) (getMonth t) 1) 0.
Proof.
  unfold startOfMonth. rewrite setHours_start. unfold setDate.
  rewrite Day_MakeDate_within. reflexivity.
Qed.

Lemma endOfMonth_eq (t : Date) :
  endOfMonth t = MakeDate (MakeDay (getFullYear t) (getMonth t + 1) 1) 0 - 1.
Proof.
  unfold endOfMonth. rewrite setHours_end. unfold setFullYear.
  rewrite Day_MakeDate_within.
  rewrite MakeDay_zero_pred. f_equal. unfold MakeDate. lia.
Qed.

Lemma startOfQuarter_eq (t : Date) :
  startOfQuarter t =
    MakeDate (MakeDay (getFullYear t) (getMonth t - getMonth t mod 3) 1) 0.
Proof.
  unfold startOfQuarter. rewrite setHours_start. unfold setMonth.
  rewrite Day_MakeDate_within. reflexivity.
Qed.

(** The civil fields of the first instant of a month. *)
Lemma civil_of_month_start y m :
  0 <= m <= 11 ->
  let t := MakeDate (MakeDay y m 1) 0 in
  getFullYear t = y /\ getMonth t = m /\ getDate t = 1 /\ TimeWithinDay t = 0.
Proof.
  intros Hm t. unfold getFullYear, getMonth, getDate, t.
  destruct (Day_MakeDate (MakeDay y m 1) (time := 0)) as [Hd Ht];
    [unfold msPerDay; lia |].
  rewrite Hd, Ht.
  assert (Hdt : 1 <= 1 <= DaysInMonth y m).
  { clear. unfold DaysInMonth. pose proof (leapDay_range y).
    destruct m as [| p | p]; try lia.
    do 4 (destruct p as [p | p |]; try lia). }
  destruct (day_of_civil y Hm Hdt) as [H1 [H2 H3]].
  rewrite H1, H2, H3. repeat split.
Qed.

(** [subMonths now 1] lies in the calendar month before the month of
    [now]. *)
Lemma subMonths_one_month (now : Date) :
  let y := getFullYear now in
  let m := getMonth now in
  getFullYear (subMonths now 1) = (if m =? 0 then y - 1 else y) /\
  getMonth (subMonths now 1) = (if m =? 0 then 11 else m - 1).
Proof.
  cbv zeta. unfold subMonths, addMonths. cbn [Z.opp Z.eqb].
  destruct (civil_of_day (Day now)) as [Hm [Hdt Hmk]].
  fold (getMonth now) in *. fold (getFullYear now) in *. fold (getDate now) in *.
  destruct (MakeDay_zero (getFullYear now) Hm) as [Hz [Hm' [Hd' _]]].
  set (y' := if getMonth now =? 0 then getFullYear now - 1 else getFullYear now) in *.
  set (m' := if getMonth now =? 0 then 11 else getMonth now - 1) in *.
  replace (getMonth now + -1 + 1) with (getMonth now) by lia.
  set (e := setMonth now (getMonth now) 0).
  assert (He : Day e = MakeDay y' m' (DaysInMonth y' m')).
  { unfold e, setMonth. rewrite Day_MakeDate_within. exact Hz. }
  assert (Hc : getFullYear e = y' /\ getMonth e = m' /\ getDate e = DaysInMonth y' m').
  { unfold getFullYear, getMonth, getDate. rewrite He.
    apply day_of_civil; [exact Hm' | lia]. }
  destruct Hc as [Hy [Hmm Hdd]].
  destruct (getDate now >=? getDate e) eqn:E.
  - split; assumption.
  - rewrite Hy, Hmm. rewrite Hdd in E.
    assert (Hlt : getDate now < DaysInMonth y' m') by lia.
    unfold setFullYear, getFullYear, getMonth. rewrite Day_MakeDate_within.
    assert (Hr : 1 <= getDate now <= DaysInMonth y' m') by lia.
    destruct (day_of_civil y' Hm' Hr) as [H1 [H2 _]]. split; assumption.
Qed.

Lemma startOfYear_eq (t : Date) :
  startOfYear t = MakeDate (MakeDay (getFullYear t) 0 1) 0.
Proof.
  unfold startOfYear. rewrite setHours_start. unfold setFullYear.
  rewrite Day_MakeDate_within. reflexivity.
Qed.

Lemma endOfYear_eq (t : Date) :
  endOfYear t = MakeDate (MakeDay (getFullYear t + 1) 0 1) 0 - 1.
Proof.
  unfold endOfYear. rewrite setHours_end. unfold setFullYear.
  rewrite Day_MakeDate_within, MakeDay_zero_pred. f_equal. unfold MakeDate. lia.
Qed.

(** The same month and date one year earlier lie in the year before, also
    when 29 February becomes 1 March. *)
Lemma setFullYear_previous_year (now : Date) :
  getFullYear (setFullYear now (getFullYear now - 1) (getMonth now) (getDate now))
    = getFullYear now - 1.
Proof.
  destruct (civil_of_day (Day now)) as [Hm [Hdt _]].
  fold (getMonth now) in *. fold (getFullYear now) in *. fold (getDate now) in *.
  unfold setFullYear. unfold getFullYear at 1. rewrite Day_MakeDate_within.
  apply YearFromDay_unique.
  replace (getFullYear now - 1 + 1) with (getFullYear now) by lia.
  rewrite MakeDay_month_in_range by exact Hm.
  pose proof (DayFromYear_succ (getFullYear now - 1)) as Hs.
  replace (getFullYear now - 1 + 1) with (getFullYear now) in Hs by lia.
  unfold DaysInYear in Hs.
  pose proof (leapDay_range (getFullYear now)) as HL.
  pose proof (leapDay_range (getFullYear now - 1)) as HL'.
  generalize dependent (getDate now). generalize dependent (getMonth now).
  intros m Hm dt Hdt. revert Hdt.
  month_cases m H; unfold DaysBeforeMonth, DaysInMonth; lia.
Qed.

End DateFns.

(* ===================================================================== *)
(** * SpendingAnalytics.tsx                                               *)
(* ===================================================================== *)

Module SpendingAnalytics.
Import JSNum JSDate DateFns.

Inductive TimeFilter : Type := weekly | monthly | quarterly | yearly.

(** [transaction_time] is the result of [parseISO] on the stored text:
    [None] stands for an invalid date, which compares false with every
    bound. *)
Record TransactionModel : Type := {
  amount : num;
  category : Z;
  transaction_time : option Date
}.

Record DateRange : Type := {
  start : Date;
  end_ : Date
}.

Definition dateRange (timeFilter : TimeFilter) (now : Date) : DateRange :=
  match timeFilter with
  | weekly => {| start := startOfWeek now; end_ := endOfWeek now |}
  | monthly => {| start := startOfMonth now; end_ := endOfMonth now |}
  | quarterly => {| start := startOfQuarter now; end_ := endOfQuarter now |}
  | yearly => {| start := startOfYear now; end_ := endOfYear now |}
  end.

(** [txDate >= s && txDate <= e] on the time values. *)
Definition inWindow (s e : Date) (tx : TransactionModel) : bool :=
  match transaction_time tx with
  | Some txDate => (s <=? txDate)%Z && (txDate <=? e)%Z
  | None => false
  end.

Definition filteredTransactions (transactions : list TransactionModel)
    (dateRange : DateRange) : list TransactionModel :=
  filter (inWindow (start dateRange) (end_ dateRange)) transactions.

(** The pair [(prevStart, prevEnd)] of [previousPeriodTransactions].  The
    memo reads the clock itself: [now] need not be the instant from which
    [dateRange] was computed. *)
Definition previousPeriod (timeFilter : TimeFilter) (dateRange : DateRange)
    (now : Date) : Date * Date :=
  match timeFilter with
  | weekly =>
      let prevEnd := start dateRange in
      let prevEnd := setDate prevEnd (getDate prevEnd - 1) in
      (startOfWeek prevEnd, prevEnd)
  | monthly =>
      let prevMonth := subMonths now 1 in
      (startOfMonth prevMonth, endOfMonth prevMonth)
  | quarterly =>
      let prevEnd := start dateRange in
      let prevEnd := setDate prevEnd (getDate prevEnd - 1) in
      (startOfQuarter prevEnd, prevEnd)
  | yearly =>
      let prevYear :=
        setFullYear now (getFullYear now - 1) (getMonth now) (getDate now) in
      (startOfYear prevYear, endOfYear prevYear)
  end.

Definition previousPeriodTransactions (transactions : list TransactionModel)
    (dateRange : DateRange) (timeFilter : TimeFilter) (now : Date)
  : list TransactionModel :=
  let (prevStart, prevEnd) := previousPeriod timeFilter dateRange now in
  filter (inWindow prevStart prevEnd) transactions.

Definition totalSpending (txs : list TransactionModel) : num :=
  fold_left (fun sum tx => add sum (amount tx)) txs (Fin 0).

Definition changePercentage (totalSpending previousTotalSpending : num) : num :=
  if eqb previousTotalSpending (Fin 0)
  then (if gtb totalSpending (Fin 0) then Fin 100 else Fin 0)
  else mul (div (sub totalSpending previousTotalSpending) previousTotalSpending)
           (Fin 100).

(** The calendar month before month [m] of year [y]. *)
Definition monthBefore (y m : Z) : Z * Z :=
  if (m =? 0)%Z then ((y - 1)%Z, 11%Z) else (y, (m - 1)%Z).

(** The first month of the quarter before the quarter that begins with
    month [q] of year [y]. *)
Definition quarterBefore (y q : Z) : Z * Z :=
  if (q =? 0)%Z then ((y - 1)%Z, 9%Z) else (y, (q - 3)%Z).

Definition mkTx (a : Q) (t : Date) : TransactionModel :=
  {| amount := Fin a; category := 1%Z; transaction_time := Some t |}.

(** ** Period-over-period change *)

(** C4.  On finite totals the change is (current - previous) / previous x
    100 when the previous total is not 0; with a previous total of 0 it is
    100 for a positive current total and 0 for a current total of 0. *)
Theorem changePercentage_cases (c p : Q) :
  (~ p == 0 ->
   eqv (changePercentage (Fin c) (Fin p)) (Fin ((c - p) / p * 100))) /\
  (p == 0 -> 0 < c -> changePercentage (Fin c) (Fin p) = Fin 100) /\
  (p == 0 -> c == 0 -> changePercentage (Fin c) (Fin p) = Fin 0) /\
  changePercentage (totalSpending [mkTx 20 0%Z; mkTx 30 0%Z]) (totalSpending []) = Fin 100 /\
  changePercentage (totalSpending []) (totalSpending []) = Fin 0.
Proof.
  unfold changePercentage. split; [| split; [| split; [| split; reflexivity]]].
  - intros Hp.
    assert (E : eqb (Fin p) (Fin 0) = false).
    { apply Bool.not_true_iff_false. rewrite eqb_Fin. exact Hp. }
    rewrite E. simpl sub. rewrite div_Fin_nonzero by exact Hp.
    simpl. setoid_replace (c + - p) with (c - p) by ring. reflexivity.
  - intros Hp Hc. apply eqb_Fin in Hp. rewrite Hp.
    apply gtb_Fin in Hc. rewrite Hc. reflexivity.
  - intros Hp Hc. apply eqb_Fin in Hp. rewrite Hp.
    assert (E : gtb (Fin c) (Fin 0) = false).
    { apply Bool.not_true_iff_false. rewrite gtb_Fin. lra. }
    rewrite E. reflexivity.
Qed.

Lemma changePercentage_cases_witness :
  eqv (changePercentage (Fin 150) (Fin 100)) (Fin ((150 - 100) / 100 * 100)) /\
  changePercentage (Fin 50) (Fin 0) = Fin 100 /\
  changePercentage (Fin 0) (Fin 0) = Fin 0.
Proof.
  split; [| split].
  - apply (proj1 (changePercentage_cases 150 100)). intros H. discriminate H.
  - apply (proj1 (proj2 (changePercentage_cases 50 0))); reflexivity.
  - apply (proj1 (proj2 (proj2 (changePercentage_cases 0 0)))); reflexivity.
Defined.

(** ** The two windows *)

Local Open Scope Z_scope.

Lemma inWindow_spec (s e : Date) (tx : TransactionModel) :
  inWindow s e tx = true <->
  exists t, transaction_time tx = Some t /\ s <= t <= e.
Proof.
  unfold inWindow. destruct (transaction_time tx) as [t |].
  - rewrite Bool.andb_true_iff, !Z.leb_le. split.
    + intros H. exists t. split; [reflexivity | exact H].
    + intros [t' [E H]]. injection E as <-. exact H.
  - split; [discriminate | intros [t [E _]]; discriminate].
Qed.

Lemma setDate_day_before (t : Date) : setDate t (getDate t - 1) = t - msPerDay.
Proof.
  replace (getDate t - 1) with (getDate t + -1) by lia.
  rewrite setDate_shift. lia.
Qed.

Lemma monthly_previous (cur : DateRange) (now : Date) :
  let (y', m') := monthBefore (getFullYear now) (getMonth now) in
  let (prevStart, prevEnd) := previousPeriod monthly cur now in
  prevStart = MakeDate (MakeDay y' m' 1) 0 /\
  getFullYear prevStart = y' /\ getMonth prevStart = m' /\
  getDate prevStart = 1 /\ TimeWithinDay prevStart = 0 /\
  prevEnd = startOfMonth now - 1.
Proof.
  unfold monthBefore, previousPeriod.
  destruct (subMonths_one_month now) as [Hy Hm]. cbv zeta in Hy, Hm.
  destruct (civil_of_day (Day now)) as [Hr _].
  fold (getMonth now) in Hr.
  destruct (MakeDay_zero (getFullYear now) Hr) as [_ [Hm' [_ Hnext]]].
  cbv zeta in Hm', Hnext.
  pose proof (civil_of_month_start
                (if getMonth now =? 0 then getFullYear now - 1 else getFullYear now)
                Hm') as Hc.
  cbv zeta in Hc.
  rewrite startOfMonth_eq, endOfMonth_eq, Hy, Hm, (startOfMonth_eq now), Hnext.
  destruct (getMonth now =? 0); (split; [reflexivity | tauto]).
Qed.

Lemma weekly_previous (cur : DateRange) (now : Date) :
  let (prevStart, prevEnd) := previousPeriod weekly cur now in
  prevEnd = start cur - msPerDay /\ prevStart = startOfWeek prevEnd.
Proof.
  unfold previousPeriod. cbv zeta. rewrite setDate_day_before. split; reflexivity.
Qed.

Lemma weekly_previous_aligned (now0 now : Date) :
  let cur := dateRange weekly now0 in
  fst (previousPeriod weekly cur now) = start cur - 7 * msPerDay.
Proof.
  cbv zeta. unfold previousPeriod. cbn [fst dateRange start].
  rewrite setDate_day_before, (startOfWeek_eq (startOfWeek now0 - msPerDay)).
  rewrite startOfWeek_eq.
  replace (MakeDate (Day now0 - WeekDay (Day now0)) 0 - msPerDay)
    with (MakeDate (Day now0 - WeekDay (Day now0) - 1) 0)
    by (unfold MakeDate; lia).
  destruct (Day_MakeDate (Day now0 - WeekDay (Day now0) - 1) (time := 0)) as [Hd _];
    [unfold msPerDay; lia |].
  rewrite Hd. unfold MakeDate, WeekDay, msPerDay.
  Z.to_euclidean_division_equations; lia.
Qed.

Lemma quarterly_previous (cur : DateRange) (now : Date) :
  let (prevStart, prevEnd) := previousPeriod quarterly cur now in
  prevEnd = start cur - msPerDay /\ prevStart = startOfQuarter prevEnd.
Proof.
  unfold previousPeriod. cbv zeta. rewrite setDate_day_before. split; reflexivity.
Qed.

Lemma quarterly_previous_aligned (now0 now : Date) :
  let cur := dateRange quarterly now0 in
  let q0 := getMonth now0 - getMonth now0 mod 3 in
  let (yq, mq) := quarterBefore (getFullYear now0) q0 in
  fst (previousPeriod quarterly cur now) = MakeDate (MakeDay yq mq 1) 0.
Proof.
  cbv zeta. unfold previousPeriod, quarterBefore. cbn [fst dateRange start].
  rewrite setDate_day_before, (startOfQuarter_eq now0).
  destruct (civil_of_day (Day now0)) as [Hr _]. fold (getMonth now0) in Hr.
  set (y0 := getFullYear now0). set (q0 := getMonth now0 - getMonth now0 mod 3).
  assert (Hq : q0 = 0 \/ q0 = 3 \/ q0 = 6 \/ q0 = 9).
  { unfold q0. Z.to_euclidean_division_equations; lia. }
  assert (Hq' : 0 <= q0 <= 11) by lia.
  destruct (MakeDay_zero y0 Hq') as [Hz [Hm' [Hd' _]]]. cbv zeta in Hz, Hm', Hd'.
  replace (MakeDate (MakeDay y0 q0 1) 0 - msPerDay)
    with (MakeDate (MakeDay y0 q0 0) 0)
    by (rewrite MakeDay_zero_pred; unfold MakeDate; lia).
  rewrite startOfQuarter_eq.
  unfold getFullYear, getMonth.
  destruct (Day_MakeDate (MakeDay y0 q0 0) (time := 0)) as [Hd _];
    [unfold msPerDay; lia |].
  rewrite Hd, Hz.
  destruct (day_of_civil (if q0 =? 0 then y0 - 1 else y0) (m := if q0 =? 0 then 11 else q0 - 1)
              (dt := DaysInMonth (if q0 =? 0 then y0 - 1 else y0)
                                 (if q0 =? 0 then 11 else q0 - 1)))
    as [H1 [H2 _]]; [exact Hm' | lia |].
  rewrite H1, H2.
  destruct Hq as [Hq | [Hq | [Hq | Hq]]]; rewrite Hq; reflexivity.
Qed.

Lemma yearly_previous (cur : DateRange) (now : Date) :
  let (prevStart, prevEnd) := previousPeriod yearly cur now in
  prevStart = MakeDate (MakeDay (getFullYear now - 1) 0 1) 0 /\
  prevEnd = startOfYear now - 1.
Proof.
  unfold previousPeriod. cbv zeta.
  rewrite startOfYear_eq, endOfYear_eq, setFullYear_previous_year, startOfYear_eq.
  replace (getFullYear now - 1 + 1) with (getFullYear now) by lia.
  split; reflexivity.
Qed.

Lemma filteredTransactions_spec (transactions : list TransactionModel)
    (cur : DateRange) (tx : TransactionModel) :
  In tx (filteredTransactions transactions cur) <->
  In tx transactions /\
  exists t, transaction_time tx = Some t /\ start cur <= t <= end_ cur.
Proof.
  unfold filteredTransactions. rewrite filter_In, inWindow_spec. reflexivity.
Qed.

Lemma previousPeriodTransactions_spec (transactions : list TransactionModel)
    (cur : DateRange) (timeFilter : TimeFilter) (now : Date)
    (tx : TransactionModel) :
  In tx (previousPeriodTransactions transactions cur timeFilter now) <->
  In tx transactions /\
  exists t, transaction_time tx = Some t /\
            fst (previousPeriod timeFilter cur now) <= t
              <= snd (previousPeriod timeFilter cur now).
Proof.
  unfold previousPeriodTransactions.
  destruct (previousPeriod timeFilter cur now) as [prevStart prevEnd].
  rewrite filter_In, inWindow_spec. reflexivity.
Qed.

(** C7.  The previous window, for every clock reading [now] and every
    current window [cur].  Monthly: the calendar month before [now], from
    its first instant to the last millisecond before the month of [now],
    whatever [cur] is.  Weekly and quarterly: the window ends one day
    before the start of [cur] and its start is the start of the week, or
    quarter, of that end; for a current window computed at [now0] this
    start is seven days, or one quarter, before the start of [cur].
    Yearly: the calendar year before [now].
    Transactions are put in a window when their time lies between its
    bounds, both included. *)
Theorem previous_window_by_granularity
    (now0 now : Date) (cur : DateRange) (transactions : list TransactionModel) :
  (let (y', m') := monthBefore (getFullYear now) (getMonth now) in
   let (prevStart, prevEnd) := previousPeriod monthly cur now in
   prevStart = MakeDate (MakeDay y' m' 1) 0 /\
   getFullYear prevStart = y' /\ getMonth prevStart = m' /\
   getDate prevStart = 1 /\ TimeWithinDay prevStart = 0 /\
   prevEnd = startOfMonth now - 1) /\
  (let (prevStart, prevEnd) := previousPeriod weekly cur now in
   prevEnd = start cur - msPerDay /\ prevStart = startOfWeek prevEnd) /\
  fst (previousPeriod weekly (dateRange weekly now0) now)
    = start (dateRange weekly now0) - 7 * msPerDay /\
  (let (prevStart, prevEnd) := previousPeriod quarterly cur now in
   prevEnd = start cur - msPerDay /\ prevStart = startOfQuarter prevEnd) /\
  (let (yq, mq) := quarterBefore (getFullYear now0)
                                 (getMonth now0 - getMonth now0 mod 3) in
   fst (previousPeriod quarterly (dateRange quarterly now0) now)
     = MakeDate (MakeDay yq mq 1) 0) /\
  (let (prevStart, prevEnd) := previousPeriod yearly cur now in
   prevStart = MakeDate (MakeDay (getFullYear now - 1) 0 1) 0 /\
   prevEnd = startOfYear now - 1) /\
  (forall tx,
      In tx (filteredTransactions transactions cur) <->
      In tx transactions /\
      exists t, transaction_time tx = Some t /\ start cur <= t <= end_ cur) /\
  (forall timeFilter tx,
      In tx (previousPeriodTransactions transactions cur timeFilter now) <->
      In tx transactions /\
      exists t, transaction_time tx = Some t /\
                fst (previousPeriod timeFilter cur now) <= t
                  <= snd (previousPeriod timeFilter cur now)).
Proof.
  split; [exact (monthly_previous cur now) |].
  split; [exact (weekly_previous cur now) |].
  split; [exact (weekly_previous_aligned now0 now) |].
  split; [exact (quarterly_previous cur now) |].
  split; [exact (quarterly_previous_aligned now0 now) |].
  split; [exact (yearly_previous cur now) |].
  split.
  - intros tx. apply filteredTransactions_spec.
  - intros timeFilter tx. apply previousPeriodTransactions_spec.
Qed.

(** The civil instant [year-month-date hour:min:sec.ms], months from 0. *)
Definition civil (year month date hour min sec ms : Z) : Date :=
  MakeDate (MakeDay year month date) (MakeTime hour min sec ms).

(** When the current window was computed on 31 January 2025 and the
    previous one is computed a minute later, on 1 February, the monthly
    previous window is January 2025 again: the current window itself, not
    the month before it. *)
Example monthly_previous_follows_now :
  let now0 := civil 2025 0 31 23 59 30 0 in
  let now := civil 2025 1 1 0 0 30 0 in
  let cur := dateRange monthly now0 in
  previousPeriod monthly cur now = (start cur, end_ cur) /\
  start cur = civil 2025 0 1 0 0 0 0 /\
  end_ cur = civil 2025 0 31 23 59 59 999.
Proof. vm_compute. repeat split. Qed.

(** The weekly previous window ends at the first instant of the Saturday
    before the current week: a transaction later that Saturday is in
    neither window.  The monthly previous window runs to the last
    millisecond of its last day. *)
Example weekly_previous_last_day :
  let now := civil 2025 0 15 12 0 0 0 in
  let cur := dateRange weekly now in
  let tx := mkTx 10 (civil 2025 0 11 9 0 0 0) in
  start cur = civil 2025 0 12 0 0 0 0 /\
  previousPeriod weekly cur now
    = (civil 2025 0 5 0 0 0 0, civil 2025 0 11 0 0 0 0) /\
  filteredTransactions [tx] cur = [] /\
  previousPeriodTransactions [tx] cur weekly now = [] /\
  previousPeriod monthly (dateRange monthly now) now
    = (civil 2024 11 1 0 0 0 0, civil 2024 11 31 23 59 59 999).
Proof. vm_compute. repeat split. Qed.

End SpendingAnalytics.

(* ===================================================================== *)
(** * Strings and regular expressions                                     *)
(* ===================================================================== *)

(** A JavaScript string is a sequence of UTF-16 code units. *)
Module JSString.

Definition char : Type := N.
Definition jsstring : Type := list char.

Definition js (s : string) : jsstring :=
  map N_of_ascii (list_ascii_of_string s).

Definition bullet : char := 8226%N.  (* U+2022 *)

(** [WhiteSpace] and [LineTerminator] of the language: the class [\s] and
    what [trim] removes. *)
Definition isLineTerminator (c : char) : bool :=
  existsb (N.eqb c) [10; 13; 8232; 8233]%N.

Definition isWhiteSpace (c : char) : bool :=
  existsb (N.eqb c) [9; 10; 11; 12; 13; 32; 160; 5760; 8232; 8233; 8239; 8287;
                     12288; 65279]%N
  || ((8192 <=? c) && (c <=? 8202))%N.

Definition isDigit (c : char) : bool := ((48 <=? c) && (c <=? 57))%N.

(** Case folding of a code unit for the flag [i]: ASCII letters go to
    upper case; a code unit outside ASCII never folds to an ASCII one. *)
Definition canonicalize (c : char) : char :=
  if ((97 <=? c) && (c <=? 122))%N then (c - 32)%N else c.

Definition toLowerCase_char (c : char) : char :=
  if ((65 <=? c) && (c <=? 90))%N then (c + 32)%N else c.

Fixpoint dropWhile (p : char -> bool) (s : jsstring) : jsstring :=
  match s with
  | c :: r => if p c then dropWhile p r else s
  | [] => []
  end.

Definition trim (s : jsstring) : jsstring :=
  rev (dropWhile isWhiteSpace (rev (dropWhile isWhiteSpace s))).

(** A string is truthy when it is not empty. *)
Definition truthy (s : jsstring) : bool :=
  match s with [] => false | _ => true end.

(** [s.split('\n')]. *)
Fixpoint split_lines (s : jsstring) : list jsstring :=
  match s with
  | [] => [[]]
  | c :: r =>
      if N.eqb c 10 then [] :: split_lines r
      else match split_lines r with
           | l :: ls => (c :: l) :: ls
           | [] => [[c]]
           end
  end.

(** [parts.join(sep)]. *)
Fixpoint join (sep : jsstring) (parts : list jsstring) : jsstring :=
  match parts with
  | [] => []
  | [p] => p
  | p :: ps => p ++ sep ++ join sep ps
  end.

(** [s.includes(c)] for a one-character [c]. *)
Definition includes_char (s : jsstring) (c : char) : bool :=
  existsb (N.eqb c) s.

(** ** Regular expressions *)

Inductive regex : Type :=
| Chr (p : char -> bool)   (* one code unit of a class *)
| Eps                      (* the empty pattern *)
| Bol                      (* ^ *)
| Cat (a b : regex)
| Alt (a b : regex)        (* a|b, the left alternative first *)
| Star (a : regex)         (* a*, greedy *)
| Grp (a : regex).         (* the capturing group (a) *)

Definition Plus (a : regex) : regex := Cat a (Star a).
Definition Opt (a : regex) : regex := Alt a Eps.

(** A literal under the flag [i]. *)
Fixpoint lit_i (s : jsstring) : regex :=
  match s with
  | [] => Eps
  | c :: r => Cat (Chr (fun x => N.eqb (canonicalize x) (canonicalize c))) (lit_i r)
  end.

Definition whitespace : regex := Chr isWhiteSpace.                   (* \s *)
Definition digit : regex := Chr isDigit.                             (* \d *)
Definition anychar : regex := Chr (fun c => negb (isLineTerminator c)).  (* . *)

Section Matcher.

Variable A : Type.

(** Backtracking matcher.  [total] is the length of the whole input, [s]
    what is left of it, [cap] the text of the group when it has matched;
    [k] continues with the rest of the pattern.  Alternatives are tried
    from the left and [Star] takes as many rounds as it can, each round
    consuming some input. *)
Fixpoint matchAt (r : regex) (total : nat) (cap : option jsstring)
    (s : jsstring) (k : option jsstring -> jsstring -> option A) : option A :=
  match r with
  | Chr p =>
      match s with
      | c :: s' => if p c then k cap s' else None
      | [] => None
      end
  | Eps => k cap s
  | Bol => if Nat.eqb (List.length s) total then k cap s else None
  | Cat a b => matchAt a total cap s (fun cap' s' => matchAt b total cap' s' k)
  | Alt a b =>
      match matchAt a total cap s k with
      | Some x => Some x
      | None => matchAt b total cap s k
      end
  | Star a =>
      (fix loop (fuel : nat) (cap : option jsstring) (s : jsstring) : option A :=
         match fuel with
         | O => k cap s
         | S fuel' =>
             match matchAt a total cap s
                     (fun cap' s' =>
                        if Nat.ltb (List.length s') (List.length s)
                        then loop fuel' cap' s' else None) with
             | Some x => Some x
             | None => k cap s
             end
         end) (List.length s) cap s
  | Grp a =>
      matchAt a total cap s
        (fun _ s' => k (Some (firstn (List.length s - List.length s') s)) s')
  end.

End Matcher.

(** The result of [exec]: where the match starts, the text matched, and
    the text of the group. *)
Record MatchResult : Type := {
  index : nat;
  matched : jsstring;
  group1 : option jsstring
}.

Fixpoint searchFrom (r : regex) (total : nat) (i : nat) (s : jsstring)
  : option MatchResult :=
  match matchAt r total None s
          (fun cap s' =>
             Some {| index := i;
                     matched := firstn (List.length s - List.length s') s;
                     group1 := cap |}) with
  | Some m => Some m
  | None =>
      match s with
      | [] => None
      | _ :: s' => searchFrom r total (S i) s'
      end
  end.

(** [s.match(r)] for a pattern without the flag [g]. *)
Definition exec (r : regex) (s : jsstring) : option MatchResult :=
  searchFrom r (List.length s) 0 s.

Definition test (r : regex) (s : jsstring) : bool :=
  match exec r s with Some _ => true | None => false end.

(** [s.replace(r, '')]: the first match is cut out. *)
Definition remove_first (r : regex) (s : jsstring) : jsstring :=
  match exec r s with
  | Some m => firstn (index m) s ++ skipn (index m + List.length (matched m)) s
  | None => s
  end.











End JSString.

(* ===================================================================== *)
(** * use-openai-gpt-chat.ts                                              *)
(* ===================================================================== *)

Module OpenAIChat.
Import JSNum JSString.

(** ** Types of the hook *)

Record Transaction : Type := {
  id : jsstring;
  amount : num;
  category : jsstring;
  description : jsstring;
  date : jsstring;
  merchant : option jsstring
}.

Record CategoryBudget : Type := {
  cb_name : jsstring;
  cb_budget : num;
  cb_spent : num
}.

Record BudgetStatus : Type := {
  totalBudget : num;
  spent : num;
  remaining : num;
  categories : list CategoryBudget
}.

Record TopCategory : Type := {
  tc_category : jsstring;
  tc_amount : num;
  tc_percentage : num
}.

Record SpendingPattern : Type := {
  averageDaily : num;
  topCategories : list TopCategory
}.

Record SavingsGoal : Type := {
  sg_id : jsstring;
  sg_name : jsstring;
  targetAmount : num;
  currentAmount : num;
  sg_deadline : jsstring;
  sg_priority : jsstring
}.

(** The fields that the hooks test for presence are options: a caller can
    leave them undefined. *)
Record GenerateDailyInsightInput : Type := {
  di_transactions : option (list Transaction);
  di_budgetStatus : option BudgetStatus;
  di_spendingPatterns : option SpendingPattern
}.

Inductive Sentiment : Type := positive | neutral | warning.

Record Metadata : Type := {
  tokensUsed : num;
  modelUsed : jsstring
}.

Record GenerateDailyInsightResponse : Type := {
  insight : jsstring;
  suggestions : list jsstring;
  sentiment : Sentiment;
  di_metadata : Metadata
}.

Record GenerateSavingsRecommendationInput : Type := {
  sr_savingsGoal : option SavingsGoal;
  sr_transactions : option (list Transaction);
  monthlyIncome : num;
  sr_spendingPatterns : option SpendingPattern;
  timeframeMonths : option num
}.

Record SpecificAction : Type := {
  action : jsstring;
  potentialSavings : num;
  difficulty : jsstring
}.

(** The three templates of [timeDescription]. *)
Inductive TimeDescription : Type :=
| AdditionalIncomeNeeded
    (* 'Additional income needed to reach goal' *)
| MonthsFaster (monthsSaved : num)
    (* `${monthsSaved} month(s) faster than current pace` *)
| MonthsToReach (newMonthsToGoal : num).
    (* `${newMonthsToGoal} month(s) to reach goal` *)

Record EstimatedTimeToGoal : Type := {
  months : num;
  time_description : TimeDescription
}.

Record GenerateSavingsRecommendationResponse : Type := {
  recommendations : list jsstring;
  projectedSavingsIncrease : num;
  estimatedTimeToGoal : EstimatedTimeToGoal;
  specificActions : list SpecificAction;
  sr_metadata : Metadata
}.

(** ** The chat endpoint *)

(** The user message of a request, as the values the template of the hook
    interpolates. *)
Record DailyPrompt : Type := {
  dp_transactionCount : nat;
  dp_listed : list Transaction;         (* transactions.slice(0, 10) *)
  dp_more : option nat;                 (* `... and ${n - 10} more transactions` *)
  dp_totalSpent : num;
  dp_budget : BudgetStatus;
  dp_topCategories : list TopCategory   (* topCategories.slice(0, 3) *)
}.

Record SavingsPrompt : Type := {
  sp_goal : SavingsGoal;
  sp_remainingToGoal : num;
  sp_monthlyIncome : num;
  sp_averageMonthlySpending : num;
  sp_currentMonthlySavings : num;
  sp_monthsToGoal : num;
  sp_topCategories : list TopCategory;
  sp_sample : list Transaction          (* transactions.slice(0, 5) *)
}.

Inductive UserPrompt : Type :=
| DailyUserPrompt (p : DailyPrompt)
| SavingsUserPrompt (p : SavingsPrompt).

Record ChatRequest : Type := {
  model : string;
  userPrompt : UserPrompt
}.

Record Choice : Type := {
  content : option jsstring             (* choices[0]?.message?.content *)
}.

Record ChatData : Type := {
  choices : option (list Choice);
  total_tokens : option num;            (* usage?.total_tokens *)
  responseModel : jsstring
}.

Inductive ApiError : Type :=
| ErrorObject (json : string)           (* an object, shown by JSON.stringify *)
| ErrorOther.                           (* any other truthy value *)

Record ApiResponse : Type := {
  error : option ApiError;
  data : option ChatData
}.

(** [createChatCompletion] either rejects or resolves with a response. *)
Inductive ApiOutcome : Type :=
| Rejected (reason : string)
| Resolved (response : ApiResponse).

(** ** Programs that may throw and may call the endpoint *)

Inductive Prog (A : Type) : Type :=
| Ret (a : A)
| Throw (message : string)
| Call (request : ChatRequest) (k : ApiOutcome -> Prog A).

Arguments Ret {A} a.
Arguments Throw {A} message.
Arguments Call {A} request k.

Fixpoint bind {A B : Type} (p : Prog A) (f : A -> Prog B) : Prog B :=
  match p with
  | Ret a => f a
  | Throw e => Throw e
  | Call req k => Call req (fun o => bind (k o) f)
  end.

Notation "x <- p ;; q" := (bind p (fun x => q))
  (at level 61, p at next level, right associativity).

(** Running a program against an endpoint: the requests issued, in order,
    and the error thrown or the value returned. *)
Fixpoint run {A : Type} (endpoint : ChatRequest -> ApiOutcome) (p : Prog A)
  : list ChatRequest * (string + A) :=
  match p with
  | Ret a => ([], inr a)
  | Throw e => ([], inl e)
  | Call req k =>
      let (reqs, r) := run endpoint (k (endpoint req)) in (req :: reqs, r)
  end.

(** The checks on the response, the same in both hooks but for the
    message used when the error is not an object. *)
Definition extractContent (fallback : string) (outcome : ApiOutcome)
  : Prog (jsstring * ChatData) :=
  match outcome with
  | Rejected reason => Throw reason
  | Resolved response =>
      match error response with
      | Some (ErrorObject json) => Throw json
      | Some ErrorOther => Throw fallback
      | None =>
          match data response with
          | None => Throw "No response data received from AI service"
          | Some aiResponse =>
              match choices aiResponse with
              | None | Some [] =>
                  Throw "No completion choices returned from AI service"
              | Some (choice :: _) =>
                  match content choice with
                  | Some text =>
                      if truthy text then Ret (text, aiResponse)
                      else Throw "Empty content returned from AI service"
                  | None => Throw "Empty content returned from AI service"
                  end
              end
          end
      end
  end.

Definition sumAmounts (transactions : list Transaction) : num :=
  fold_left (fun sum t => add sum (amount t)) transactions (Fin 0).

Definition metadataOf (aiResponse : ChatData) : Metadata :=
  {| tokensUsed := match total_tokens aiResponse with
                   | Some n => if JSNum.truthy n then n else Fin 0
                   | None => Fin 0
                   end;
     modelUsed := responseModel aiResponse |}.

(** ** Patterns *)

(** [/^\d+\./] *)
Definition reNumbered : regex :=
  Cat Bol (Cat (Plus digit) (Chr (N.eqb 46))).

(** [/^[-•]\s*|\d+\.\s*/] *)
Definition reBulletPrefix : regex :=
  Alt (Cat Bol (Cat (Chr (fun c => N.eqb c 45 || N.eqb c bullet)) (Star whitespace)))
      (Cat (Plus digit) (Cat (Chr (N.eqb 46)) (Star whitespace))).

(** [/RECOMMENDATION:\s*(.+)/i] *)
Definition reRecommendation : regex :=
  Cat (lit_i (js "RECOMMENDATION:")) (Cat (Star whitespace) (Grp (Plus anychar))).

(** [/SAVINGS:\s*\$?(\d+(?:\.\d{2})?)/i] *)
Definition reSavings : regex :=
  Cat (lit_i (js "SAVINGS:"))
      (Cat (Star whitespace)
           (Cat (Opt (Chr (N.eqb 36)))
                (Grp (Cat (Plus digit)
                          (Opt (Cat (Chr (N.eqb 46)) (Cat digit digit))))))).

(** [/DIFFICULTY:\s*(easy|medium|hard)/i] *)
Definition reDifficulty : regex :=
  Cat (lit_i (js "DIFFICULTY:"))
      (Cat (Star whitespace)
           (Grp (Alt (lit_i (js "easy"))
                     (Alt (lit_i (js "medium")) (lit_i (js "hard")))))).

(** [/RECOMMENDATION:|SAVINGS:|DIFFICULTY:/i] *)
Definition reAnyMarker : regex :=
  Alt (lit_i (js "RECOMMENDATION:"))
      (Alt (lit_i (js "SAVINGS:")) (lit_i (js "DIFFICULTY:"))).

Definition groupText (m : MatchResult) : jsstring :=
  match group1 m with Some g => g | None => [] end.

(** [line.includes('-') || line.includes('•') || line.match(/^\d+\./)] *)
Definition isListLine (line : jsstring) : bool :=
  includes_char line 45%N || includes_char line bullet || test reNumbered line.

(** [s.replace(/^[-•]\s*|\d+\.\s*/, '').trim()] *)
Definition stripListPrefix (s : jsstring) : jsstring :=
  trim (remove_first reBulletPrefix s).

(** [content.split('\n').filter(line => line.trim())] *)
Definition nonEmptyLines (content : jsstring) : list jsstring :=
  filter (fun line => truthy (trim line)) (split_lines content).

(** [parseFloat] on an unsigned decimal text, which is what the group of
    [reSavings] holds: digits, then possibly a point and digits. *)
Definition digitValue (c : char) : Z := Z.of_N (c - 48).

Fixpoint readDigits (acc : Z) (count : nat) (s : jsstring) : Z * nat * jsstring :=
  match s with
  | c :: r => if isDigit c then readDigits (10 * acc + digitValue c)%Z (S count) r
              else (acc, count, s)
  | [] => (acc, count, [])
  end.

Definition parseFloat (s : jsstring) : num :=
  let '(whole, nWhole, rest) := readDigits 0 0 (dropWhile isWhiteSpace s) in
  match rest with
  | 46%N :: frac =>
      let '(part, nFrac, _) := readDigits 0 0 frac in
      if (Nat.eqb nWhole 0 && Nat.eqb nFrac 0)%bool then NaN
      else Fin (inject_Z whole + inject_Z part / inject_Z (10 ^ Z.of_nat nFrac))
  | _ => if Nat.eqb nWhole 0 then NaN else Fin (inject_Z whole)
  end.

Definition toLowerCase (s : jsstring) : jsstring := map toLowerCase_char s.

(** ** Hook 1: useGenerateDailyInsight *)

Definition sentimentOf (budgetStatus : BudgetStatus) : Sentiment :=
  let budgetUtilization := div (spent budgetStatus) (totalBudget budgetStatus) in
  if ltb budgetUtilization (Fin (7 # 10)) then positive
  else if gtb budgetUtilization (Fin (9 # 10)) then warning
  else neutral.

Definition dailyPrompt (transactions : list Transaction)
    (budgetStatus : BudgetStatus) (spendingPatterns : SpendingPattern)
  : ChatRequest :=
  let totalSpent := sumAmounts transactions in
  let transactionCount := List.length transactions in
  {| model := "MaaS_4.1";
     userPrompt :=
       DailyUserPrompt
         {| dp_transactionCount := transactionCount;
            dp_listed := firstn 10 transactions;
            dp_more := if Nat.ltb 10 transactionCount
                       then Some (transactionCount - 10)%nat else None;
            dp_totalSpent := totalSpent;
            dp_budget := budgetStatus;
            dp_topCategories := firstn 3 (topCategories spendingPatterns) |} |}.

Definition parseInsight (content : jsstring) (aiResponse : ChatData)
    (budgetStatus : BudgetStatus) : GenerateDailyInsightResponse :=
  let lines := nonEmptyLines content in
  let insight := join (js " ") (firstn 2 lines) in
  let suggestions := map stripListPrefix (filter isListLine (skipn 2 lines)) in
  let sentiment := sentimentOf budgetStatus in
  {| insight := if truthy insight then insight else content;
     suggestions := match suggestions with [] => [content] | _ => suggestions end;
     sentiment := sentiment;
     di_metadata := metadataOf aiResponse |}.

Definition useGenerateDailyInsight (input : GenerateDailyInsightInput)
  : Prog GenerateDailyInsightResponse :=
  match di_transactions input with
  | None | Some [] =>
      Throw "At least one transaction is required to generate insights"
  | Some transactions =>
      match di_budgetStatus input with
      | None => Throw "Budget status is required to generate insights"
      | Some budgetStatus =>
          match di_spendingPatterns input with
          | None => Throw "Spending patterns are required to generate insights"
          | Some spendingPatterns =>
              Call (dailyPrompt transactions budgetStatus spendingPatterns)
                (fun outcome =>
                   r <- extractContent "Failed to generate daily insight" outcome ;;
                   Ret (parseInsight (fst r) (snd r) budgetStatus))
          end
      end
  end.

(** ** Hook 2: useGenerateSavingsRecommendation *)

(** [currentAction]: each field is there once its line was seen. *)
Record CurrentAction : Type := {
  ca_action : option jsstring;
  ca_savings : option num;
  ca_difficulty : option jsstring
}.

Definition emptyAction : CurrentAction :=
  {| ca_action := None; ca_savings := None; ca_difficulty := None |}.

(** [currentAction.action && currentAction.savings !== undefined &&
    currentAction.difficulty], and the record pushed when it holds. *)
Definition completed (currentAction : CurrentAction) : option SpecificAction :=
  match ca_action currentAction, ca_savings currentAction,
        ca_difficulty currentAction with
  | Some a, Some s, Some d =>
      if truthy a && truthy d
      then Some {| action := a; potentialSavings := s; difficulty := d |}
      else None
  | _, _, _ => None
  end.

Definition pushCompleted (specificActions : list SpecificAction)
    (currentAction : CurrentAction) : list SpecificAction :=
  match completed currentAction with
  | Some a => specificActions ++ [a]
  | None => specificActions
  end.

(** The body of [lines.forEach]. *)
Definition scanLine (state : list SpecificAction * CurrentAction)
    (line : jsstring) : list SpecificAction * CurrentAction :=
  let (specificActions, currentAction) := state in
  let recommendationMatch := exec reRecommendation line in
  let savingsMatch := exec reSavings line in
  let difficultyMatch := exec reDifficulty line in
  match recommendationMatch with
  | Some m =>
      (pushCompleted specificActions currentAction,
       {| ca_action := Some (trim (groupText m));
          ca_savings := None; ca_difficulty := None |})
  | None =>
      match savingsMatch with
      | Some m =>
          (specificActions,
           {| ca_action := ca_action currentAction;
              ca_savings := Some (parseFloat (groupText m));
              ca_difficulty := ca_difficulty currentAction |})
      | None =>
          match difficultyMatch with
          | Some m =>
              (specificActions,
               {| ca_action := ca_action currentAction;
                  ca_savings := ca_savings currentAction;
                  ca_difficulty := Some (toLowerCase (groupText m)) |})
          | None => state
          end
      end
  end.

Definition parseActions (lines : list jsstring) : list SpecificAction :=
  let (specificActions, currentAction) :=
    fold_left scanLine lines ([], emptyAction) in
  pushCompleted specificActions currentAction.

(** [Math.ceil(remainingToGoal / savings)] when the savings are positive,
    [Infinity] otherwise. *)
Definition monthsNeeded (remainingToGoal monthlySavings : num) : num :=
  if gtb monthlySavings (Fin 0)
  then ceil (div remainingToGoal monthlySavings)
  else PInf.

Definition recommendationsOf (content : jsstring) (lines : list jsstring)
    (specificActions : list SpecificAction) : list jsstring :=
  let recommendations :=
    match specificActions with
    | _ :: _ => map action specificActions
    | [] =>
        map stripListPrefix
          (filter (fun l => isListLine l && negb (test reAnyMarker l)) lines)
    end in
  match recommendations with [] => [content] | _ => recommendations end.

Definition parseRecommendation (content : jsstring) (aiResponse : ChatData)
    (remainingToGoal averageMonthlySpending currentMonthlySavings monthsToGoal : num)
  : GenerateSavingsRecommendationResponse :=
  let lines := nonEmptyLines content in
  let specificActions := parseActions lines in
  let totalPotentialSavings :=
    fold_left (fun sum a => add sum (potentialSavings a)) specificActions (Fin 0) in
  let newMonthlySavings := add currentMonthlySavings totalPotentialSavings in
  let newMonthsToGoal := monthsNeeded remainingToGoal newMonthlySavings in
  let timeDescription :=
    if eqb newMonthsToGoal PInf then AdditionalIncomeNeeded
    else
      let monthsSaved := sub monthsToGoal newMonthsToGoal in
      if gtb monthsSaved (Fin 0) then MonthsFaster monthsSaved
      else MonthsToReach newMonthsToGoal in
  {| recommendations := recommendationsOf content lines specificActions;
     projectedSavingsIncrease := totalPotentialSavings;
     estimatedTimeToGoal :=
       {| months := if eqb newMonthsToGoal PInf then Fin (-1) else newMonthsToGoal;
          time_description := timeDescription |};
     specificActions :=
       match specificActions with
       | _ :: _ => specificActions
       | [] =>
           [ {| action := js "Review and optimize spending across all categories";
                potentialSavings :=
                  min (mul averageMonthlySpending (Fin (1 # 10))) (Fin 200);
                difficulty := js "medium" |} ]
       end;
     sr_metadata := metadataOf aiResponse |}.

Definition useGenerateSavingsRecommendation
    (input : GenerateSavingsRecommendationInput)
  : Prog GenerateSavingsRecommendationResponse :=
  match sr_savingsGoal input with
  | None => Throw "Savings goal is required"
  | Some savingsGoal =>
      match sr_transactions input with
      | None | Some [] =>
          Throw "Transaction history is required to generate recommendations"
      | Some transactions =>
          if negb (JSNum.truthy (monthlyIncome input))
             || leb (monthlyIncome input) (Fin 0)
          then Throw "Valid monthly income is required"
          else
            match sr_spendingPatterns input with
            | None => Throw "Spending patterns are required"
            | Some spendingPatterns =>
                let remainingToGoal :=
                  sub (targetAmount savingsGoal) (currentAmount savingsGoal) in
                let averageMonthlySpending :=
                  mul (averageDaily spendingPatterns) (Fin 30) in
                let currentMonthlySavings :=
                  sub (monthlyIncome input) averageMonthlySpending in
                let monthsToGoal :=
                  monthsNeeded remainingToGoal currentMonthlySavings in
                Call {| model := "MaaS_4.1";
                        userPrompt :=
                          SavingsUserPrompt
                            {| sp_goal := savingsGoal;
                               sp_remainingToGoal := remainingToGoal;
                               sp_monthlyIncome := monthlyIncome input;
                               sp_averageMonthlySpending := averageMonthlySpending;
                               sp_currentMonthlySavings := currentMonthlySavings;
                               sp_monthsToGoal := monthsToGoal;
                               sp_topCategories := topCategories spendingPatterns;
                               sp_sample := firstn 5 transactions |} |}
                  (fun outcome =>
                     r <- extractContent
                            "Failed to generate savings recommendations" outcome ;;
                     Ret (parseRecommendation (fst r) (snd r) remainingToGoal
                            averageMonthlySpending currentMonthlySavings
                            monthsToGoal))
            end
      end
  end.

(** ** Sample data *)

Definition sampleTransaction : Transaction :=
  {| id := js "t1"; amount := Fin 12; category := js "Food";
     description := js "Lunch"; date := js "2025-01-14"; merchant := None |}.

Definition samplePatterns : SpendingPattern :=
  {| averageDaily := Fin 40; topCategories := [] |}.

Definition budgetOf (total used : Q) : BudgetStatus :=
  {| totalBudget := Fin total; spent := Fin used;
     remaining := Fin (total - used); categories := [] |}.

Definition sampleGoal : SavingsGoal :=
  {| sg_id := js "1"; sg_name := js "Emergency Fund"; targetAmount := Fin 10000;
     currentAmount := Fin 3000; sg_deadline := js "2025-12-31";
     sg_priority := js "high" |}.

Definition dailyInput (transactions : list Transaction) (total used : Q)
  : GenerateDailyInsightInput :=
  {| di_transactions := Some transactions;
     di_budgetStatus := Some (budgetOf total used);
     di_spendingPatterns := Some samplePatterns |}.

Definition savingsInput (transactions : list Transaction) (income : num)
  : GenerateSavingsRecommendationInput :=
  {| sr_savingsGoal := Some sampleGoal;
     sr_transactions := Some transactions;
     monthlyIncome := income;
     sr_spendingPatterns := Some samplePatterns;
     timeframeMonths := None |}.

(** The endpoint that answers every request with the text [text]. *)
Definition answering (text : jsstring) (request : ChatRequest) : ApiOutcome :=
  Resolved {| error := None;
              data := Some {| choices := Some [ {| content := Some text |} ];
                              total_tokens := Some (Fin 42);
                              responseModel := js "MaaS_4.1" |} |}.

(** ** The response parser, as the specification words it *)




(** The last value that [f] finds in a list of lines. *)
Definition lastFound {A : Type} (f : jsstring -> option A) (lines : list jsstring)
  : option A :=
  fold_left (fun found line => match f line with Some v => Some v | None => found end)
            lines None.






Definition newline : jsstring := [10%N].

(** ** Validation *)

Definition requests {A : Type} (endpoint : ChatRequest -> ApiOutcome)
    (p : Prog A) : list ChatRequest := fst (run endpoint p).

(** [p] throws [message] and issues no request, whatever the endpoint. *)
Definition throwsFirst {A : Type} (p : Prog A) (message : string) : Prop :=
  forall endpoint, run endpoint p = ([], inl message).

Lemma throwsFirst_Throw (A : Type) (message : string) :
  throwsFirst (@Throw A message) message.
Proof. intros endpoint. reflexivity. Qed.

(** The inputs the claim calls degenerate for the daily insight. *)
Definition degenerateDaily (input : GenerateDailyInsightInput) : Prop :=
  di_transactions input = Some [] \/
  exists budgetStatus, di_budgetStatus input = Some budgetStatus /\
                       totalBudget budgetStatus = Fin 0.

(** C5, refuted as stated.  A budget of 0 with one transaction is a
    degenerate input of the daily insight, yet no error is thrown: the
    hook sends its request to the endpoint. *)
Lemma zero_budget_reaches_endpoint :
  let input := dailyInput [sampleTransaction] 0 0 in
  degenerateDaily input /\
  requests (answering (js "Spend less.")) (useGenerateDailyInsight input)
    = [dailyPrompt [sampleTransaction] (budgetOf 0 0) samplePatterns] /\
  ~ exists message, throwsFirst (useGenerateDailyInsight input) message.
Proof.
  cbv zeta. split; [| split].
  - right. exists (budgetOf 0 0). split; reflexivity.
  - reflexivity.
  - intros [message H]. specialize (H (answering (js "Spend less."))).
    discriminate H.
Qed.

Lemma monthlyIncome_rejected (q : Q) :
  q <= 0 ->
  (negb (JSNum.truthy (Fin q)) || leb (Fin q) (Fin 0))%bool = true.
Proof.
  intros Hq. apply Bool.orb_true_iff. right. apply leb_Fin. exact Hq.
Qed.

Lemma monthlyIncome_accepted (q : Q) :
  0 < q ->
  (negb (JSNum.truthy (Fin q)) || leb (Fin q) (Fin 0))%bool = false.
Proof.
  intros Hq. apply Bool.orb_false_iff. split.
  - apply Bool.negb_false_iff. unfold JSNum.truthy.
    apply Bool.negb_true_iff. apply Bool.not_true_iff_false.
    rewrite Qeq_bool_iff. lra.
  - apply Bool.not_true_iff_false. rewrite leb_Fin. lra.
Qed.

(** C5, amended.  Both hooks throw their validation error, without any
    request to the endpoint, for a missing or empty transaction list; the
    daily insight does so for a missing budget status, the savings
    recommendation for a monthly income that is zero, negative or not a
    number; each also does so for a missing goal or spending patterns
    object.  The amount of the budget is not looked at. *)
Theorem validation_before_request :
  (forall input,
      di_transactions input = None \/ di_transactions input = Some [] ->
      throwsFirst (useGenerateDailyInsight input)
        "At least one transaction is required to generate insights") /\
  (forall input t ts,
      di_transactions input = Some (t :: ts) -> di_budgetStatus input = None ->
      throwsFirst (useGenerateDailyInsight input)
        "Budget status is required to generate insights") /\
  (forall input goal,
      sr_savingsGoal input = Some goal ->
      sr_transactions input = None \/ sr_transactions input = Some [] ->
      throwsFirst (useGenerateSavingsRecommendation input)
        "Transaction history is required to generate recommendations") /\
  (forall input goal t ts,
      sr_savingsGoal input = Some goal ->
      sr_transactions input = Some (t :: ts) ->
      monthlyIncome input = NaN \/
      (exists q, monthlyIncome input = Fin q /\ q <= 0) ->
      throwsFirst (useGenerateSavingsRecommendation input)
        "Valid monthly income is required") /\
  (forall input,
      sr_savingsGoal input = None ->
      throwsFirst (useGenerateSavingsRecommendation input)
        "Savings goal is required") /\
  (forall input t ts budgetStatus,
      di_transactions input = Some (t :: ts) ->
      di_budgetStatus input = Some budgetStatus ->
      di_spendingPatterns input = None ->
      throwsFirst (useGenerateDailyInsight input)
        "Spending patterns are required to generate insights") /\
  (forall input goal t ts q,
      sr_savingsGoal input = Some goal ->
      sr_transactions input = Some (t :: ts) ->
      monthlyIncome input = Fin q -> 0 < q ->
      sr_spendingPatterns input = None ->
      throwsFirst (useGenerateSavingsRecommendation input)
        "Spending patterns are required").
Proof.
  repeat split.
  - intros input [H | H]; unfold useGenerateDailyInsight; rewrite H;
      apply throwsFirst_Throw.
  - intros input t ts Ht Hb. unfold useGenerateDailyInsight. rewrite Ht, Hb.
    apply throwsFirst_Throw.
  - intros input goal Hg [H | H]; unfold useGenerateSavingsRecommendation;
      rewrite Hg, H; apply throwsFirst_Throw.
  - intros input goal t ts Hg Ht Hi. unfold useGenerateSavingsRecommendation.
    rewrite Hg, Ht. destruct Hi as [Hi | [q [Hi Hq]]]; rewrite Hi.
    + apply throwsFirst_Throw.
    + rewrite (monthlyIncome_rejected Hq). apply throwsFirst_Throw.
  - intros input Hg. unfold useGenerateSavingsRecommendation. rewrite Hg.
    apply throwsFirst_Throw.
  - intros input t ts budgetStatus Ht Hb Hp. unfold useGenerateDailyInsight.
    rewrite Ht, Hb, Hp. apply throwsFirst_Throw.
  - intros input goal t ts q Hg Ht Hi Hq Hp.
    unfold useGenerateSavingsRecommendation. rewrite Hg, Ht, Hi, Hp.
    rewrite (monthlyIncome_accepted Hq). apply throwsFirst_Throw.
Qed.

Lemma validation_before_request_witness :
  run (answering (js "ok")) (useGenerateDailyInsight (dailyInput [] 100 50))
    = ([], inl "At least one transaction is required to generate insights"%string) /\
  run (answering (js "ok"))
      (useGenerateSavingsRecommendation (savingsInput [sampleTransaction] (Fin 0)))
    = ([], inl "Valid monthly income is required"%string).
Proof.
  destruct validation_before_request as [H1 [_ [_ [H4 _]]]]. split.
  - apply (H1 (dailyInput [] 100 50)). right. reflexivity.
  - apply (H4 (savingsInput [sampleTransaction] (Fin 0)) sampleGoal
              sampleTransaction []); [reflexivity | reflexivity |].
    right. exists 0. split; [reflexivity | apply Qle_refl].
Defined.

(** ** Sentiment *)






(** ** The parser of the savings recommendations *)





Lemma lastFound_from (A : Type) (f : jsstring -> option A)
    (lines : list jsstring) (found : option A) :
  fold_left (fun found line => match f line with Some v => Some v | None => found end)
            lines found
  = match lastFound f lines with Some v => Some v | None => found end.
Proof.
  unfold lastFound. revert found.
  induction lines as [| line rest IH] using rev_ind; intros found.
  - reflexivity.
  - rewrite !fold_left_app. simpl. destruct (f line); [reflexivity | apply IH].
Qed.

















Definition sampleAnswer : jsstring :=
  js "RECOMMENDATION: Cook at home" ++ newline ++
  js "SAVINGS: $150/month" ++ newline ++
  js "DIFFICULTY: Easy" ++ newline ++
  js "RECOMMENDATION: Cancel the gym" ++ newline ++
  js "SAVINGS: $40.50" ++ newline ++
  js "RECOMMENDATION: Sell the car" ++ newline ++
  js "DIFFICULTY: hard" ++ newline ++
  js "SAVINGS: 300".

(** In [sampleAnswer] the second record has no difficulty and is dropped
    when the third RECOMMENDATION line comes; the last record has its
    three fields and is kept. *)
Example parseActions_sampleAnswer :
  parseActions (nonEmptyLines sampleAnswer) =
    [ {| action := js "Cook at home"; potentialSavings := Fin 150;
         difficulty := js "easy" |};
      {| action := js "Sell the car"; potentialSavings := Fin 300;
         difficulty := js "hard" |} ].
Proof. vm_compute. reflexivity. Qed.


End OpenAIChat.

(* ===================================================================== *)
(** * Further properties of the components                                *)
(* ===================================================================== *)

From Stdlib Require Import Qabs Permutation Sorted DecimalString.

(* ===================================================================== *)
(** * Objects used as tables of totals, and sorting                       *)
(* ===================================================================== *)

Module JSObject.
Import JSNum.

(** A number that is neither an infinity nor [NaN]. *)
Definition finite (a : num) : Prop := exists q, a = Fin q.

(** The rational of a finite number. *)
Definition toQ (a : num) : Q :=
  match a with
  | Fin q => q
  | _ => 0
  end.

(** [Math.round]: the nearest integer, the larger one on a tie. *)
Definition round (a : num) : num :=
  match a with
  | Fin q => Fin (inject_Z (Qfloor (q + (1 # 2))))
  | _ => a
  end.

(** [Math.abs]. *)
Definition abs (a : num) : num :=
  match a with
  | Fin q => Fin (Qabs q)
  | PInf | NInf => PInf
  | NaN => NaN
  end.

Section Records.

(** The keys of an object, with the equality of property names, and its
    values. *)
Variable K : Type.
Variable eqbK : K -> K -> bool.
Variable V : Type.

(** [object[key]], [None] for [undefined].  An object is the list of its
    own properties in the order of their creation. *)
Fixpoint lookup (object : list (K * V)) (key : K) : option V :=
  match object with
  | [] => None
  | (k, v) :: rest => if eqbK k key then Some v else lookup rest key
  end.

(** [object[key] = value]. *)
Fixpoint assign (object : list (K * V)) (key : K) (value : V) : list (K * V) :=
  match object with
  | [] => [(key, value)]
  | (k, v) :: rest =>
      if eqbK k key then (k, value) :: rest
      else (k, v) :: assign rest key value
  end.

(** An object literal with computed keys [{[k1]: v1, [k2]: v2, ...}]. *)
Definition objectLiteral (properties : list (K * V)) : list (K * V) :=
  fold_left (fun object kv => assign object (fst kv) (snd kv)) properties [].

End Records.

Section Totals.

Variable K : Type.
Variable eqbK : K -> K -> bool.

(** An object used as [Record<K, number>]. *)
Definition Totals : Type := list (K * num).

(** [totals[key] || 0]. *)
Definition totalOrZero (totals : Totals) (key : K) : num :=
  match lookup eqbK totals key with
  | Some v => if truthy v then v else Fin 0
  | None => Fin 0
  end.

(** [totals[key] = (totals[key] || 0) + amount]. *)
Definition accumulate (totals : Totals) (key : K) (amount : num) : Totals :=
  assign eqbK totals key (add (totalOrZero totals key) amount).

Definition sumTotals (totals : Totals) : num :=
  fold_right (fun kv r => add (snd kv) r) (Fin 0) totals.

Definition allFinite (totals : Totals) : Prop :=
  Forall (fun kv => finite (snd kv)) totals.

End Totals.

Section Sorting.

(** [Array.prototype.sort] with a consistent comparator: the stable
    sort.  [before a b] says that the comparator is negative on [(a, b)],
    so that [a] has to come first. *)
Variable A : Type.
Variable before : A -> A -> bool.

Fixpoint insert (x : A) (sorted : list A) : list A :=
  match sorted with
  | [] => [x]
  | y :: rest => if before y x then y :: insert x rest else x :: sorted
  end.

Definition sort (l : list A) : list A := fold_right insert [] l.

End Sorting.

(** An array index as a property name: own properties are enumerated
    with the array indices first, in ascending order, and then the other
    names in the order of their creation. *)
Definition isIndex (k : Z) : bool := ((0 <=? k) && (k <? 4294967295))%Z.

Definition Object_entries (A : Type) (object : list (Z * A)) : list (Z * A) :=
  sort (fun a b => (fst a <? fst b)%Z) (filter (fun kv => isIndex (fst kv)) object)
  ++ filter (fun kv => negb (isIndex (fst kv))) object.

(** ** Numbers *)

Lemma finite_add (a b : num) : finite a -> finite b -> finite (add a b).
Proof. intros [x ->] [y ->]. exists (x + y). reflexivity. Qed.


Lemma truthy_or_zero (v : num) :
  finite v -> eqv (if truthy v then v else Fin 0) v /\
              finite (if truthy v then v else Fin 0).
Proof.
  intros [q ->]. cbn [truthy]. destruct (Qeq_bool q 0) eqn:E; cbn [negb].
  - split; [| exists 0; reflexivity]. apply Qeq_bool_iff in E.
    simpl. symmetry. exact E.
  - split; [apply eqv_refl | exists q; reflexivity].
Qed.

Lemma add_comm (a b : num) : eqv (add a b) (add b a).
Proof. destruct a, b; simpl; auto. ring. Qed.


Lemma toQ_eqv (a : num) : finite a -> eqv a (Fin (toQ a)).
Proof. intros [q ->]. simpl. reflexivity. Qed.

(** ** Sums *)

Section Sums.

Variable A : Type.
Variable f : A -> num.

Definition sumOver (l : list A) : num :=
  fold_right (fun x r => add (f x) r) (Fin 0) l.




(** A left fold that adds [f x] to the total is the sum over the list. *)
Lemma fold_left_sumOver (l : list A) :
  eqv (fold_left (fun total x => add total (f x)) l (Fin 0)) (sumOver l).
Proof.
  eapply eqv_trans; [apply SubscriptionTracker.fold_left_add |].
  apply SubscriptionTracker.add_zero_l.
Qed.

End Sums.



(** ** Objects *)

Section ObjectFacts.

Variable K : Type.
Variable eqbK : K -> K -> bool.
Hypothesis eqbK_eq : forall a b, eqbK a b = true <-> a = b.
Variable V : Type.



Lemma lookup_In (object : list (K * V)) (key : K) (v : V) :
  lookup eqbK object key = Some v -> In (key, v) object.
Proof.
  induction object as [| [k0 v0] rest IH]; cbn [lookup]; [discriminate |].
  destruct (eqbK k0 key) eqn:E.
  - intros H. injection H as <-. apply eqbK_eq in E. subst k0. left. reflexivity.
  - intros H. right. apply IH. exact H.
Qed.

Lemma In_lookup (object : list (K * V)) (key : K) (v : V) :
  NoDup (map fst object) -> In (key, v) object ->
  lookup eqbK object key = Some v.
Proof.
  induction object as [| [k0 v0] rest IH]; cbn [lookup map fst In]; [tauto |].
  intros Hnd [H | H].
  - injection H as -> ->.
    assert (E : eqbK key key = true) by (apply eqbK_eq; reflexivity).
    rewrite E. reflexivity.
  - inversion Hnd as [| x l Hnin Hnd']; subst.
    destruct (eqbK k0 key) eqn:E.
    + apply eqbK_eq in E. subst k0. exfalso. apply Hnin.
      apply (in_map fst) in H. exact H.
    + apply IH; assumption.
Qed.

End ObjectFacts.

(** ** Tables *)

Section RecordFacts.

Variable K : Type.
Variable eqbK : K -> K -> bool.
Hypothesis eqbK_eq : forall a b, eqbK a b = true <-> a = b.

Lemma sumTotals_finite (totals : Totals K) :
  allFinite totals -> finite (sumTotals totals).
Proof.
  induction 1 as [| kv r Hkv _ IH].
  - exists 0. reflexivity.
  - cbn [sumTotals fold_right]. apply finite_add; assumption.
Qed.

(** Assigning to a key: the sum changes by the new value minus the old
    one.  Stated additively, for finite values. *)
Lemma sumTotals_assign (totals : Totals K) (key : K) (old new : num) :
  allFinite totals -> finite new ->
  match lookup eqbK totals key with
  | Some v => eqv old v
  | None => old = Fin 0
  end ->
  finite old ->
  eqv (add (sumTotals (assign eqbK totals key new)) old)
      (add (sumTotals totals) new) /\
  allFinite (assign eqbK totals key new).
Proof.
  intros Hall Hnew. revert old.
  induction Hall as [| [k v] rest Hv Hrest IH]; intros old Hold Hfo.
  - cbn [lookup] in Hold. subst old. cbn [assign sumTotals fold_right snd].
    split; [| repeat constructor; exact Hnew].
    destruct Hnew as [n ->]. simpl. ring.
  - cbn [lookup assign] in *. destruct (eqbK k key).
    + split; [| constructor; assumption].
      cbn [sumTotals fold_right snd]. fold (sumTotals rest).
      destruct Hnew as [n ->], Hv as [x Ex], Hfo as [o ->].
      cbn [snd] in Ex. subst v.
      destruct (sumTotals_finite Hrest) as [s Es]. rewrite Es.
      simpl in *. rewrite Hold. ring.
    + destruct (IH old Hold Hfo) as [IH1 IH2].
      split; [| constructor; assumption].
      cbn [sumTotals fold_right snd]. fold (sumTotals (assign eqbK rest key new)).
      fold (sumTotals rest).
      eapply eqv_trans; [apply SubscriptionTracker.add_assoc |].
      eapply eqv_trans;
        [apply SubscriptionTracker.add_eqv; [apply eqv_refl | exact IH1] |].
      apply eqv_sym, SubscriptionTracker.add_assoc.
Qed.

Lemma lookupTotal_finite (totals : Totals K) (key : K) (v : num) :
  allFinite totals -> lookup eqbK totals key = Some v -> finite v.
Proof.
  induction 1 as [| [k x] rest Hx _ IH]; cbn [lookup]; [discriminate |].
  destruct (eqbK k key); [| exact IH].
  intros E. injection E as <-. exact Hx.
Qed.

Lemma sumTotals_accumulate (totals : Totals K) (key : K) (amount : num) :
  allFinite totals -> finite amount ->
  eqv (sumTotals (accumulate eqbK totals key amount))
      (add (sumTotals totals) amount) /\
  allFinite (accumulate eqbK totals key amount).
Proof.
  intros Hall Ha. unfold accumulate, totalOrZero.
  set (current := match lookup eqbK totals key with
                  | Some v => if truthy v then v else Fin 0
                  | None => Fin 0
                  end).
  assert (Hc : finite current /\
               match lookup eqbK totals key with
               | Some v => eqv current v
               | None => current = Fin 0
               end).
  { unfold current. destruct (lookup eqbK totals key) as [v |] eqn:E.
    - destruct (truthy_or_zero (lookupTotal_finite _ Hall E)) as [H1 H2].
      split; assumption.
    - split; [exists 0 |]; reflexivity. }
  destruct Hc as [Hfc Hlook].
  destruct (@sumTotals_assign totals key current (add current amount)
              Hall (finite_add Hfc Ha) Hlook Hfc) as [Hsum Hfin].
  split; [| exact Hfin].
  destruct (sumTotals_finite Hall) as [s Es].
  destruct (sumTotals_finite Hfin) as [s' Es'].
  destruct Hfc as [cq Ec], Ha as [a ->].
  rewrite Es, Es', Ec in *. simpl in *. lra.
Qed.

(** The table built from a list of items, each added to the total of its
    key. *)
Section Accumulation.

Variable A : Type.
Variable keyOf : A -> K.
Variable amountOf : A -> num.

Definition accumulateAll (items : list A) (totals : Totals K) : Totals K :=
  fold_left (fun totals x => accumulate eqbK totals (keyOf x) (amountOf x))
            items totals.

Lemma accumulateAll_sum (items : list A) (totals : Totals K) :
  allFinite totals -> Forall (fun x => finite (amountOf x)) items ->
  eqv (sumTotals (accumulateAll items totals))
      (add (sumTotals totals) (sumOver amountOf items)) /\
  allFinite (accumulateAll items totals).
Proof.
  intros Hall Hitems. revert totals Hall.
  induction Hitems as [| x rest Hx _ IH]; intros totals Hall.
  - cbn [accumulateAll fold_left sumOver fold_right].
    split; [apply eqv_sym, SubscriptionTracker.add_zero_r | exact Hall].
  - cbn [accumulateAll fold_left sumOver fold_right].
    destruct (sumTotals_accumulate (keyOf x) Hall Hx) as [Hsum Hfin].
    destruct (IH _ Hfin) as [IH1 IH2]. split; [| exact IH2].
    eapply eqv_trans; [exact IH1 |].
    eapply eqv_trans;
      [apply SubscriptionTracker.add_eqv; [exact Hsum | apply eqv_refl] |].
    apply SubscriptionTracker.add_assoc.
Qed.



End Accumulation.

End RecordFacts.

(** ** Sorting *)

Section SortFacts.

Variable A : Type.
Variable before : A -> A -> bool.

Lemma insert_Permutation (x : A) (l : list A) :
  Permutation (insert before x l) (x :: l).
Proof.
  induction l as [| y rest IH]; cbn [insert]; [apply Permutation_refl |].
  destruct (before y x); [| apply Permutation_refl].
  eapply Permutation_trans; [apply perm_skip; exact IH | apply perm_swap].
Qed.

Lemma sort_Permutation (l : list A) : Permutation (sort before l) l.
Proof.
  induction l as [| x rest IH]; cbn [sort fold_right]; [constructor |].
  eapply Permutation_trans; [apply insert_Permutation |].
  apply perm_skip. exact IH.
Qed.

(** The result is in order for every transitive relation [R] that the
    comparator decides on the elements of the list. *)
Variable P : A -> Prop.
Variable R : A -> A -> Prop.
Hypothesis R_trans : forall a b c, R a b -> R b c -> R a c.
Hypothesis before_R : forall a b, P a -> P b -> before a b = true -> R a b.
Hypothesis not_before_R : forall a b, P a -> P b -> before a b = false -> R b a.



End SortFacts.

Lemma filter_partition_Permutation (A : Type) (p : A -> bool) (l : list A) :
  Permutation (filter p l ++ filter (fun x => negb (p x)) l) l.
Proof.
  induction l as [| x rest IH]; cbn [filter app]; [constructor |].
  destruct (p x); cbn [negb app].
  - apply perm_skip. exact IH.
  - apply Permutation_sym. eapply Permutation_trans;
      [apply perm_skip, Permutation_sym; exact IH |].
    apply Permutation_middle.
Qed.

Lemma Object_entries_Permutation (A : Type) (object : list (Z * A)) :
  Permutation (Object_entries object) object.
Proof.
  unfold Object_entries.
  eapply Permutation_trans;
    [apply Permutation_app_tail, sort_Permutation |].
  apply (filter_partition_Permutation (fun kv => isIndex (fst kv))).
Qed.

End JSObject.

(* ===================================================================== *)
(** * SavingsGoals.tsx: next milestone, days remaining, goal insight      *)
(* ===================================================================== *)

Module GoalInsights.
Import JSNum SavingsGoals.



Definition msPerDayQ : Q := 1000 * 60 * 60 * 24.

Inductive InsightType : Type := success | positive | neutral | warning.

(** The message templates of [getAIInsight], with the values they
    interpolate. *)
Inductive InsightMessage : Type :=
| Achieved (goal_name : string)
    (* `Congratulations! You've achieved your ${goal.goal_name} goal!` *)
| AheadOfSchedule (weeklySavings : num)
    (* `You're ahead of schedule! Just $${weeklySavings}/week to reach your goal.` *)
| OnTrack (weeklySavings : num)
    (* `Saving $${weeklySavings} per week will keep you on track.` *)
| DaysLeft (daysRemaining dailySavings : num)
    (* `Only ${daysRemaining} days left! Consider saving $${dailySavings}/day to catch up.` *)
| SaveWeekly (weeklySavings : num)
    (* `Save $${weeklySavings} weekly to reach your goal by the deadline.` *)
| KeepBuilding
    (* "Keep building momentum! Every contribution counts." *)
| GreatProgress (progress : num).
    (* `Great progress! You're ${progress}% of the way there!` *)

Record Insight : Type := {
  type : InsightType;
  message : InsightMessage
}.

Section Clock.

(** [parseDate d] is the time value of [new Date(d)], [NaN] for a text
    that is no date; [today] is the time value of [new Date()]. *)
Variable parseDate : string -> num.
Variable today : Z.

Definition getDaysRemaining (deadline : option string) : option num :=
  match deadline with
  | None => None
  | Some EmptyString => None
  | Some d =>
      let diff := sub (parseDate d) (Fin (inject_Z today)) in
      Some (ceil (div diff (Fin msPerDayQ)))
  end.

Definition getAIInsight (goal : SavingsGoalModel) : Insight :=
  let progress := getProgress goal in
  let daysRemaining := getDaysRemaining (deadline goal) in
  let remaining := sub (target_amount goal) (current_amount goal) in
  if geb progress (Fin 100)
  then {| type := success; message := Achieved (goal_name goal) |}
  else
    let byProgress :=
      if ltb progress (Fin 25)
      then {| type := neutral; message := KeepBuilding |}
      else {| type := positive; message := GreatProgress progress |} in
    match daysRemaining with
    | Some days =>
        if gtb days (Fin 0) then
          let dailySavings := div remaining days in
          let weeklySavings := mul dailySavings (Fin 7) in
          if geb progress (Fin 75)
          then {| type := positive; message := AheadOfSchedule weeklySavings |}
          else if geb progress (Fin 50)
          then {| type := neutral; message := OnTrack weeklySavings |}
          else if ltb days (Fin 30)
          then {| type := warning; message := DaysLeft days dailySavings |}
          else {| type := neutral; message := SaveWeekly weeklySavings |}
        else byProgress
    | None => byProgress
    end.

End Clock.

(** ** The next milestone *)

Lemma getProgress_value (goal : SavingsGoalModel) (t c : Q) :
  target_amount goal = Fin t -> current_amount goal = Fin c -> 0 < t ->
  getProgress goal = Fin (if Qle_bool (c / t * 100) 100 then c / t * 100 else 100).
Proof.
  intros Et Ec Ht. unfold getProgress. rewrite Et, Ec, div_Fin_pos by exact Ht.
  cbn [mul]. unfold min.
  destruct (ltb (Fin 100) (Fin (c / t * 100))) eqn:E.
  - apply ltb_Fin in E.
    assert (L : Qle_bool (c / t * 100) 100 = false).
    { apply Bool.not_true_iff_false. rewrite Qle_bool_iff. lra. }
    rewrite L. reflexivity.
  - apply ltb_Fin_false in E. apply Qle_bool_iff in E. rewrite E. reflexivity.
Qed.

Lemma ratio_lt (t c th : Q) : 0 < t -> (c / t * 100 < th <-> c < t * th / 100).
Proof.
  intros Ht.
  assert (E1 : c == c / t * 100 * (t / 100)) by (field; lra).
  assert (E2 : t * th / 100 == th * (t / 100)) by field.
  assert (Hp : 0 < t / 100) by (apply Qlt_shift_div_l; lra).
  rewrite E2. split; intros H.
  - rewrite E1. apply Qmult_lt_compat_r; assumption.
  - rewrite E1 in H. apply Qmult_lt_r in H; assumption.
Qed.


Lemma ratio_le_100 (t c : Q) : 0 < t -> (c / t * 100 < 100 <-> c < t).
Proof.
  intros Ht. rewrite (ratio_lt c 100 Ht).
  assert (E : t * 100 / 100 == t) by field. rewrite E. reflexivity.
Qed.










(** ** What the contribution handler stores *)



(** An amount of 0, a negative amount and the empty field are refused:
    nothing is stored.  A text that is no number is read as [NaN], passes
    the test and is stored as the balance. *)
Lemma refused_contributions (goal : SavingsGoalModel) (ormOk : bool) :
  (forall q, q <= 0 ->
     handleAddContribution (Some (Fin q)) ormOk goal
       = {| toast := InvalidAmount; stored := None |}) /\
  handleAddContribution None ormOk goal
    = {| toast := InvalidAmount; stored := None |} /\
  exists g', stored (handleAddContribution (Some NaN) true goal) = Some g' /\
             current_amount g' = NaN /\ is_completed g' = false.
Proof.
  split; [| split].
  - intros q Hq. unfold handleAddContribution.
    apply leb_Fin in Hq. rewrite Hq. reflexivity.
  - reflexivity.
  - eexists. split; [reflexivity |]. cbn [current_amount is_completed].
    destruct (current_amount goal), (target_amount goal); split; reflexivity.
Qed.

(** ** Days remaining and the goal insight *)

Section InsightProperties.

Variable parseDate : string -> num.
Variable today : Z.

(** For a deadline that parses to the instant [dl]: the days remaining
    are the whole number [n] of days with n - 1 days < dl - today <= n
    days; they are positive exactly when the deadline lies in the future,
    and a deadline missed by less than a day gives 0. *)
Theorem getDaysRemaining_bounds (d : string) (dl : Z) :
  d <> EmptyString -> parseDate d = Fin (inject_Z dl) ->
  exists n : Z,
    getDaysRemaining parseDate today (Some d) = Some (Fin (inject_Z n)) /\
    ((n - 1) * 86400000 < dl - today <= n * 86400000)%Z /\
    ((0 < n)%Z <-> (today < dl)%Z).
Proof.
  intros Hd Hp. unfold getDaysRemaining.
  destruct d as [| a d']; [contradiction |]. rewrite Hp.
  cbn [sub add neg div]. cbn [Qcompare]. change (msPerDayQ ?= 0) with Gt.
  cbn [ceil].
  set (q := (inject_Z dl + - inject_Z today) / msPerDayQ).
  exists (Qceiling q). split; [reflexivity |].
  assert (Eq : q * 86400000 == inject_Z (dl - today)).
  { unfold q, msPerDayQ, Z.sub. rewrite inject_Z_plus, inject_Z_opp. field. }
  clearbody q.
  pose proof (Qle_ceiling q) as Hup. pose proof (Qceiling_lt q) as Hlo.
  assert (B1 : inject_Z ((Qceiling q - 1) * 86400000) < inject_Z (dl - today)).
  { rewrite <- Eq. rewrite inject_Z_mult.
    change (inject_Z 86400000) with 86400000.
    apply Qmult_lt_compat_r; [reflexivity | exact Hlo]. }
  assert (B2 : inject_Z (dl - today) <= inject_Z (Qceiling q * 86400000)).
  { rewrite <- Eq. rewrite inject_Z_mult.
    change (inject_Z 86400000) with 86400000.
    apply Qmult_le_compat_r; [exact Hup | discriminate]. }
  rewrite <- Zlt_Qlt in B1. rewrite <- Zle_Qle in B2.
  split; [split; assumption |]. lia.
Qed.

Section FiniteGoal.

Variable goal : SavingsGoalModel.
Variables t c : Q.
Hypothesis target_is : target_amount goal = Fin t.
Hypothesis current_is : current_amount goal = Fin c.
Hypothesis target_positive : 0 < t.

Let old : Q := c / t * 100.
Let p : Q := if Qle_bool old 100 then old else 100.

Lemma progress_is : getProgress goal = Fin p.
Proof. apply getProgress_value; assumption. Qed.

Lemma progress_ge (x : Q) : x <= 100 -> (x <= p <-> x <= old).
Proof.
  intros Hx. unfold p. destruct (Qle_bool old 100) eqn:E; [reflexivity |].
  assert (100 < old).
  { apply Qnot_le_lt. intros H. apply Qle_bool_iff in H. congruence. }
  split; intros _; lra.
Qed.

Lemma geb_progress (x : Q) :
  x <= 100 -> (geb (Fin p) (Fin x) = true <-> x <= old).
Proof. intros Hx. rewrite geb_Fin. apply progress_ge. exact Hx. Qed.

Ltac split_ifs :=
  repeat match goal with
         | |- context [if ?b then _ else _] =>
             let E := fresh "E" in destruct b eqn:E
         end.

(** The insight is of type [success] exactly when the target is reached,
    whatever the deadline; it is of type [warning] exactly when the
    deadline is less than 30 days ahead, still in the future, and less
    than half of the target is saved.  A goal whose deadline has passed
    gets no warning. *)
Theorem getAIInsight_type :
  (type (getAIInsight parseDate today goal) = success <-> t <= c) /\
  (type (getAIInsight parseDate today goal) = warning <->
   exists d, getDaysRemaining parseDate today (deadline goal) = Some (Fin d) /\
             0 < d /\ d < 30 /\ c / t * 100 < 50).
Proof.
  unfold getAIInsight. rewrite progress_is.
  assert (H100 : geb (Fin p) (Fin 100) = true <-> t <= c).
  { rewrite geb_progress by lra. unfold old.
    split; intros H.
    - destruct (Qlt_le_dec c t) as [Hlt | Hge]; [| exact Hge].
      apply (ratio_le_100 c target_positive) in Hlt. lra.
    - apply Qnot_lt_le. intros Hlt.
      apply (ratio_le_100 c target_positive) in Hlt. lra. }
  split.
  - destruct (geb (Fin p) (Fin 100)) eqn:E100.
    + cbn [type]. split; [intros _; apply H100; reflexivity | reflexivity].
    + split; intros H.
      * exfalso. revert H.
        destruct (getDaysRemaining parseDate today (deadline goal));
          split_ifs; cbn [type]; discriminate.
      * apply H100 in H. discriminate.
  - destruct (geb (Fin p) (Fin 100)) eqn:E100.
    + cbn [type]. split; [discriminate |].
      intros [d [_ [_ [_ Hlt]]]]. exfalso.
      pose proof (proj1 H100 eq_refl) as Htc.
      assert (H : c / t * 100 < 100) by lra.
      apply (ratio_le_100 c target_positive) in H. lra.
    + destruct (getDaysRemaining parseDate today (deadline goal)) as [days |].
      * split.
        -- destruct (gtb days (Fin 0)) eqn:Eg;
             [| split_ifs; cbn [type]; discriminate].
           destruct (geb (Fin p) (Fin 75)) eqn:E75; [cbn [type]; discriminate |].
           destruct (geb (Fin p) (Fin 50)) eqn:E50; [cbn [type]; discriminate |].
           destruct (ltb days (Fin 30)) eqn:E30; [| cbn [type]; discriminate].
           intros _. destruct days as [d | | |]; try discriminate.
           exists d. split; [reflexivity |].
           apply gtb_Fin in Eg. apply ltb_Fin in E30.
           split; [exact Eg |]. split; [exact E30 |].
           apply Qnot_le_lt. intros Hle.
           apply (geb_progress (x := 50)) in Hle; [congruence | lra].
        -- intros [d [Hd [Hpos [H30 Hlt]]]]. injection Hd as ->.
           apply gtb_Fin in Hpos. rewrite Hpos.
           assert (E75 : geb (Fin p) (Fin 75) = false).
           { apply Bool.not_true_iff_false. rewrite geb_progress by lra.
             unfold old. lra. }
           assert (E50 : geb (Fin p) (Fin 50) = false).
           { apply Bool.not_true_iff_false. rewrite geb_progress by lra.
             unfold old. lra. }
           apply ltb_Fin in H30. rewrite E75, E50, H30. reflexivity.
      * split; [split_ifs; cbn [type]; discriminate |].
        intros [d [Hd _]]. discriminate.
Qed.


End FiniteGoal.

End InsightProperties.

Definition sampleDeadlineGoal (target current : Q) : SavingsGoalModel :=
  {| goal_name := "Vacation"; target_amount := Fin target;
     current_amount := Fin current; deadline := Some "2025-01-11"%string;
     priority_level := 2; is_completed := false |}.

(** A clock that reads every deadline as ten days after [today = 0]. *)
Definition tenDaysAhead (d : string) : num := Fin (inject_Z 864000000).

Lemma getDaysRemaining_bounds_witness :
  exists n : Z,
    getDaysRemaining tenDaysAhead 0 (Some "2025-01-11"%string)
      = Some (Fin (inject_Z n)) /\ (0 < n)%Z.
Proof.
  destruct (@getDaysRemaining_bounds tenDaysAhead 0 "2025-01-11" 864000000
              ltac:(discriminate) eq_refl) as [n [Hn [_ Hpos]]].
  exists n. split; [exact Hn |]. apply Hpos. reflexivity.
Defined.

Lemma getAIInsight_type_witness :
  type (getAIInsight tenDaysAhead 0 (sampleDeadlineGoal 100 120)) = success /\
  type (getAIInsight tenDaysAhead 0 (sampleDeadlineGoal 100 20)) = warning.
Proof.
  split.
  - apply (proj1 (@getAIInsight_type tenDaysAhead 0 (sampleDeadlineGoal 100 120)
                    100 120 eq_refl eq_refl ltac:(reflexivity))).
    discriminate.
  - apply (proj2 (@getAIInsight_type tenDaysAhead 0 (sampleDeadlineGoal 100 20)
                    100 20 eq_refl eq_refl ltac:(reflexivity))).
    exists 10. repeat split.
Defined.



End GoalInsights.

(* ===================================================================== *)
(** * SubscriptionTracker.tsx: categories and renewals                    *)
(* ===================================================================== *)

Module SubscriptionInsights.
Import JSNum JSDate JSObject SubscriptionTracker.



Section Cycles.

Variables Weekly Monthly Yearly : Z.


Definition getBillingCycleLabel (cycle : Z) : string :=
  match find (fun bc => Z.eqb (value bc) cycle)
             (BILLING_CYCLES Weekly Monthly Yearly) with
  | Some bc => match label bc with
               | EmptyString => "Monthly"
               | l => l
               end
  | None => "Monthly"
  end.

End Cycles.

Section Renewals.

(** [parseDate d] is the time value of [new Date(d)], [None] for an
    invalid date. *)
Variable parseDate : string -> option Date.

(** [now] and [next7Days] are the two readings of the clock that
    [getUpcomingRenewals] takes. *)
Definition getUpcomingRenewals (now next7Days : Date)
    (subscriptions : list SubscriptionModel) : list SubscriptionModel :=
  let next7Days := setDate next7Days (getDate now + 7) in
  filter
    (fun sub =>
       if negb (is_active sub) then false
       else match parseDate (next_billing_date sub) with
            | Some renewalDate =>
                (now <=? renewalDate)%Z && (renewalDate <=? next7Days)%Z
            | None => false
            end)
    subscriptions.

Definition getDaysUntilRenewal (today : Date) (nextBillingDate : string) : num :=
  let billing := match parseDate nextBillingDate with
                 | Some t => Fin (inject_Z t)
                 | None => NaN
                 end in
  let diff := sub billing (Fin (inject_Z today)) in
  ceil (div diff (Fin (1000 * 60 * 60 * 24))).

(** The flag of a row: [daysUntilRenewal <= 7 && daysUntilRenewal >= 0]. *)
Definition isUpcoming (today : Date) (sub : SubscriptionModel) : bool :=
  let daysUntilRenewal := getDaysUntilRenewal today (next_billing_date sub) in
  leb daysUntilRenewal (Fin 7) && geb daysUntilRenewal (Fin 0).

End Renewals.

(** ** Category totals *)

Section CategoryTotals.

Variables W M Y : Z.




End CategoryTotals.


Definition sub3 (name cat : string) (a : Q) (cycle : Z) (active : bool)
  : SubscriptionModel :=
  {| service_name := name; amount := Fin a; billing_cycle := cycle;
     next_billing_date := "2025-01-20"; category := cat; is_active := active |}.



(** The label shown for a billing cycle and the multiplier of its yearly
    cost come from the same entry of [BILLING_CYCLES]: the entry of the
    cycle, or the monthly one for a cycle outside the table. *)
Theorem label_and_cost_agree (W M Y : Z) (a : num) (cycle : Z) :
  exists bc,
    In bc (BILLING_CYCLES W M Y) /\
    getBillingCycleLabel W M Y cycle = label bc /\
    getYearlyCost W M Y a cycle = mul a (multiplier bc) /\
    (value bc = cycle \/
     (label bc = "Monthly"%string /\
      forall bc', In bc' (BILLING_CYCLES W M Y) -> value bc' <> cycle)).
Proof.
  unfold getBillingCycleLabel, getYearlyCost, BILLING_CYCLES.
  cbn [find value label multiplier].
  destruct (W =? cycle)%Z eqn:EW.
  { eexists. split; [left; reflexivity |]. cbn [label multiplier value truthy].
    repeat split. left. apply Z.eqb_eq. exact EW. }
  destruct (M =? cycle)%Z eqn:EM.
  { eexists. split; [right; left; reflexivity |]. cbn [label multiplier value truthy].
    repeat split. left. apply Z.eqb_eq. exact EM. }
  destruct (Y =? cycle)%Z eqn:EY.
  { eexists. split; [right; right; left; reflexivity |].
    cbn [label multiplier value truthy].
    repeat split. left. apply Z.eqb_eq. exact EY. }
  eexists. split; [right; left; reflexivity |]. cbn [label multiplier value].
  repeat split. right. split; [reflexivity |].
  apply Z.eqb_neq in EW, EM, EY.
  intros bc' [<- | [<- | [<- | []]]]; assumption.
Qed.

(** ** Sorting the list *)


Section SortedList.

Variables Weekly Monthly Yearly : Z.

(** [parseDate d] is the time value of [new Date(d)], [None] for an
    invalid date; [localeCompare] is the comparison of the locale. *)
Variable parseDate : string -> option Date.
Variable localeCompare : string -> string -> num.




End SortedList.




(** ** Renewals *)

Section RenewalProperties.

Variable parseDate : string -> option Date.

Local Open Scope Z_scope.

(** When the second reading of the clock is in the same month as the
    first, [next7Days] is the day seven days after [now], also across the
    end of the month, at the time of day of the second reading. *)
Lemma next7Days_value (now next7Days : Date) :
  getFullYear next7Days = getFullYear now -> getMonth next7Days = getMonth now ->
  setDate next7Days (getDate now + 7)
    = MakeDate (Day now + 7) (TimeWithinDay next7Days).
Proof.
  intros Hy Hm. unfold setDate. rewrite Hy, Hm, MakeDay_shift, MakeDay_civil.
  reflexivity.
Qed.

(** Membership in the list of upcoming renewals. *)
Lemma upcoming_window (now next7Days : Date)
    (subscriptions : list SubscriptionModel) (sub : SubscriptionModel) :
  getFullYear next7Days = getFullYear now -> getMonth next7Days = getMonth now ->
  (In sub (getUpcomingRenewals parseDate now next7Days subscriptions) <->
   In sub subscriptions /\ is_active sub = true /\
   exists renewalDate,
     parseDate (next_billing_date sub) = Some renewalDate /\
     now <= renewalDate <= MakeDate (Day now + 7) (TimeWithinDay next7Days)).
Proof.
  intros Hy Hm. unfold getUpcomingRenewals. cbv zeta.
  rewrite (@next7Days_value now next7Days Hy Hm), filter_In.
  destruct (is_active sub); cbn [negb].
  - destruct (parseDate (next_billing_date sub)) as [r |].
    + rewrite Bool.andb_true_iff, !Z.leb_le. split.
      * intros [Hin H]. split; [exact Hin |]. split; [reflexivity |].
        exists r. split; [reflexivity | exact H].
      * intros [Hin [_ [r' [E H]]]]. injection E as <-. tauto.
    + split; [intros [_ H]; discriminate |].
      intros [_ [_ [r [E _]]]]. discriminate.
  - split; [intros [_ H] | intros [_ [H _]]]; discriminate.
Qed.

(** The upcoming renewals are the active subscriptions whose renewal date
    is valid and lies between [now] and seven days later, both included. *)
Theorem getUpcomingRenewals_window (now next7Days : Date)
    (subscriptions : list SubscriptionModel) (sub : SubscriptionModel) :
  getFullYear next7Days = getFullYear now -> getMonth next7Days = getMonth now ->
  (In sub (getUpcomingRenewals parseDate now next7Days subscriptions) <->
   In sub subscriptions /\ is_active sub = true /\
   exists renewalDate,
     parseDate (next_billing_date sub) = Some renewalDate /\
     now <= renewalDate <= MakeDate (Day now + 7) (TimeWithinDay next7Days)).
Proof. apply upcoming_window. Qed.

(** With one reading of the clock the bound is [now] plus seven days. *)
Lemma next7Days_single (now : Date) :
  MakeDate (Day now + 7) (TimeWithinDay now) = now + 7 * msPerDay.
Proof. rewrite MakeDate_shift, MakeDate_Day. reflexivity. Qed.

Lemma getDaysUntilRenewal_value (today renewalDate : Date) (d : string) :
  parseDate d = Some renewalDate ->
  getDaysUntilRenewal parseDate today d
  = Fin (inject_Z (Qceiling ((inject_Z renewalDate - inject_Z today)
                             / (1000 * 60 * 60 * 24)))).
Proof.
  intros E. unfold getDaysUntilRenewal. rewrite E. reflexivity.
Qed.

Lemma days_quotient (today renewalDate lo hi : Z) :
  today + lo * msPerDay <= renewalDate <= today + hi * msPerDay ->
  (inject_Z lo <= (inject_Z renewalDate - inject_Z today) / (1000 * 60 * 60 * 24)
   <= inject_Z hi)%Q.
Proof.
  intros [Hlo Hhi].
  assert (Hms : (inject_Z msPerDay == 1000 * 60 * 60 * 24)%Q) by reflexivity.
  assert (Hpos : (0 < 1000 * 60 * 60 * 24)%Q) by reflexivity.
  rewrite Zle_Qle in Hlo, Hhi.
  rewrite inject_Z_plus, inject_Z_mult, Hms in Hlo, Hhi.
  split.
  - apply Qle_shift_div_l; [exact Hpos | lra].
  - apply Qle_shift_div_r; [exact Hpos | lra].
Qed.

Lemma Qceiling_between (q : Q) (lo hi : Z) :
  (inject_Z lo <= q <= inject_Z hi)%Q -> lo <= Qceiling q <= hi.
Proof.
  intros [Hlo Hhi]. split.
  - rewrite <- (Qceiling_Z lo). apply Qceiling_resp_le. exact Hlo.
  - rewrite <- (Qceiling_Z hi). apply Qceiling_resp_le. exact Hhi.
Qed.

Lemma isUpcoming_value (today renewalDate : Date) (sub : SubscriptionModel) :
  parseDate (next_billing_date sub) = Some renewalDate ->
  isUpcoming parseDate today sub = true <->
  0 <= Qceiling ((inject_Z renewalDate - inject_Z today) / (1000 * 60 * 60 * 24))
    <= 7.
Proof.
  intros E. unfold isUpcoming. cbv zeta.
  rewrite (@getDaysUntilRenewal_value today renewalDate _ E).
  rewrite Bool.andb_true_iff, leb_Fin, geb_Fin.
  change 7%Q with (inject_Z 7). change 0%Q with (inject_Z 0).
  rewrite <- !Zle_Qle. lia.
Qed.

End RenewalProperties.

Lemma getUpcomingRenewals_window_witness :
  In (sub3 "Gym" "fitness" 10 1 true)
     (getUpcomingRenewals (fun _ => Some (3 * msPerDay)%Z) 0%Z 5%Z
        [sub3 "Gym" "fitness" 10 1 true]).
Proof.
  apply (proj2 (@getUpcomingRenewals_window (fun _ => Some (3 * msPerDay)%Z)
                  0%Z 5%Z [sub3 "Gym" "fitness" 10 1 true]
                  (sub3 "Gym" "fitness" 10 1 true) eq_refl eq_refl)).
  split; [left; reflexivity |]. split; [reflexivity |].
  exists (3 * msPerDay)%Z. split; [reflexivity |]. vm_compute. split; discriminate.
Defined.

(** Every subscription listed as an upcoming renewal is active and carries
    the flag of its row, when both are computed at the same instant. *)
Theorem upcoming_renewals_are_flagged (parseDate : string -> option Date)
    (now : Date) (subscriptions : list SubscriptionModel)
    (sub : SubscriptionModel) :
  In sub (getUpcomingRenewals parseDate now now subscriptions) ->
  is_active sub = true /\ isUpcoming parseDate now sub = true.
Proof.
  intros Hin.
  apply (@upcoming_window parseDate now now subscriptions sub
           eq_refl eq_refl) in Hin.
  destruct Hin as [_ [Ha [r [E Hr]]]]. split; [exact Ha |].
  rewrite next7Days_single in Hr.
  apply (@isUpcoming_value parseDate now r sub E).
  apply Qceiling_between. apply days_quotient. lia.
Qed.

Lemma upcoming_renewals_are_flagged_witness :
  isUpcoming (fun _ => Some (3 * msPerDay)%Z) 0%Z
             (sub3 "Gym" "fitness" 10 1 true) = true.
Proof.
  apply (@upcoming_renewals_are_flagged (fun _ => Some (3 * msPerDay)%Z) 0%Z
           [sub3 "Gym" "fitness" 10 1 true] (sub3 "Gym" "fitness" 10 1 true)).
  vm_compute. left. reflexivity.
Defined.

(** The converse fails for a renewal less than a day in the past: its
    number of days rounds up to 0, so the row is flagged, but the list of
    upcoming renewals leaves it out. *)
Theorem renewal_just_passed (parseDate : string -> option Date)
    (now renewalDate : Date) (subscriptions : list SubscriptionModel)
    (sub : SubscriptionModel) :
  parseDate (next_billing_date sub) = Some renewalDate ->
  (now - msPerDay < renewalDate < now)%Z ->
  isUpcoming parseDate now sub = true /\
  ~ In sub (getUpcomingRenewals parseDate now now subscriptions).
Proof.
  intros E [Hlo Hhi]. split.
  - apply (@isUpcoming_value parseDate now renewalDate sub E).
    set (q := ((inject_Z renewalDate - inject_Z now) / (1000 * 60 * 60 * 24))%Q).
    assert (Hq : (inject_Z (-1) < q /\ q <= inject_Z 0)%Q).
    { assert (Hms : (inject_Z msPerDay == 1000 * 60 * 60 * 24)%Q) by reflexivity.
      assert (Hpos : (0 < 1000 * 60 * 60 * 24)%Q) by reflexivity.
      rewrite Zlt_Qlt in Hlo, Hhi.
      unfold Z.sub in Hlo. rewrite inject_Z_plus, inject_Z_opp, Hms in Hlo.
      unfold q. split.
      - apply Qlt_shift_div_l; [exact Hpos |]. change (inject_Z (-1)) with (-1)%Q. lra.
      - apply Qle_shift_div_r; [exact Hpos |]. change (inject_Z 0) with 0%Q. lra. }
    clearbody q. destruct Hq as [Hq1 Hq2].
    pose proof (Qle_ceiling q) as Hc.
    assert (H1 : (-1 < Qceiling q)%Z).
    { rewrite Zlt_Qlt. eapply Qlt_le_trans; [exact Hq1 | exact Hc]. }
    assert (H2 : (Qceiling q <= 0)%Z).
    { rewrite <- (Qceiling_Z 0). apply Qceiling_resp_le. exact Hq2. }
    lia.
  - intros Hin.
    apply (@upcoming_window parseDate now now subscriptions sub
             eq_refl eq_refl) in Hin.
    destruct Hin as [_ [_ [r [E' [Hr _]]]]].
    rewrite E in E'. injection E' as <-. lia.
Qed.

Lemma renewal_just_passed_witness :
  isUpcoming (fun _ => Some (-43200000)%Z) 0%Z (sub3 "Gym" "fitness" 10 1 true)
  = true /\
  ~ In (sub3 "Gym" "fitness" 10 1 true)
       (getUpcomingRenewals (fun _ => Some (-43200000)%Z) 0%Z 0%Z
          [sub3 "Gym" "fitness" 10 1 true]).
Proof.
  apply (@renewal_just_passed (fun _ => Some (-43200000)%Z) 0%Z (-43200000)%Z
           [sub3 "Gym" "fitness" 10 1 true] (sub3 "Gym" "fitness" 10 1 true)
           eq_refl).
  vm_compute. split; reflexivity.
Defined.

End SubscriptionInsights.

(* ===================================================================== *)
(** * SpendingAnalytics.tsx: windows, breakdowns and insights             *)
(* ===================================================================== *)

Module AnalyticsInsights.
Import JSNum JSDate DateFns SpendingAnalytics.

Local Open Scope Z_scope.
Local Unset Implicit Arguments.

(** ** The current window and the previous one *)

Lemma Day_le (t : Date) (d : Z) : d <= Day t -> MakeDate d 0 <= t.
Proof.
  intros H. pose proof (MakeDate_Day t) as E.
  pose proof (TimeWithinDay_range t). unfold MakeDate, msPerDay in *. lia.
Qed.

Lemma Day_lt (t : Date) (d : Z) : Day t < d -> t <= MakeDate d 0 - 1.
Proof.
  intros H. pose proof (MakeDate_Day t) as E.
  pose proof (TimeWithinDay_range t). unfold MakeDate, msPerDay in *. lia.
Qed.

Lemma MakeDay_next_month y m :
  0 <= m <= 11 -> MakeDay y (m + 1) 1 = MakeDay y m 1 + DaysInMonth y m.
Proof.
  intros Hm. destruct (Z.eq_dec m 11) as [-> | Hne].
  - change (11 + 1) with (0 + 1 * 12). rewrite MakeDay_carry.
    rewrite !MakeDay_month_in_range by lia.
    rewrite DayFromYear_succ. unfold DaysInYear, DaysBeforeMonth, DaysInMonth. lia.
  - pose proof (leapDay_range y) as HL.
    month_cases m Hc; try lia;
      cbn [Z.add Pos.add Pos.succ Pos.add_carry];
      rewrite !MakeDay_month_in_range by lia;
      unfold DaysBeforeMonth, DaysInMonth; lia.
Qed.

(** The first day of the month of [t], and of the next month. *)
Lemma month_of (t : Date) :
  MakeDay (getFullYear t) (getMonth t) 1 <= Day t
    < MakeDay (getFullYear t) (getMonth t + 1) 1.
Proof.
  destruct (civil_of_day (Day t)) as [Hm [Hdt Hmk]].
  fold (getMonth t) in *. fold (getFullYear t) in *. fold (getDate t) in *.
  rewrite MakeDay_next_month by exact Hm.
  replace (getDate t) with (1 + (getDate t - 1)) in Hmk by lia.
  rewrite MakeDay_shift in Hmk. lia.
Qed.

Lemma DaysBeforeMonth_mono y a b :
  0 <= a <= b -> b <= 11 -> DaysBeforeMonth y a <= DaysBeforeMonth y b.
Proof.
  intros Ha Hb. pose proof (leapDay_range y) as HL.
  month_cases a Hc; month_cases b Hc'; try lia; unfold DaysBeforeMonth; lia.
Qed.

Lemma MakeDay_month_mono y a b :
  0 <= a <= b -> b <= 12 -> MakeDay y a 1 <= MakeDay y b 1.
Proof.
  intros Ha Hb. destruct (Z.eq_dec b 12) as [-> | Hne].
  - change 12 with (0 + 1 * 12). rewrite MakeDay_carry.
    destruct (Z.eq_dec a 12) as [-> | Hna].
    + change 12 with (0 + 1 * 12). rewrite MakeDay_carry. lia.
    + rewrite !MakeDay_month_in_range by lia. rewrite DayFromYear_succ.
      pose proof (leapDay_range y) as HL.
      pose proof (@DaysBeforeMonth_mono y a 11) as Hmono.
      unfold DaysInYear. unfold DaysBeforeMonth at 2.
      unfold DaysBeforeMonth at 2 in Hmono. lia.
  - rewrite !MakeDay_month_in_range by lia.
    pose proof (@DaysBeforeMonth_mono y a b). lia.
Qed.

Lemma quarter_of (t : Date) :
  let q := getMonth t - getMonth t mod 3 in
  MakeDay (getFullYear t) q 1 <= Day t < MakeDay (getFullYear t) (q + 3) 1.
Proof.
  cbv zeta. pose proof (month_of t) as Hmo.
  destruct (civil_of_day (Day t)) as [Hm _].
  fold (getMonth t) in *. fold (getFullYear t) in *.
  set (y := getFullYear t) in *. set (m := getMonth t) in *.
  assert (Hq : 0 <= m - m mod 3 <= m /\ m + 1 <= m - m mod 3 + 3 <= 12).
  { clearbody m. clear Hmo. Z.to_euclidean_division_equations; lia. }
  pose proof (@MakeDay_month_mono y (m - m mod 3) m).
  pose proof (@MakeDay_month_mono y (m + 1) (m - m mod 3 + 3)).
  lia.
Qed.

Lemma endOfQuarter_eq (t : Date) :
  endOfQuarter t =
    MakeDate (MakeDay (getFullYear t) (getMonth t - getMonth t mod 3 + 3) 1) 0 - 1.
Proof.
  unfold endOfQuarter. cbv zeta. rewrite setHours_end. unfold setMonth.
  rewrite Day_MakeDate_within, MakeDay_zero_pred. unfold MakeDate. lia.
Qed.

Lemma year_of (t : Date) :
  MakeDay (getFullYear t) 0 1 <= Day t < MakeDay (getFullYear t + 1) 0 1.
Proof.
  rewrite !MakeDay_month_in_range by lia.
  pose proof (YearFromDay_bounds (Day t)) as H. fold (getFullYear t) in H.
  unfold DaysBeforeMonth. lia.
Qed.

Lemma week_of (t : Date) :
  Day t - WeekDay (Day t) <= Day t < Day t - WeekDay (Day t) + 7.
Proof. pose proof (WeekDay_range (Day t)). lia. Qed.

Lemma window_bounds (timeFilter : TimeFilter) (now : Date) :
  start (dateRange timeFilter now) <= now <= end_ (dateRange timeFilter now).
Proof.
  destruct timeFilter; cbn [dateRange start end_].
  - rewrite startOfWeek_eq, endOfWeek_eq. pose proof (week_of now).
    split; [apply Day_le | apply Day_lt]; lia.
  - rewrite startOfMonth_eq, endOfMonth_eq. pose proof (month_of now).
    split; [apply Day_le | apply Day_lt]; lia.
  - rewrite startOfQuarter_eq, endOfQuarter_eq. pose proof (quarter_of now) as H.
    cbv zeta in H. split; [apply Day_le | apply Day_lt]; lia.
  - rewrite startOfYear_eq, endOfYear_eq. pose proof (year_of now).
    split; [apply Day_le | apply Day_lt]; lia.
Qed.

Lemma startOfWeek_le (t : Date) : startOfWeek t <= t.
Proof.
  rewrite startOfWeek_eq. apply Day_le. pose proof (week_of t). lia.
Qed.

Lemma startOfQuarter_le (t : Date) : startOfQuarter t <= t.
Proof.
  rewrite startOfQuarter_eq. apply Day_le. pose proof (quarter_of t) as H.
  cbv zeta in H. lia.
Qed.

(** The previous window computed at the instant of the current one: it is
    not empty and ends before the current one starts. *)
Lemma previous_before_current (timeFilter : TimeFilter) (now : Date) :
  let cur := dateRange timeFilter now in
  let (prevStart, prevEnd) := previousPeriod timeFilter cur now in
  prevStart <= prevEnd /\ prevEnd < start cur.
Proof.
  cbv zeta. destruct timeFilter.
  - pose proof (weekly_previous (dateRange weekly now) now) as H.
    destruct (previousPeriod weekly (dateRange weekly now) now) as [ps pe].
    destruct H as [He Hs]. subst ps.
    split; [apply startOfWeek_le | unfold msPerDay in He; lia].
  - pose proof (monthly_previous (dateRange monthly now) now) as H.
    unfold monthBefore in H.
    destruct (previousPeriod monthly (dateRange monthly now) now) as [ps pe].
    cbn [dateRange start].
    destruct (civil_of_day (Day now)) as [Hm _]. fold (getMonth now) in Hm.
    destruct (MakeDay_zero (getFullYear now) Hm) as [_ [Hm' [Hd Hnext]]].
    cbv zeta in Hm', Hd, Hnext.
    assert (Hs : ps = MakeDate (MakeDay
                   (if getMonth now =? 0 then getFullYear now - 1 else getFullYear now)
                   (if getMonth now =? 0 then 11 else getMonth now - 1) 1) 0 /\
                 pe = startOfMonth now - 1).
    { destruct (getMonth now =? 0); tauto. }
    destruct Hs as [-> ->]. split; [| lia].
    rewrite startOfMonth_eq, <- Hnext, MakeDay_next_month by exact Hm'.
    unfold MakeDate, msPerDay. lia.
  - pose proof (quarterly_previous (dateRange quarterly now) now) as H.
    destruct (previousPeriod quarterly (dateRange quarterly now) now) as [ps pe].
    destruct H as [He Hs]. subst ps.
    split; [apply startOfQuarter_le | unfold msPerDay in He; lia].
  - pose proof (yearly_previous (dateRange yearly now) now) as H.
    destruct (previousPeriod yearly (dateRange yearly now) now) as [ps pe].
    destruct H as [-> ->]. cbn [dateRange start]. split; [| lia].
    rewrite startOfYear_eq, !MakeDay_month_in_range by lia.
    pose proof (DayFromYear_succ (getFullYear now - 1)) as Hs.
    replace (getFullYear now - 1 + 1) with (getFullYear now) in Hs by lia.
    pose proof (leapDay_range (getFullYear now - 1)) as HL.
    unfold DaysInYear in Hs. unfold DaysBeforeMonth, MakeDate, msPerDay. lia.
Qed.

(** The instant at which the window is computed lies in the window, for
    each of the four granularities. *)
Theorem dateRange_contains_now (timeFilter : TimeFilter) (now : Date)
    (tx : TransactionModel) (transactions : list TransactionModel) :
  start (dateRange timeFilter now) <= now <= end_ (dateRange timeFilter now) /\
  (transaction_time tx = Some now -> In tx transactions ->
   In tx (filteredTransactions transactions (dateRange timeFilter now))).
Proof.
  split; [apply window_bounds |].
  intros E Hin. apply filteredTransactions_spec. split; [exact Hin |].
  exists now. split; [exact E | apply window_bounds].
Qed.

(** When both windows are computed at the same instant, the previous
    window is not empty and ends before the current one starts: no
    transaction is counted in both totals. *)
Theorem windows_do_not_overlap (timeFilter : TimeFilter) (now : Date)
    (transactions : list TransactionModel) (tx : TransactionModel) :
  let cur := dateRange timeFilter now in
  fst (previousPeriod timeFilter cur now) <= snd (previousPeriod timeFilter cur now)
    < start cur /\
  (In tx (filteredTransactions transactions cur) ->
   ~ In tx (previousPeriodTransactions transactions cur timeFilter now)).
Proof.
  cbv zeta. pose proof (previous_before_current timeFilter now) as H.
  cbv zeta in H. split.
  - destruct (previousPeriod timeFilter (dateRange timeFilter now) now). exact H.
  - intros Hc Hp.
    apply filteredTransactions_spec in Hc. destruct Hc as [_ [t [E Ht]]].
    apply previousPeriodTransactions_spec in Hp. destruct Hp as [_ [t' [E' Ht']]].
    rewrite E in E'. injection E' as <-.
    destruct (previousPeriod timeFilter (dateRange timeFilter now) now).
    cbn [fst snd] in Ht'. lia.
Qed.

(** In the weekly and quarterly views the previous window ends at the
    first instant of the day before the current window: a transaction
    later on that day is in neither window. *)
Theorem last_day_in_neither_window (timeFilter : TimeFilter) (cur : DateRange)
    (now : Date) (transactions : list TransactionModel)
    (tx : TransactionModel) (t : Date) :
  timeFilter = weekly \/ timeFilter = quarterly ->
  transaction_time tx = Some t ->
  start cur - msPerDay < t < start cur ->
  ~ In tx (filteredTransactions transactions cur) /\
  ~ In tx (previousPeriodTransactions transactions cur timeFilter now).
Proof.
  intros Htf E Ht. split.
  - intros Hc. apply filteredTransactions_spec in Hc.
    destruct Hc as [_ [t' [E' Ht']]]. rewrite E in E'. injection E' as <-. lia.
  - intros Hp. apply previousPeriodTransactions_spec in Hp.
    destruct Hp as [_ [t' [E' Ht']]]. rewrite E in E'. injection E' as <-.
    assert (He : snd (previousPeriod timeFilter cur now) = start cur - msPerDay).
    { destruct Htf as [-> | ->].
      - pose proof (weekly_previous cur now) as H.
        destruct (previousPeriod weekly cur now). apply H.
      - pose proof (quarterly_previous cur now) as H.
        destruct (previousPeriod quarterly cur now). apply H. }
    lia.
Qed.

Lemma last_day_in_neither_window_witness :
  let now := civil 2025 0 15 12 0 0 0 in
  let cur := dateRange weekly now in
  let tx := mkTx 10 (civil 2025 0 11 9 0 0 0) in
  ~ In tx (filteredTransactions [tx] cur) /\
  ~ In tx (previousPeriodTransactions [tx] cur weekly now).
Proof.
  cbv zeta.
  apply (@last_day_in_neither_window weekly
           (dateRange weekly (civil 2025 0 15 12 0 0 0))
           (civil 2025 0 15 12 0 0 0)
           [mkTx 10 (civil 2025 0 11 9 0 0 0)]
           (mkTx 10 (civil 2025 0 11 9 0 0 0))
           (civil 2025 0 11 9 0 0 0)).
  - left. reflexivity.
  - reflexivity.
  - vm_compute. split; reflexivity.
Defined.

End AnalyticsInsights.

(* ===================================================================== *)
(** * SpendingAnalytics.tsx: breakdown by category and behaviour           *)
(* ===================================================================== *)

Module SpendingBreakdown.
Import JSNum JSDate JSObject SpendingAnalytics.

(** An entry of [categoryData]; [name] and [color] are [None] when the
    table has no entry for the category. *)
Record CategoryDatum : Type := {
  name : option string;
  value : num;
  color : option string;
  percentage : num
}.

(** [a === b] on values that are strings or [undefined]. *)
Definition same (a b : option string) : bool :=
  match a, b with
  | Some x, Some y => String.eqb x y
  | None, None => true
  | _, _ => false
  end.

(** The sentences of [insights], with the numbers that their templates
    print. *)
Inductive InsightText : Type :=
| WeekendHigher (percentHigher : num)
| CategoryHigher (categoryName : option string) (increase : num)
| FirstWeek
| Reduced (percent : num).

Definition weekendVsWeekday (filteredTransactions : list TransactionModel)
  : num * num :=
  fold_left
    (fun (totals : num * num) tx =>
       let (weekendTotal, weekdayTotal) := totals in
       let weekend :=
         match transaction_time tx with
         | Some txDate =>
             let dayOfWeek := getDay txDate in
             (dayOfWeek =? 0)%Z || (dayOfWeek =? 6)%Z
         | None => false
         end in
       if weekend then (add weekendTotal (amount tx), weekdayTotal)
       else (weekendTotal, add weekdayTotal (amount tx)))
    filteredTransactions (Fin 0, Fin 0).

Section Categories.

(** The members of the enum [TransactionCategory], declared by the
    generated ORM client. *)
Variables Food Entertainment Transportation Utilities Shopping Health
          Subscriptions Other Unspecified : Z.

Definition CATEGORY_COLORS : list (Z * string) :=
  objectLiteral Z.eqb
    ([(Food, "#ef4444"); (Entertainment, "#8b5cf6"); (Transportation, "#3b82f6");
      (Utilities, "#f59e0b"); (Shopping, "#ec4899"); (Health, "#10b981");
      (Subscriptions, "#6366f1"); (Other, "#6b7280"); (Unspecified, "#9ca3af")]
     )%string.

Definition CATEGORY_NAMES : list (Z * string) :=
  objectLiteral Z.eqb
    ([(Food, "Food"); (Entertainment, "Entertainment");
      (Transportation, "Transportation"); (Utilities, "Utilities");
      (Shopping, "Shopping"); (Health, "Health");
      (Subscriptions, "Subscriptions"); (Other, "Other");
      (Unspecified, "Unspecified")])%string.

Definition categoryData (filteredTransactions : list TransactionModel)
    (totalSpending : num) : list CategoryDatum :=
  let categoryTotals :=
    accumulateAll Z.eqb category amount filteredTransactions [] in
  sort (fun a b => ltb (sub (value b) (value a)) (Fin 0))
       (map (fun entry : Z * num =>
               {| name := lookup Z.eqb CATEGORY_NAMES (fst entry);
                  value := snd entry;
                  color := lookup Z.eqb CATEGORY_COLORS (fst entry);
                  percentage := mul (div (snd entry) totalSpending) (Fin 100) |})
            (Object_entries categoryTotals)).

Definition previousCategoryData
    (previousPeriodTransactions : list TransactionModel) : Totals Z :=
  accumulateAll Z.eqb category amount previousPeriodTransactions [].

(** The sentence of one category, if any. *)
Definition categoryInsight (previousCategoryData : Totals Z)
    (category : CategoryDatum) : list InsightText :=
  let categoryKey :=
    find (fun key => same (lookup Z.eqb CATEGORY_NAMES key) (name category))
         (map fst (Object_entries CATEGORY_NAMES)) in
  match categoryKey with
  | Some categoryKey =>
      let prevAmount := totalOrZero Z.eqb previousCategoryData categoryKey in
      if gtb prevAmount (Fin 0) then
        let increase :=
          mul (div (sub (value category) prevAmount) prevAmount) (Fin 100) in
        if gtb increase (Fin 15)
        then [CategoryHigher (name category) (round increase)]
        else []
      else []
  | None => []
  end.

Definition insights (categoryData : list CategoryDatum)
    (previousCategoryData : Totals Z) (weekendVsWeekday : num * num)
    (filteredTransactions : list TransactionModel) (totalSpending : num)
    (timeFilter : TimeFilter) (changePercentage : num) : list InsightText :=
  let (weekend, weekday) := weekendVsWeekday in
  (if gtb weekend (mul weekday (Fin (4 # 10))) then
     let percentHigher :=
       round (sub (mul (div weekend (mul (div weekday (Fin 5)) (Fin 2))) (Fin 100))
                  (Fin 100)) in
     [WeekendHigher percentHigher]
   else [])
  ++ flat_map (categoryInsight previousCategoryData) categoryData
  ++ match timeFilter with
     | monthly =>
         let firstWeekSpending :=
           fold_left (fun sum tx => add sum (amount tx))
             (filter (fun tx =>
                        match transaction_time tx with
                        | Some txDate => (getDate txDate <=? 7)%Z
                        | None => false
                        end)
                     filteredTransactions)
             (Fin 0) in
         if gtb firstWeekSpending (mul totalSpending (Fin (35 # 100)))
         then [FirstWeek] else []
     | _ => []
     end
  ++ (if ltb changePercentage (Fin (-5))
      then [Reduced (abs (round changePercentage))] else []).

(** The insights that the component shows for the transactions of the
    current and of the previous window. *)
Definition shownInsights (timeFilter : TimeFilter)
    (filteredTransactions previousPeriodTransactions : list TransactionModel)
  : list InsightText :=
  let totalSpending := totalSpending filteredTransactions in
  let previousTotalSpending := SpendingAnalytics.totalSpending
                                 previousPeriodTransactions in
  insights (categoryData filteredTransactions totalSpending)
           (previousCategoryData previousPeriodTransactions)
           (weekendVsWeekday filteredTransactions)
           filteredTransactions totalSpending timeFilter
           (changePercentage totalSpending previousTotalSpending).

End Categories.

(** ** Weekend and weekday totals *)

Definition onWeekend (tx : TransactionModel) : bool :=
  match transaction_time tx with
  | Some txDate => (getDay txDate =? 0)%Z || (getDay txDate =? 6)%Z
  | None => false
  end.

Lemma weekendVsWeekday_fold (txs : list TransactionModel) (we wd : num) :
  fold_left
    (fun (totals : num * num) tx =>
       let (weekendTotal, weekdayTotal) := totals in
       let weekend :=
         match transaction_time tx with
         | Some txDate =>
             let dayOfWeek := getDay txDate in
             (dayOfWeek =? 0)%Z || (dayOfWeek =? 6)%Z
         | None => false
         end in
       if weekend then (add weekendTotal (amount tx), weekdayTotal)
       else (weekendTotal, add weekdayTotal (amount tx)))
    txs (we, wd)
  = (fold_left (fun sum tx => add sum (amount tx)) (filter onWeekend txs) we,
     fold_left (fun sum tx => add sum (amount tx))
               (filter (fun tx => negb (onWeekend tx)) txs) wd).
Proof.
  revert we wd. induction txs as [| tx rest IH]; intros we wd; [reflexivity |].
  cbn [fold_left filter]. cbv zeta.
  change (match transaction_time tx with
          | Some txDate => (getDay txDate =? 0)%Z || (getDay txDate =? 6)%Z
          | None => false
          end) with (onWeekend tx).
  destruct (onWeekend tx); cbn [negb fold_left]; apply IH.
Qed.



(** ** The breakdown by category *)

Section Breakdown.

Variables Food Entertainment Transportation Utilities Shopping Health
          Subscriptions Other Unspecified : Z.

Let categoryData' := categoryData Food Entertainment Transportation Utilities
                                  Shopping Health Subscriptions Other Unspecified.

Let entry (totalSpending : num) (e : Z * num) : CategoryDatum :=
  {| name := lookup Z.eqb
               (CATEGORY_NAMES Food Entertainment Transportation Utilities
                               Shopping Health Subscriptions Other Unspecified)
               (fst e);
     value := snd e;
     color := lookup Z.eqb
                (CATEGORY_COLORS Food Entertainment Transportation Utilities
                                 Shopping Health Subscriptions Other Unspecified)
                (fst e);
     percentage := mul (div (snd e) totalSpending) (Fin 100) |}.

Lemma categoryData_Permutation (txs : list TransactionModel) (total : num) :
  Permutation (categoryData' txs total)
              (map (entry total) (accumulateAll Z.eqb category amount txs [])).
Proof.
  unfold categoryData', categoryData. cbv zeta.
  eapply Permutation_trans; [apply sort_Permutation |].
  apply Permutation_map. apply Object_entries_Permutation.
Qed.

Lemma categoryTotals_facts (txs : list TransactionModel) :
  Forall (fun tx => finite (amount tx)) txs ->
  let categoryTotals := accumulateAll Z.eqb category amount txs [] in
  eqv (sumOver snd categoryTotals) (totalSpending txs) /\
  Forall (fun kv => finite (snd kv)) categoryTotals.
Proof.
  intros Hfin. cbv zeta.
  destruct (@accumulateAll_sum Z Z.eqb TransactionModel category amount txs [])
    as [Hsum Hall]; [constructor | exact Hfin |].
  split; [| exact Hall].
  eapply eqv_trans; [exact Hsum |].
  eapply eqv_trans; [apply SubscriptionTracker.add_zero_l |].
  apply eqv_sym. apply (fold_left_sumOver amount).
Qed.

End Breakdown.


Definition tx3 (a : Q) (c : Z) (t : Date) : TransactionModel :=
  {| amount := Fin a; category := c; transaction_time := Some t |}.


(** ** The numbers that the insights print *)

(** An amount that is finite and not negative. *)
Definition expense (a : num) : Prop := exists q, a = Fin q /\ 0 <= q.

(** What an insight may print. *)
Definition printable (timeFilter : TimeFilter) (i : InsightText) : Prop :=
  match i with
  | WeekendHigher p => p = PInf \/ (finite p /\ 0 <= toQ p)
  | CategoryHigher n p => n <> None /\ finite p /\ 15 <= toQ p
  | FirstWeek => timeFilter = monthly
  | Reduced p => finite p /\ 5 <= toQ p
  end.

Lemma round_ge (x : Q) (n : Z) : inject_Z n <= x -> (n <= Qfloor (x + (1 # 2)))%Z.
Proof.
  intros H. rewrite <- (Qfloor_Z n). apply Qfloor_resp_le. lra.
Qed.

Lemma round_le (x : Q) (n : Z) :
  x < inject_Z n - (1 # 2) -> (Qfloor (x + (1 # 2)) <= n - 1)%Z.
Proof.
  intros H. pose proof (Qfloor_le (x + (1 # 2))) as Hf.
  assert (Hlt : inject_Z (Qfloor (x + (1 # 2))) < inject_Z n) by lra.
  rewrite <- Zlt_Qlt in Hlt. lia.
Qed.

Lemma fold_expense (txs : list TransactionModel) (a : Q) :
  0 <= a -> Forall (fun tx => expense (amount tx)) txs ->
  expense (fold_left (fun sum tx => add sum (amount tx)) txs (Fin a)).
Proof.
  intros Ha H. revert a Ha. induction H as [| tx rest Htx _ IH]; intros a Ha.
  - exists a. split; [reflexivity | exact Ha].
  - cbn [fold_left]. destruct Htx as [q [-> Hq]]. cbn [add].
    apply IH. lra.
Qed.

Lemma totalSpending_expense (txs : list TransactionModel) :
  Forall (fun tx => expense (amount tx)) txs -> expense (totalSpending txs).
Proof. apply fold_expense. lra. Qed.

Lemma expense_finite (a : num) : expense a -> finite a.
Proof. intros [q [-> _]]. exists q. reflexivity. Qed.

Lemma Forall_filter (A : Type) (P : A -> Prop) (p : A -> bool) (l : list A) :
  Forall P l -> Forall P (filter p l).
Proof.
  intros H. apply Forall_forall. intros x Hx. apply filter_In in Hx.
  rewrite Forall_forall in H. apply H. apply Hx.
Qed.

Lemma changePercentage_finite (c p : Q) : finite (changePercentage (Fin c) (Fin p)).
Proof.
  unfold changePercentage. destruct (eqb (Fin p) (Fin 0)) eqn:E.
  - destruct (gtb (Fin c) (Fin 0)); eexists; reflexivity.
  - assert (Hp : ~ p == 0).
    { intros H. apply eqb_Fin in H. congruence. }
    cbn [sub neg add]. rewrite div_Fin_nonzero by exact Hp.
    eexists. reflexivity.
Qed.

Lemma lookup_own (V : Type) (object : list (Z * V)) (key : Z) :
  In key (map fst object) -> lookup Z.eqb object key <> None.
Proof.
  induction object as [| [k v] rest IH]; cbn [map fst In lookup]; [tauto |].
  intros [H | H].
  - subst k. rewrite Z.eqb_refl. discriminate.
  - destruct (k =? key)%Z; [discriminate | apply IH; exact H].
Qed.

Lemma totalOrZero_finite (totals : Totals Z) (key : Z) :
  allFinite totals -> finite (totalOrZero Z.eqb totals key).
Proof.
  intros Hall. unfold totalOrZero.
  destruct (lookup Z.eqb totals key) as [v |] eqn:E.
  - apply truthy_or_zero.
    apply (@lookupTotal_finite Z Z.eqb totals key v Hall E).
  - exists 0. reflexivity.
Qed.

Section InsightFacts.

Variables Food Entertainment Transportation Utilities Shopping Health
          Subscriptions Other Unspecified : Z.

Let NAMES := CATEGORY_NAMES Food Entertainment Transportation Utilities
                            Shopping Health Subscriptions Other Unspecified.

Lemma categoryData_finite (txs : list TransactionModel) (total : num) :
  Forall (fun tx => finite (amount tx)) txs ->
  Forall (fun d => finite (value d))
         (categoryData Food Entertainment Transportation Utilities Shopping
                       Health Subscriptions Other Unspecified txs total).
Proof.
  intros Hfin. destruct (categoryTotals_facts Hfin) as [_ Hall].
  apply Forall_forall. intros d Hd.
  apply (Permutation_in _ (categoryData_Permutation Food Entertainment
           Transportation Utilities Shopping Health Subscriptions Other
           Unspecified txs total)) in Hd.
  apply in_map_iff in Hd. destruct Hd as [e [<- He]]. cbn [value].
  rewrite Forall_forall in Hall. apply (Hall e He).
Qed.

Lemma categoryInsight_printable (timeFilter : TimeFilter)
    (previous : Totals Z) (d : CategoryDatum) :
  allFinite previous -> finite (value d) ->
  Forall (printable timeFilter)
         (categoryInsight Food Entertainment Transportation Utilities Shopping
                          Health Subscriptions Other Unspecified previous d).
Proof.
  intros Hall [v Hv]. unfold categoryInsight. cbv zeta. fold NAMES.
  destruct (find (fun key => same (lookup Z.eqb NAMES key) (name d))
                 (map fst (Object_entries NAMES))) as [key |] eqn:Ef;
    [| constructor].
  apply find_some in Ef. destruct Ef as [Hkey Hsame].
  destruct (totalOrZero_finite key Hall) as [p Hp]. rewrite Hp, Hv.
  destruct (gtb (Fin p) (Fin 0)) eqn:Epos; [| constructor].
  apply gtb_Fin in Epos.
  assert (Hne : ~ p == 0) by lra.
  cbn [sub neg add]. rewrite div_Fin_nonzero by exact Hne. cbn [mul].
  destruct (gtb (Fin ((v + - p) / p * 100)) (Fin 15)) eqn:Einc; [| constructor].
  apply gtb_Fin in Einc.
  constructor; [| constructor]. cbn [printable round toQ].
  split; [| split; [eexists; reflexivity |]].
  - intros Hnone. rewrite Hnone in Hsame.
    assert (Hown : lookup Z.eqb NAMES key <> None).
    { apply lookup_own.
      apply (Permutation_in _ (Permutation_map fst (Object_entries_Permutation NAMES))).
      exact Hkey. }
    destruct (lookup Z.eqb NAMES key); [discriminate | congruence].
  - change 15 with (inject_Z 15). rewrite <- Zle_Qle.
    apply round_ge. change (inject_Z 15) with 15. lra.
Qed.

Lemma weekend_printable (timeFilter : TimeFilter) (w d : Q) :
  0 <= d ->
  Forall (printable timeFilter)
    (if gtb (Fin w) (mul (Fin d) (Fin (4 # 10))) then
       [WeekendHigher
          (round (sub (mul (div (Fin w) (mul (div (Fin d) (Fin 5)) (Fin 2)))
                           (Fin 100))
                      (Fin 100)))]
     else []).
Proof.
  intros Hd. cbn [mul].
  destruct (gtb (Fin w) (Fin (d * (4 # 10)))) eqn:E; [| constructor].
  apply gtb_Fin in E. constructor; [| constructor].
  rewrite (@div_Fin_pos d 5) by reflexivity. cbn [mul printable].
  destruct (Qeq_dec d 0) as [Hz | Hnz].
  - left. assert (Hw : 0 < w) by (rewrite Hz in E; lra).
    assert (Ez : (d / 5 * 2 ?= 0) = Eq).
    { apply Qcompare_Eq_iff. rewrite Hz. reflexivity. }
    assert (Ew : (w ?= 0) = Gt) by (apply Qcompare_Gt_iff; exact Hw).
    cbn [div]. rewrite Ez, Ew. reflexivity.
  - right. assert (Hpos : 0 < d) by lra.
    assert (Hden : 0 < d / 5 * 2).
    { apply Qmult_lt_0_compat; [| reflexivity].
      apply Qlt_shift_div_l; [reflexivity | lra]. }
    rewrite div_Fin_pos by exact Hden. cbn [mul sub neg add round toQ].
    split; [eexists; reflexivity |].
    change 0 with (inject_Z 0). rewrite <- Zle_Qle. apply round_ge.
    change (inject_Z 0) with 0.
    assert (Hq : 1 < w / (d / 5 * 2)).
    { apply Qlt_shift_div_l; [exact Hden |].
      setoid_replace (1 * (d / 5 * 2)) with (d * (4 # 10)) by field. exact E. }
    lra.
Qed.

Lemma reduced_printable (timeFilter : TimeFilter) (c : Q) :
  Forall (printable timeFilter)
    (if ltb (Fin c) (Fin (-5)) then [Reduced (abs (round (Fin c)))] else []).
Proof.
  destruct (ltb (Fin c) (Fin (-5))) eqn:E; [| constructor].
  apply ltb_Fin in E. constructor; [| constructor].
  cbn [printable round abs toQ]. split; [eexists; reflexivity |].
  assert (Hr : (Qfloor (c + (1 # 2)) <= -4 - 1)%Z).
  { apply round_le. change (inject_Z (-4)) with (-4). lra. }
  rewrite Qabs_neg.
  - rewrite <- inject_Z_opp. change 5 with (inject_Z 5). rewrite <- Zle_Qle. lia.
  - change 0 with (inject_Z 0). rewrite <- Zle_Qle. lia.
Qed.

End InsightFacts.

(** For expenses, that is finite amounts that are not negative, every
    insight prints a number that fits its sentence: the weekend insight a
    percentage of at least 0, or [Infinity] when nothing was spent on a
    weekday; a category insight the name of a category of the table and
    an increase of at least 15; the insight on reduced spending a
    reduction of at least 5.  The insight on the first week is shown in
    the monthly view only. *)
Theorem insights_are_printable
    (Food Entertainment Transportation Utilities Shopping Health
     Subscriptions Other Unspecified : Z)
    (timeFilter : TimeFilter)
    (filteredTransactions previousPeriodTransactions : list TransactionModel) :
  Forall (fun tx => expense (amount tx)) filteredTransactions ->
  Forall (fun tx => expense (amount tx)) previousPeriodTransactions ->
  Forall (printable timeFilter)
    (shownInsights Food Entertainment Transportation Utilities Shopping Health
                   Subscriptions Other Unspecified
                   timeFilter filteredTransactions previousPeriodTransactions).
Proof.
  intros Hcur Hprev. unfold shownInsights, insights. cbv zeta.
  assert (Hfc : Forall (fun tx => finite (amount tx)) filteredTransactions).
  { eapply Forall_impl; [| exact Hcur]. intros tx. apply expense_finite. }
  assert (Hfp : Forall (fun tx => finite (amount tx)) previousPeriodTransactions).
  { eapply Forall_impl; [| exact Hprev]. intros tx. apply expense_finite. }
  unfold weekendVsWeekday. rewrite weekendVsWeekday_fold.
  destruct (fold_expense (a := 0) (Qle_refl 0)
              (Forall_filter onWeekend Hcur)) as [w [Ew _]].
  destruct (fold_expense (a := 0) (Qle_refl 0)
              (Forall_filter (fun tx => negb (onWeekend tx)) Hcur)) as [d [Ed Hd]].
  rewrite Ew, Ed.
  destruct (totalSpending_expense Hcur) as [t [Et _]].
  destruct (totalSpending_expense Hprev) as [p [Ep _]].
  rewrite Et, Ep.
  destruct (changePercentage_finite t p) as [c Ec]. rewrite Ec.
  apply Forall_app. split; [apply weekend_printable; exact Hd |].
  apply Forall_app. split.
  { apply Forall_flat_map. 
    pose proof (categoryData_finite Food Entertainment Transportation Utilities
                  Shopping Health Subscriptions Other Unspecified (Fin t) Hfc)
      as Hdata.
    eapply Forall_impl; [| exact Hdata].
    intros datum Hdatum. apply categoryInsight_printable; [| exact Hdatum].
    unfold previousCategoryData.
    apply (@accumulateAll_sum Z Z.eqb TransactionModel category amount
             previousPeriodTransactions []); [constructor | exact Hfp]. }
  apply Forall_app. split; [| apply reduced_printable].
  destruct timeFilter; try constructor.
  match goal with
  | |- Forall _ (if ?b then _ else _) => destruct b
  end; constructor; [reflexivity | constructor].
Qed.

Lemma insights_are_printable_witness :
  Forall (printable weekly)
    (shownInsights 0 1 2 3 4 5 6 7 8 weekly
       [tx3 20 1 (civil 2025 0 11 9 0 0 0); tx3 30 2 (civil 2025 0 13 9 0 0 0)]
       [tx3 10 1 (civil 2025 0 4 9 0 0 0); tx3 90 2 (civil 2025 0 6 9 0 0 0)]) /\
  shownInsights 0 1 2 3 4 5 6 7 8 weekly
    [tx3 20 1 (civil 2025 0 11 9 0 0 0); tx3 30 2 (civil 2025 0 13 9 0 0 0)]
    [tx3 10 1 (civil 2025 0 4 9 0 0 0); tx3 90 2 (civil 2025 0 6 9 0 0 0)]
  = [WeekendHigher (Fin 67); CategoryHigher (Some "Entertainment"%string) (Fin 100);
     Reduced (Fin 50)].
Proof.
  split; [| vm_compute; reflexivity].
  apply (@insights_are_printable 0 1 2 3 4 5 6 7 8 weekly);
    repeat constructor; eexists; (split; [reflexivity | vm_compute; discriminate]).
Defined.

End SpendingBreakdown.

(* ===================================================================== *)
(** * use-openai-gpt-chat.ts: what the two hooks return                    *)
(* ===================================================================== *)

Module ChatHookFacts.
Import JSNum JSString OpenAIChat.

(** The answers that [extractContent] accepts: a resolved request without
    an error, whose data has a first choice with content [text] that is
    not empty. *)
Definition usable (outcome : ApiOutcome) (text : jsstring) (aiResponse : ChatData)
  : Prop :=
  exists response choice rest,
    outcome = Resolved response /\ error response = None /\
    data response = Some aiResponse /\
    choices aiResponse = Some (choice :: rest) /\
    content choice = Some text /\ text <> [].

Lemma extractContent_handled (fallback : string) (outcome : ApiOutcome) :
  (exists text aiResponse,
      extractContent fallback outcome = Ret (text, aiResponse) /\
      usable outcome text aiResponse) \/
  (exists message,
      extractContent fallback outcome = Throw message /\
      (forall reason, outcome = Rejected reason -> message = reason) /\
      forall text aiResponse, ~ usable outcome text aiResponse).
Proof.
  unfold usable. destruct outcome as [reason | response]; cbn [extractContent].
  { right. exists reason. split; [reflexivity |]. split.
    - intros r E. injection E as <-. reflexivity.
    - intros text ai [resp [c [rest [E _]]]]. discriminate E. }
  destruct (error response) as [[json |] |] eqn:Eerr.
  { right. eexists. split; [reflexivity |]. split; [discriminate |].
    intros text ai [resp [c [rest [E [He _]]]]]. injection E as <-. congruence. }
  { right. eexists. split; [reflexivity |]. split; [discriminate |].
    intros text ai [resp [c [rest [E [He _]]]]]. injection E as <-. congruence. }
  destruct (data response) as [aiResponse |] eqn:Edata.
  2:{ right. eexists. split; [reflexivity |]. split; [discriminate |].
      intros text ai [resp [c [rest [E [_ [Hd _]]]]]]. injection E as <-.
      congruence. }
  destruct (choices aiResponse) as [[| choice rest] |] eqn:Ech.
  { right. eexists. split; [reflexivity |]. split; [discriminate |].
    intros text ai [resp [c [rest [E [_ [Hd [Hc _]]]]]]]. injection E as <-.
    rewrite Edata in Hd. injection Hd as <-. congruence. }
  2:{ right. eexists. split; [reflexivity |]. split; [discriminate |].
      intros text ai [resp [c [rest [E [_ [Hd [Hc _]]]]]]]. injection E as <-.
      rewrite Edata in Hd. injection Hd as <-. congruence. }
  destruct (content choice) as [text |] eqn:Etext.
  2:{ right. eexists. split; [reflexivity |]. split; [discriminate |].
      intros text ai [resp [c [rest' [E [_ [Hd [Hc [Ht _]]]]]]]].
      injection E as <-. rewrite Edata in Hd. injection Hd as <-.
      rewrite Ech in Hc. injection Hc as <- <-. congruence. }
  destruct text as [| ch text'].
  { right. eexists. split; [reflexivity |]. split; [discriminate |].
    intros text ai [resp [c [rest' [E [_ [Hd [Hc [Ht Hne]]]]]]]].
    injection E as <-. rewrite Edata in Hd. injection Hd as <-.
    rewrite Ech in Hc. injection Hc as <- <-. congruence. }
  left. exists (ch :: text'), aiResponse. split; [reflexivity |].
  exists response, choice, rest. repeat split; try assumption. discriminate.
Qed.

(** The run of a hook once its input is accepted: one request, and then
    the value computed from a usable answer or the error of another
    one. *)
Lemma run_call (A : Type) (endpoint : ChatRequest -> ApiOutcome)
    (request : ChatRequest) (fallback : string)
    (f : jsstring * ChatData -> A) :
  let p := Call request (fun outcome =>
                           r <- extractContent fallback outcome ;; Ret (f r)) in
  (exists text aiResponse,
      usable (endpoint request) text aiResponse /\
      run endpoint p = ([request], inr (f (text, aiResponse)))) \/
  (exists message,
      (forall text aiResponse, ~ usable (endpoint request) text aiResponse) /\
      (forall reason, endpoint request = Rejected reason -> message = reason) /\
      run endpoint p = ([request], inl message)).
Proof.
  cbv zeta. cbn [run].
  destruct (extractContent_handled fallback (endpoint request))
    as [[text [ai [E Hu]]] | [message [E [Hr Hn]]]]; rewrite E; cbn [bind run].
  - left. exists text, ai. split; [exact Hu | reflexivity].
  - right. exists message. repeat split; assumption.
Qed.

(** ** The daily insight *)

Lemma parseInsight_not_empty (text : jsstring) (aiResponse : ChatData)
    (budgetStatus : BudgetStatus) :
  text <> [] ->
  insight (parseInsight text aiResponse budgetStatus) <> [] /\
  suggestions (parseInsight text aiResponse budgetStatus) <> [].
Proof.
  intros Hne. unfold parseInsight. cbv zeta. cbn [insight suggestions]. split.
  - destruct (join (js " ") (firstn 2 (nonEmptyLines text))) as [| c s];
      cbn [truthy]; [exact Hne | discriminate].
  - destruct (map stripListPrefix
                (filter isListLine (skipn 2 (nonEmptyLines text))));
      discriminate.
Qed.

(** A daily insight is returned only for an input with transactions, a
    budget status and spending patterns, after exactly one request whose
    answer is usable; it is the parse of that answer, and its text and
    its suggestions are never empty. *)
Theorem daily_insight_returned
    (endpoint : ChatRequest -> ApiOutcome) (input : GenerateDailyInsightInput)
    (issued : list ChatRequest) (result : GenerateDailyInsightResponse) :
  run endpoint (useGenerateDailyInsight input) = (issued, inr result) ->
  exists transactions budgetStatus spendingPatterns text aiResponse,
    di_transactions input = Some transactions /\ transactions <> [] /\
    di_budgetStatus input = Some budgetStatus /\
    di_spendingPatterns input = Some spendingPatterns /\
    issued = [dailyPrompt transactions budgetStatus spendingPatterns] /\
    usable (endpoint (dailyPrompt transactions budgetStatus spendingPatterns))
           text aiResponse /\
    result = parseInsight text aiResponse budgetStatus /\
    insight result <> [] /\ suggestions result <> [].
Proof.
  unfold useGenerateDailyInsight.
  destruct (di_transactions input) as [[| t ts] |]; try discriminate.
  destruct (di_budgetStatus input) as [budgetStatus |]; try discriminate.
  destruct (di_spendingPatterns input) as [spendingPatterns |]; try discriminate.
  intros Hrun.
  destruct (run_call endpoint (dailyPrompt (t :: ts) budgetStatus spendingPatterns)
              "Failed to generate daily insight"
              (fun r => parseInsight (fst r) (snd r) budgetStatus))
    as [[text [ai [Hu E]]] | [message [_ [_ E]]]];
    cbv zeta in E; rewrite E in Hrun; [| discriminate].
  injection Hrun as <- <-. cbn [fst snd].
  exists (t :: ts), budgetStatus, spendingPatterns, text, ai.
  assert (Hne : text <> []).
  { destruct Hu as [_ [_ [_ [_ [_ [_ [_ [_ H]]]]]]]]. exact H. }
  destruct (parseInsight_not_empty ai budgetStatus Hne) as [H1 H2].
  repeat split; try assumption; try reflexivity. discriminate.
Qed.

Lemma daily_insight_returned_witness :
  exists text aiResponse,
    usable (answering (js "Spending is fine.")
              (dailyPrompt [sampleTransaction] (budgetOf 100 50) samplePatterns))
           text aiResponse.
Proof.
  destruct (@daily_insight_returned
              (answering (js "Spending is fine."))
              (dailyInput [sampleTransaction] 100 50)
              (fst (run (answering (js "Spending is fine."))
                        (useGenerateDailyInsight
                           (dailyInput [sampleTransaction] 100 50))))
              (parseInsight (js "Spending is fine.")
                 {| choices := Some [ {| content := Some (js "Spending is fine.") |} ];
                    total_tokens := Some (Fin 42); responseModel := js "MaaS_4.1" |}
                 (budgetOf 100 50)))
    as [transactions [budgetStatus [spendingPatterns [text [ai H]]]]].
  - vm_compute. reflexivity.
  - destruct H as [E1 [_ [E2 [E3 [_ [Hu _]]]]]].
    vm_compute in E1, E2, E3. injection E1 as <-. injection E2 as <-.
    injection E3 as <-. exists text, ai. exact Hu.
Defined.

(** ** The savings recommendation *)

(** The action that stands for the whole answer when no action could be
    parsed. *)
Definition genericAction (averageMonthlySpending : num) : SpecificAction :=
  {| action := js "Review and optimize spending across all categories";
     potentialSavings := min (mul averageMonthlySpending (Fin (1 # 10))) (Fin 200);
     difficulty := js "medium" |}.

Lemma recommendationsOf_not_empty (content : jsstring) (lines : list jsstring)
    (actions : list SpecificAction) :
  recommendationsOf content lines actions <> [].
Proof.
  unfold recommendationsOf. cbv zeta.
  destruct (match actions with
            | [] => map stripListPrefix
                      (filter (fun l => isListLine l && negb (test reAnyMarker l))
                              lines)
            | _ :: _ => map action actions
            end); discriminate.
Qed.

(** A savings recommendation is returned only after exactly one request
    whose answer is usable, for an input with a goal, transactions,
    patterns and a positive income.  Its recommendations and its actions
    are never empty; when no action could be parsed from the answer, the
    only action is the generic one, whose savings are not counted: the
    projected increase is 0. *)
Theorem savings_recommendation_returned
    (endpoint : ChatRequest -> ApiOutcome)
    (input : GenerateSavingsRecommendationInput)
    (issued : list ChatRequest)
    (result : GenerateSavingsRecommendationResponse) :
  run endpoint (useGenerateSavingsRecommendation input) = (issued, inr result) ->
  exists request text aiResponse spendingPatterns,
    issued = [request] /\ usable (endpoint request) text aiResponse /\
    sr_spendingPatterns input = Some spendingPatterns /\
    gtb (monthlyIncome input) (Fin 0) = true /\
    recommendations result <> [] /\ specificActions result <> [] /\
    (parseActions (nonEmptyLines text) = [] ->
     projectedSavingsIncrease result = Fin 0 /\
     specificActions result
       = [genericAction (mul (averageDaily spendingPatterns) (Fin 30))]) /\
    (parseActions (nonEmptyLines text) <> [] ->
     specificActions result = parseActions (nonEmptyLines text) /\
     recommendations result = map action (parseActions (nonEmptyLines text))).
Proof.
  unfold useGenerateSavingsRecommendation.
  destruct (sr_savingsGoal input) as [savingsGoal |]; try discriminate.
  destruct (sr_transactions input) as [[| t ts] |]; try discriminate.
  destruct (negb (JSNum.truthy (monthlyIncome input))
            || leb (monthlyIncome input) (Fin 0)) eqn:Einc; try discriminate.
  destruct (sr_spendingPatterns input) as [spendingPatterns |]; try discriminate.
  cbv zeta. intros Hrun.
  match type of Hrun with
  | run endpoint (Call ?req (fun outcome => bind _ (fun r => Ret (@?f r)))) = _ =>
      destruct (run_call endpoint req
                  "Failed to generate savings recommendations" f)
        as [[text [ai [Hu E]]] | [message [_ [_ E]]]];
        cbv zeta in E; cbv beta in E; rewrite E in Hrun; [| discriminate];
        exists req, text, ai, spendingPatterns
  end.
  injection Hrun as <- <-. cbn [fst snd].
  split; [reflexivity |]. split; [exact Hu |]. split; [reflexivity |].
  split.
  { apply Bool.orb_false_iff in Einc. destruct Einc as [Ht Hl].
    apply Bool.negb_false_iff in Ht.
    destruct (monthlyIncome input) as [q | | |]; try discriminate; [| reflexivity].
    apply gtb_Fin. unfold leb in Hl. apply Bool.orb_false_iff in Hl.
    destruct Hl as [Hlt Heq]. apply ltb_Fin_false in Hlt.
    assert (Hne : ~ q == 0).
    { intros H. apply eqb_Fin in H. congruence. }
    lra. }
  unfold parseRecommendation. cbv zeta.
  cbn [recommendations specificActions projectedSavingsIncrease].
  split; [apply recommendationsOf_not_empty |].
  split; [destruct (parseActions (nonEmptyLines text)); discriminate |].
  split.
  - intros Hnone. rewrite Hnone. cbn [fold_left]. split; reflexivity.
  - intros Hsome. destruct (parseActions (nonEmptyLines text)) as [| a rest];
      [contradiction |].
    split; [reflexivity |]. unfold recommendationsOf. cbv zeta.
    cbn [map]. reflexivity.
Qed.

Lemma savings_recommendation_returned_witness :
  exists request text aiResponse,
    fst (run (answering (js "Save more."))
             (useGenerateSavingsRecommendation
                (savingsInput [sampleTransaction] (Fin 3000))))
    = [request] /\
    usable (answering (js "Save more.") request) text aiResponse.
Proof.
  destruct (@savings_recommendation_returned
              (answering (js "Save more."))
              (savingsInput [sampleTransaction] (Fin 3000))
              (fst (run (answering (js "Save more."))
                        (useGenerateSavingsRecommendation
                           (savingsInput [sampleTransaction] (Fin 3000)))))
              match snd (run (answering (js "Save more."))
                             (useGenerateSavingsRecommendation
                                (savingsInput [sampleTransaction] (Fin 3000)))) with
              | inr r => r
              | inl _ => parseRecommendation [] 
                           {| choices := None; total_tokens := None;
                              responseModel := [] |}
                           NaN NaN NaN NaN
              end)
    as [request [text [ai [sp [E [Hu _]]]]]].
  - vm_compute. reflexivity.
  - exists request, text, ai. split; assumption.
Defined.

(** ** Requests *)

Lemma singleton_inj (A : Type) (a b : A) : [a] = [b] -> a = b.
Proof. intros H. injection H as H. exact H. Qed.

(** Neither hook tries twice: at most one request is issued, and when the
    endpoint rejects it, the reason of the rejection is what the hook
    throws. *)
Theorem hooks_do_not_retry (endpoint : ChatRequest -> ApiOutcome) :
  (forall input,
      (List.length (requests endpoint (useGenerateDailyInsight input)) <= 1)%nat /\
      forall request reason,
        requests endpoint (useGenerateDailyInsight input) = [request] ->
        endpoint request = Rejected reason ->
        run endpoint (useGenerateDailyInsight input) = ([request], inl reason)) /\
  (forall input,
      (List.length (requests endpoint (useGenerateSavingsRecommendation input))
       <= 1)%nat /\
      forall request reason,
        requests endpoint (useGenerateSavingsRecommendation input) = [request] ->
        endpoint request = Rejected reason ->
        run endpoint (useGenerateSavingsRecommendation input)
        = ([request], inl reason)).
Proof.
  split; intros input.
  - unfold useGenerateDailyInsight, requests.
    destruct (di_transactions input) as [[| t ts] |];
      try (split; [cbn; lia | intros ? ? H; discriminate H]).
    destruct (di_budgetStatus input) as [budgetStatus |];
      try (split; [cbn; lia | intros ? ? H; discriminate H]).
    destruct (di_spendingPatterns input) as [spendingPatterns |];
      try (split; [cbn; lia | intros ? ? H; discriminate H]).
    destruct (run_call endpoint (dailyPrompt (t :: ts) budgetStatus spendingPatterns)
                "Failed to generate daily insight"
                (fun r => parseInsight (fst r) (snd r) budgetStatus))
      as [[text [ai [Hu E]]] | [message [_ [Hr E]]]];
      cbv zeta in E; rewrite E; cbn [fst List.length]; (split; [lia |]);
      intros request reason Hreq Hrej; apply singleton_inj in Hreq; subst request.
    + destruct Hu as [resp [choice [rest [Hres _]]]]. congruence.
    + rewrite (Hr reason Hrej). reflexivity.
  - unfold useGenerateSavingsRecommendation, requests.
    destruct (sr_savingsGoal input) as [savingsGoal |];
      try (split; [cbn; lia | intros ? ? H; discriminate H]).
    destruct (sr_transactions input) as [[| t ts] |];
      try (split; [cbn; lia | intros ? ? H; discriminate H]).
    destruct (negb (JSNum.truthy (monthlyIncome input))
              || leb (monthlyIncome input) (Fin 0));
      try (split; [cbn; lia | intros ? ? H; discriminate H]).
    destruct (sr_spendingPatterns input) as [spendingPatterns |];
      try (split; [cbn; lia | intros ? ? H; discriminate H]).
    cbv zeta.
    match goal with
    | |- context [run endpoint
                    (Call ?req (fun outcome => bind _ (fun r => Ret (@?f r))))] =>
        destruct (run_call endpoint req
                    "Failed to generate savings recommendations" f)
          as [[text [ai [Hu E]]] | [message [_ [Hr E]]]];
          cbv zeta in E; cbv beta in E; rewrite E; cbn [fst List.length];
          (split; [lia |]);
          intros request reason Hreq Hrej; apply singleton_inj in Hreq; subst request
    end.
    + destruct Hu as [resp [choice [rest [Hres _]]]]. congruence.
    + rewrite (Hr reason Hrej). reflexivity.
Qed.

Lemma hooks_do_not_retry_witness :
  run (fun _ => Rejected "network down")
      (useGenerateDailyInsight (dailyInput [sampleTransaction] 100 50))
  = ([dailyPrompt [sampleTransaction] (budgetOf 100 50) samplePatterns],
     inl "network down"%string).
Proof.
  apply (proj1 (@hooks_do_not_retry (fun _ => Rejected "network down"))
               (dailyInput [sampleTransaction] 100 50));
    reflexivity.
Defined.

(** ** The prompt of the daily insight *)

(** The prompt lists the first ten transactions and says how many more
    there are; the total it states is the total of all of them. *)
Theorem dailyPrompt_lists_ten (transactions : list Transaction)
    (budgetStatus : BudgetStatus) (spendingPatterns : SpendingPattern) :
  match userPrompt (dailyPrompt transactions budgetStatus spendingPatterns) with
  | DailyUserPrompt p =>
      (List.length (dp_listed p) <= 10)%nat /\
      (List.length (dp_listed p) + match dp_more p with Some n => n | None => 0%nat end
       = List.length transactions)%nat /\
      (dp_more p <> Some 0%nat) /\
      dp_listed p ++ skipn 10 transactions = transactions /\
      dp_totalSpent p = sumAmounts transactions /\
      (List.length (dp_topCategories p) <= 3)%nat
  | SavingsUserPrompt _ => False
  end.
Proof.
  unfold dailyPrompt. cbv zeta.
  cbn [userPrompt dp_listed dp_more dp_totalSpent dp_topCategories].
  pose proof (firstn_le_length 10 transactions) as H10.
  pose proof (length_firstn 10 transactions) as Hlen.
  split; [| split; [| split; [| split; [| split]]]].
  - rewrite Hlen. lia.
  - rewrite Hlen. destruct (Nat.ltb 10 (List.length transactions)) eqn:E.
    + apply Nat.ltb_lt in E. lia.
    + apply Nat.ltb_ge in E. lia.
  - destruct (Nat.ltb 10 (List.length transactions)) eqn:E; [| discriminate].
    apply Nat.ltb_lt in E. intros H. injection H as H. lia.
  - apply firstn_skipn.
  - reflexivity.
  - rewrite length_firstn. lia.
Qed.

End ChatHookFacts.

(* ===================================================================== *)
(** * The matcher and the words of a pattern                               *)
(* ===================================================================== *)

Module RegexFacts.
Import JSString.

(** The words of a pattern. *)
Fixpoint Lang (r : regex) (w : jsstring) : Prop :=
  match r with
  | Chr p => exists c, w = [c] /\ p c = true
  | Eps | Bol => w = []
  | Cat a b => exists u v, w = u ++ v /\ Lang a u /\ Lang b v
  | Alt a b => Lang a w \/ Lang b w
  | Star a => exists ws, w = List.concat ws /\ Forall (Lang a) ws
  | Grp a => Lang a w
  end.

(** [g] is a word of a group of the pattern. *)
Fixpoint Captured (r : regex) (g : jsstring) : Prop :=
  match r with
  | Chr _ | Eps | Bol => False
  | Cat a b | Alt a b => Captured a g \/ Captured b g
  | Star a => Captured a g
  | Grp a => Lang a g \/ Captured a g
  end.

(** Every match of the pattern goes through a group. *)
Fixpoint captures (r : regex) : bool :=
  match r with
  | Chr _ | Eps | Bol | Star _ => false
  | Cat a b => captures a || captures b
  | Alt a b => captures a && captures b
  | Grp _ => true
  end.

(** What a match leaves in the capture: the capture it started with, or a
    word of a group; the latter when every match goes through a group. *)
Definition capturedBy (r : regex) (cap cap' : option jsstring) : Prop :=
  (cap' = cap \/ exists g, cap' = Some g /\ Captured r g) /\
  ((captures r = true \/ cap <> None) -> exists g, cap' = Some g).

Lemma firstn_matched (w s' : jsstring) :
  firstn (List.length (w ++ s') - List.length s') (w ++ s') = w.
Proof.
  rewrite length_app.
  replace (List.length w + List.length s' - List.length s')%nat
    with (List.length w + 0)%nat by lia.
  rewrite firstn_app_2. cbn [firstn]. apply app_nil_r.
Qed.

(** Soundness of the matcher: a successful match has consumed a word of
    the pattern and has handed the rest to its continuation. *)
Lemma matchAt_sound (A : Type) (r : regex) :
  forall (total : nat) (cap : option jsstring) (s : jsstring)
         (k : option jsstring -> jsstring -> option A) (x : A),
    matchAt r total cap s k = Some x ->
    exists w s' cap',
      s = w ++ s' /\ Lang r w /\ k cap' s' = Some x /\ capturedBy r cap cap'.
Proof.
  unfold capturedBy.
  induction r as [p | | | a IHa b IHb | a IHa b IHb | a IHa | a IHa];
    intros total cap s k x H; cbn [matchAt] in H.
  - destruct s as [| c s']; [discriminate |].
    destruct (p c) eqn:Ep; [| discriminate].
    exists [c], s', cap. split; [reflexivity |].
    split; [exists c; split; [reflexivity | exact Ep] |].
    split; [exact H |]. split; [left; reflexivity |].
    intros [Hc | Hc]; [discriminate Hc |].
    destruct cap as [g |]; [exists g; reflexivity | contradiction].
  - exists [], s, cap. split; [reflexivity |]. split; [reflexivity |].
    split; [exact H |]. split; [left; reflexivity |].
    intros [Hc | Hc]; [discriminate Hc |].
    destruct cap as [g |]; [exists g; reflexivity | contradiction].
  - destruct (Nat.eqb (List.length s) total); [| discriminate].
    exists [], s, cap. split; [reflexivity |]. split; [reflexivity |].
    split; [exact H |]. split; [left; reflexivity |].
    intros [Hc | Hc]; [discriminate Hc |].
    destruct cap as [g |]; [exists g; reflexivity | contradiction].
  - apply IHa in H. destruct H as [w1 [s1 [cap1 [E1 [L1 [H [C1 F1]]]]]]].
    apply IHb in H. destruct H as [w2 [s2 [cap2 [E2 [L2 [H [C2 F2]]]]]]].
    exists (w1 ++ w2), s2, cap2.
    split; [rewrite E1, E2, app_assoc; reflexivity |].
    split; [exists w1, w2; repeat split; assumption |].
    split; [exact H |]. cbn [Captured captures]. split.
    + destruct C2 as [-> | [g [-> Hg]]].
      * destruct C1 as [-> | [g [-> Hg]]]; [left; reflexivity |].
        right. exists g. split; [reflexivity | left; exact Hg].
      * right. exists g. split; [reflexivity | right; exact Hg].
    + intros Hc. apply F2.
      destruct (captures b); [left; reflexivity |]. right.
      rewrite Bool.orb_false_r in Hc. destruct (F1 Hc) as [g ->]. discriminate.
  - destruct (matchAt a total cap s k) as [y |] eqn:Ea.
    + injection H as <-. apply IHa in Ea.
      destruct Ea as [w [s' [cap' [E [L [H [C F]]]]]]].
      exists w, s', cap'. split; [exact E |]. split; [left; exact L |].
      split; [exact H |]. cbn [Captured captures]. split.
      * destruct C as [-> | [g [-> Hg]]]; [left; reflexivity |].
        right. exists g. split; [reflexivity | left; exact Hg].
      * intros [Hc | Hc]; apply F; [left | right; exact Hc].
        apply Bool.andb_true_iff in Hc. apply Hc.
    + apply IHb in H. destruct H as [w [s' [cap' [E [L [H [C F]]]]]]].
      exists w, s', cap'. split; [exact E |]. split; [right; exact L |].
      split; [exact H |]. cbn [Captured captures]. split.
      * destruct C as [-> | [g [-> Hg]]]; [left; reflexivity |].
        right. exists g. split; [reflexivity | right; exact Hg].
      * intros [Hc | Hc]; apply F; [left | right; exact Hc].
        apply Bool.andb_true_iff in Hc. apply Hc.
  - revert H. generalize (List.length s) at 1. intros fuel. revert cap s.
    induction fuel as [| fuel IHf]; intros cap s H.
    + exists [], s, cap. split; [reflexivity |].
      split; [exists []; split; [reflexivity | constructor] |].
      split; [exact H |]. split; [left; reflexivity |].
      intros [Hc | Hc]; [discriminate Hc |].
      destruct cap as [g |]; [exists g; reflexivity | contradiction].
    + match type of H with
      | match ?m with _ => _ end = _ => destruct m as [y |] eqn:Ea
      end.
      * injection H as <-. apply IHa in Ea.
        destruct Ea as [w1 [s1 [cap1 [E1 [L1 [H [C1 F1]]]]]]].
        destruct (Nat.ltb (List.length s1) (List.length s)); [| discriminate].
        apply IHf in H. destruct H as [w2 [s2 [cap2 [E2 [L2 [H [C2 F2]]]]]]].
        exists (w1 ++ w2), s2, cap2.
        split; [rewrite E1, E2, app_assoc; reflexivity |].
        split.
        { destruct L2 as [ws [Ew Hws]]. exists (w1 :: ws).
          split; [cbn [List.concat]; rewrite Ew; reflexivity |].
          constructor; assumption. }
        split; [exact H |]. cbn [Captured captures] in *. split.
        -- destruct C2 as [-> | [g [-> Hg]]].
           ++ destruct C1 as [-> | [g [-> Hg]]]; [left; reflexivity |].
              right. exists g. split; [reflexivity | exact Hg].
           ++ right. exists g. split; [reflexivity | exact Hg].
        -- intros [Hc | Hc]; [discriminate Hc |]. apply F2. right.
           destruct (F1 (or_intror Hc)) as [g ->]. discriminate.
      * exists [], s, cap. split; [reflexivity |].
        split; [exists []; split; [reflexivity | constructor] |].
        split; [exact H |]. split; [left; reflexivity |].
        intros [Hc | Hc]; [discriminate Hc |].
        destruct cap as [g |]; [exists g; reflexivity | contradiction].
  - apply IHa in H. destruct H as [w [s' [cap' [E [L [H _]]]]]].
    exists w, s', (Some w). split; [exact E |]. split; [exact L |].
    split; [rewrite E in H; rewrite firstn_matched in H; exact H |].
    cbn [Captured captures]. split.
    + right. exists w. split; [reflexivity | left; exact L].
    + intros _. exists w. reflexivity.
Qed.

(** The group of a match of [exec] holds a word of a group of the
    pattern; it is there when every match goes through a group. *)
Lemma exec_group (r : regex) (s : jsstring) (m : MatchResult) :
  exec r s = Some m ->
  match group1 m with
  | Some g => Captured r g
  | None => captures r = false
  end.
Proof.
  unfold exec. generalize (List.length s) as total. generalize 0%nat as i.
  induction s as [| c s IH]; intros i total H; cbn [searchFrom] in H.
  - match type of H with
    | match ?t with _ => _ end = _ => destruct t as [m' |] eqn:E
    end; [| discriminate].
    injection H as <-. apply matchAt_sound in E.
    destruct E as [w [s' [cap' [_ [_ [Hk [C F]]]]]]]. injection Hk as <-.
    cbn [group1]. destruct C as [-> | [g [-> Hg]]]; [| exact Hg].
    destruct (captures r); [| reflexivity].
    destruct (F (or_introl eq_refl)) as [g Hg]. discriminate Hg.
  - match type of H with
    | match ?t with _ => _ end = _ => destruct t as [m' |] eqn:E
    end.
    + injection H as <-. apply matchAt_sound in E.
      destruct E as [w [s' [cap' [_ [_ [Hk [C F]]]]]]]. injection Hk as <-.
      cbn [group1]. destruct C as [-> | [g [-> Hg]]]; [| exact Hg].
      destruct (captures r); [| reflexivity].
      destruct (F (or_introl eq_refl)) as [g Hg]. discriminate Hg.
    + apply (IH _ _ H).
Qed.

(** The words of a literal under the flag [i] are the texts that fold
    to the same code units. *)
Lemma Lang_lit_i (w g : jsstring) :
  Lang (lit_i w) g -> map canonicalize g = map canonicalize w.
Proof.
  revert g. induction w as [| c w IH]; intros g; cbn [lit_i Lang].
  - intros ->. reflexivity.
  - intros [u [v [-> [[x [-> Hx]] Hv]]]]. apply N.eqb_eq in Hx.
    cbn [app map]. rewrite Hx, (IH _ Hv). reflexivity.
Qed.

Lemma Captured_lit_i (w g : jsstring) : ~ Captured (lit_i w) g.
Proof.
  induction w as [| c w IH]; cbn [lit_i Captured]; tauto.
Qed.

(** A code unit that folds like a small ASCII letter is that letter in
    lower case. *)
Lemma toLowerCase_char_folded (x c : char) :
  (97 <= c <= 122)%N -> canonicalize x = canonicalize c ->
  toLowerCase_char x = c.
Proof.
  unfold canonicalize, toLowerCase_char. intros Hc.
  assert (Ec : ((97 <=? c) && (c <=? 122))%N = true).
  { apply Bool.andb_true_iff. split; apply N.leb_le; lia. }
  rewrite Ec.
  destruct ((97 <=? x) && (x <=? 122))%N eqn:Ex.
  - apply Bool.andb_true_iff in Ex. destruct Ex as [E1 E2].
    apply N.leb_le in E1, E2. intros H.
    assert (x = c) by lia. subst x.
    destruct ((65 <=? c) && (c <=? 90))%N eqn:E; [| reflexivity].
    apply Bool.andb_true_iff in E. destruct E as [E3 E4].
    apply N.leb_le in E3, E4. lia.
  - intros ->.
    assert (E : ((65 <=? c - 32) && (c - 32 <=? 90))%N = true).
    { apply Bool.andb_true_iff. split; apply N.leb_le; lia. }
    rewrite E. lia.
Qed.

Lemma toLowerCase_folded (g w : jsstring) :
  Forall (fun c => (97 <= c <= 122)%N) w ->
  map canonicalize g = map canonicalize w ->
  map toLowerCase_char g = w.
Proof.
  intros Hw. revert g. induction Hw as [| c w Hc _ IH]; intros g H.
  - destruct g; [reflexivity | discriminate].
  - destruct g as [| x g]; [discriminate |]. cbn [map] in *.
    injection H as Hx Hg. rewrite (toLowerCase_char_folded x Hc Hx), (IH _ Hg).
    reflexivity.
Qed.

End RegexFacts.

(* ===================================================================== *)
(** * use-openai-gpt-chat.ts: the actions parsed from an answer            *)
(* ===================================================================== *)

Module SavingsParserFacts.
Import JSNum JSString OpenAIChat RegexFacts.

Definition knownDifficulty (d : jsstring) : Prop :=
  d = js "easy" \/ d = js "medium" \/ d = js "hard".

(** An action as the type of the hook promises it: a text, savings that
    are a number from 0 on, and one of the three difficulties. *)
Definition wellFormed (a : SpecificAction) : Prop :=
  action a <> [] /\ knownDifficulty (difficulty a) /\
  exists q, potentialSavings a = Fin q /\ 0 <= q.

(** ** Numbers read from digits *)

Lemma isDigit_cases (c : char) :
  isDigit c = true ->
  (c = 48 \/ c = 49 \/ c = 50 \/ c = 51 \/ c = 52 \/ c = 53 \/ c = 54 \/
   c = 55 \/ c = 56 \/ c = 57)%N.
Proof.
  unfold isDigit. intros H. apply Bool.andb_true_iff in H.
  destruct H as [H1 H2]. apply N.leb_le in H1, H2. lia.
Qed.

Lemma digit_not_space (c : char) : isDigit c = true -> isWhiteSpace c = false.
Proof.
  intros H. apply isDigit_cases in H.
  repeat (destruct H as [-> | H]; [reflexivity |]). subst c. reflexivity.
Qed.

Lemma digitValue_nonneg (c : char) : (0 <= digitValue c)%Z.
Proof. unfold digitValue. lia. Qed.

Lemma readDigits_nonneg (s : jsstring) (acc : Z) (count : nat) :
  (0 <= acc)%Z ->
  (0 <= fst (fst (readDigits acc count s)))%Z /\
  (count <= snd (fst (readDigits acc count s)))%nat.
Proof.
  revert acc count. induction s as [| c r IH]; intros acc count Hacc;
    cbn [readDigits]; [cbn; split; [exact Hacc | lia] |].
  destruct (isDigit c); [| cbn; split; [exact Hacc | lia]].
  pose proof (digitValue_nonneg c) as Hd.
  destruct (IH (10 * acc + digitValue c)%Z (S count)) as [H1 H2]; [lia |].
  split; [exact H1 | lia].
Qed.

Lemma parseFloat_digits (c : char) (rest : jsstring) :
  isDigit c = true ->
  exists q, parseFloat (c :: rest) = Fin q /\ 0 <= q.
Proof.
  intros Hc. unfold parseFloat. cbn [dropWhile].
  rewrite (digit_not_space c Hc). cbn [readDigits]. rewrite Hc.
  pose proof (digitValue_nonneg c) as Hd.
  destruct (@readDigits_nonneg rest (10 * 0 + digitValue c)%Z 1%nat) as [H1 H2];
    [lia |].
  destruct (readDigits (10 * 0 + digitValue c) 1 rest) as [[whole nWhole] after].
  cbn [fst snd] in H1, H2.
  assert (Hn : Nat.eqb nWhole 0 = false) by (apply Nat.eqb_neq; lia).
  assert (Hw : 0 <= inject_Z whole).
  { change 0 with (inject_Z 0). rewrite <- Zle_Qle. exact H1. }
  assert (Hplain : exists q, (if Nat.eqb nWhole 0 then NaN else Fin (inject_Z whole))
                             = Fin q /\ 0 <= q).
  { rewrite Hn. exists (inject_Z whole). split; [reflexivity | exact Hw]. }
  destruct after as [| d frac]; [exact Hplain |].
  destruct d as [| p]; [exact Hplain |].
  do 6 (destruct p as [p | p |]; try exact Hplain).
  destruct (@readDigits_nonneg frac 0%Z 0%nat) as [H3 _]; [lia |].
  destruct (readDigits 0 0 frac) as [[part nFrac] after']. cbn [fst] in H3.
  rewrite Hn. cbn [andb]. eexists. split; [reflexivity |].
  assert (Hp : 0 <= inject_Z part).
  { change 0 with (inject_Z 0). rewrite <- Zle_Qle. exact H3. }
  assert (Hpow : 0 < inject_Z (10 ^ Z.of_nat nFrac)).
  { change 0 with (inject_Z 0). rewrite <- Zlt_Qlt. apply Z.pow_pos_nonneg; lia. }
  assert (Hdiv : 0 <= inject_Z part / inject_Z (10 ^ Z.of_nat nFrac)).
  { apply Qle_shift_div_l; [exact Hpow | lra]. }
  lra.
Qed.

(** ** The groups of the three patterns *)

Lemma reSavings_group (g : jsstring) :
  Captured reSavings g -> exists q, parseFloat g = Fin q /\ 0 <= q.
Proof.
  unfold reSavings. cbn [Captured Opt Plus whitespace digit Lang].
  intros [H | [H | [H | [H | H]]]];
    try (apply Captured_lit_i in H; contradiction); try tauto.
  destruct H as [u [v [-> [[u1 [u2 [-> [[c [-> Hc]] _]]]] _]]]].
  cbn [app]. apply parseFloat_digits. exact Hc.
Qed.

Lemma small_letters (w : string) :
  forallb (fun c => (97 <=? c)%N && (c <=? 122)%N) (js w) = true ->
  Forall (fun c => (97 <= c <= 122)%N) (js w).
Proof.
  intros H. apply Forall_forall. intros c Hc.
  rewrite forallb_forall in H. specialize (H c Hc).
  apply Bool.andb_true_iff in H. destruct H as [H1 H2].
  apply N.leb_le in H1, H2. lia.
Qed.

Lemma reDifficulty_group (g : jsstring) :
  Captured reDifficulty g -> knownDifficulty (toLowerCase g).
Proof.
  unfold reDifficulty. cbn [Captured whitespace Lang].
  intros [H | [H | [[H | [H | H]] | [H | [H | H]]]]];
    try (apply Captured_lit_i in H; contradiction); try tauto;
    apply Lang_lit_i in H; unfold knownDifficulty, toLowerCase.
  - left. apply toLowerCase_folded; [apply small_letters; reflexivity | exact H].
  - right. left.
    apply toLowerCase_folded; [apply small_letters; reflexivity | exact H].
  - right. right.
    apply toLowerCase_folded; [apply small_letters; reflexivity | exact H].
Qed.

(** ** The scan *)

(** The fields of the record in progress that were read from a line. *)
Definition goodCurrent (currentAction : CurrentAction) : Prop :=
  (forall v, ca_savings currentAction = Some v -> exists q, v = Fin q /\ 0 <= q) /\
  (forall d, ca_difficulty currentAction = Some d -> knownDifficulty d).

Lemma completed_wellFormed (currentAction : CurrentAction) (a : SpecificAction) :
  goodCurrent currentAction -> completed currentAction = Some a -> wellFormed a.
Proof.
  intros [Hs Hd]. unfold completed.
  destruct (ca_action currentAction) as [t |]; [| discriminate].
  destruct (ca_savings currentAction) as [v |]; [| discriminate].
  destruct (ca_difficulty currentAction) as [d |]; [| discriminate].
  destruct (truthy t && truthy d) eqn:E; [| discriminate].
  intros H. injection H as <-. apply Bool.andb_true_iff in E.
  destruct E as [Et _]. unfold wellFormed.
  cbn [action difficulty potentialSavings].
  split; [destruct t; [discriminate Et | discriminate] |].
  split; [apply Hd; reflexivity | apply Hs; reflexivity].
Qed.

Lemma pushCompleted_wellFormed (actions : list SpecificAction)
    (currentAction : CurrentAction) :
  Forall wellFormed actions -> goodCurrent currentAction ->
  Forall wellFormed (pushCompleted actions currentAction).
Proof.
  intros Ha Hc. unfold pushCompleted.
  destruct (completed currentAction) as [a |] eqn:E; [| exact Ha].
  apply Forall_app. split; [exact Ha |].
  constructor; [| constructor]. apply (completed_wellFormed Hc E).
Qed.

Lemma scanLine_wellFormed (state : list SpecificAction * CurrentAction)
    (line : jsstring) :
  Forall wellFormed (fst state) -> goodCurrent (snd state) ->
  Forall wellFormed (fst (scanLine state line)) /\
  goodCurrent (snd (scanLine state line)).
Proof.
  destruct state as [actions currentAction]. cbn [fst snd].
  intros Ha Hc. unfold scanLine. cbv zeta.
  destruct (exec reRecommendation line) as [m |] eqn:Er.
  { cbn [fst snd]. split; [apply pushCompleted_wellFormed; assumption |].
    split; cbn [ca_savings ca_difficulty]; discriminate. }
  destruct (exec reSavings line) as [m |] eqn:Es.
  { cbn [fst snd]. split; [exact Ha |]. destruct Hc as [Hs Hd].
    split; cbn [ca_savings ca_difficulty]; [| exact Hd].
    intros v Hv. injection Hv as <-.
    pose proof (exec_group _ _ Es) as Hg. unfold groupText.
    destruct (group1 m) as [g |]; [apply reSavings_group; exact Hg |].
    discriminate Hg. }
  destruct (exec reDifficulty line) as [m |] eqn:Ed.
  { cbn [fst snd]. split; [exact Ha |]. destruct Hc as [Hs Hd].
    split; cbn [ca_savings ca_difficulty]; [exact Hs |].
    intros d Hdv. injection Hdv as <-.
    pose proof (exec_group _ _ Ed) as Hg. unfold groupText.
    destruct (group1 m) as [g |]; [apply reDifficulty_group; exact Hg |].
    discriminate Hg. }
  cbn [fst snd]. split; assumption.
Qed.

Lemma parseActions_wellFormed (lines : list jsstring) :
  Forall wellFormed (parseActions lines).
Proof.
  unfold parseActions.
  assert (H : forall state,
             Forall wellFormed (fst state) -> goodCurrent (snd state) ->
             Forall wellFormed (fst (fold_left scanLine lines state)) /\
             goodCurrent (snd (fold_left scanLine lines state))).
  { induction lines as [| line rest IH]; intros state Ha Hc; [split; assumption |].
    cbn [fold_left]. destruct (@scanLine_wellFormed state line Ha Hc) as [Ha' Hc'].
    apply IH; assumption. }
  destruct (H ([], emptyAction)) as [Ha Hc].
  - constructor.
  - split; cbn [emptyAction ca_savings ca_difficulty]; discriminate.
  - destruct (fold_left scanLine lines ([], emptyAction)) as [actions current].
    cbn [fst snd] in Ha, Hc. apply pushCompleted_wellFormed; assumption.
Qed.

Lemma total_savings (actions : list SpecificAction) (start : Q) :
  0 <= start -> Forall wellFormed actions ->
  exists q, fold_left (fun sum a => add sum (potentialSavings a)) actions (Fin start)
            = Fin q /\ start <= q.
Proof.
  intros Hs Ha. revert start Hs.
  induction Ha as [| a rest [_ [_ [v [Hv Hpos]]]] _ IH]; intros start Hs.
  - exists start. split; [reflexivity | lra].
  - cbn [fold_left]. rewrite Hv. cbn [add].
    destruct (IH (start + v)) as [q [Hq Hle]]; [lra |].
    exists q. split; [exact Hq | lra].
Qed.


(** ** The estimate of the time to the goal *)

Lemma monthsNeeded_positive (r c : Q) :
  0 < c ->
  monthsNeeded (Fin r) (Fin c) = Fin (inject_Z (Qceiling (r / c))).
Proof.
  intros Hc. unfold monthsNeeded.
  rewrite (proj2 (gtb_Fin c 0) Hc), div_Fin_pos by exact Hc. reflexivity.
Qed.

Lemma monthsNeeded_not_positive (r c : Q) :
  c <= 0 -> monthsNeeded (Fin r) (Fin c) = PInf.
Proof.
  intros Hc. unfold monthsNeeded.
  destruct (gtb (Fin c) (Fin 0)) eqn:E; [| reflexivity].
  apply gtb_Fin in E. lra.
Qed.

Lemma months_monotone (r c c' : Q) :
  0 <= r -> 0 < c -> c <= c' ->
  (0 <= Qceiling (r / c') <= Qceiling (r / c))%Z.
Proof.
  intros Hr Hc Hc'. assert (Hpos : 0 < c') by lra.
  assert (H0 : 0 <= r / c').
  { apply Qle_shift_div_l; [exact Hpos | lra]. }
  assert (H1 : r / c' <= r / c).
  { apply Qle_shift_div_l; [exact Hc |].
    assert (E : r / c' * c == r * c / c') by (field; lra).
    rewrite E. apply Qle_shift_div_r; [exact Hpos |].
    assert (Hprod : 0 <= r * (c' - c)) by (apply Qmult_le_0_compat; lra).
    setoid_replace (r * c') with (r * c + r * (c' - c)) by ring. lra. }
  split.
  - rewrite <- (Qceiling_Z 0). apply Qceiling_resp_le. exact H0.
  - apply Qceiling_resp_le. exact H1.
Qed.

(** With a remaining amount that is not negative, the estimate with the
    actions of the answer is never later than the estimate at the current
    pace.  The response says "additional income needed" only when the
    current pace never reaches the goal either, states the months gained
    when there are some, and otherwise repeats the current estimate. *)
Theorem estimate_not_later (content : jsstring) (aiResponse : ChatData)
    (averageMonthlySpending : num) (r c : Q) :
  0 <= r ->
  let monthsToGoal := monthsNeeded (Fin r) (Fin c) in
  let result := parseRecommendation content aiResponse (Fin r)
                  averageMonthlySpending (Fin c) monthsToGoal in
  match time_description (estimatedTimeToGoal result) with
  | AdditionalIncomeNeeded =>
      months (estimatedTimeToGoal result) = Fin (-1) /\ monthsToGoal = PInf
  | MonthsFaster monthsSaved =>
      gtb monthsSaved (Fin 0) = true /\
      exists n, months (estimatedTimeToGoal result) = Fin n /\ 0 <= n /\
                leb (Fin n) monthsToGoal = true /\
                monthsSaved = sub monthsToGoal (Fin n)
  | MonthsToReach newMonthsToGoal =>
      months (estimatedTimeToGoal result) = newMonthsToGoal /\
      eqv newMonthsToGoal monthsToGoal
  end.
Proof.
  intros Hr. cbv zeta. unfold parseRecommendation. cbv zeta.
  cbn [estimatedTimeToGoal time_description months].
  destruct (total_savings (Qle_refl 0)
              (parseActions_wellFormed (nonEmptyLines content))) as [T [ET HT]].
  rewrite ET. cbn [add].
  destruct (Qlt_le_dec 0 (c + T)) as [Hnew | Hnew].
  - rewrite (monthsNeeded_positive r Hnew).
    set (n := Qceiling (r / (c + T))).
    change (eqb (Fin (inject_Z n)) PInf) with false. cbv iota.
    destruct (Qlt_le_dec 0 c) as [Hc | Hc].
    + rewrite (monthsNeeded_positive r Hc).
      destruct (@months_monotone r c (c + T) Hr Hc) as [Hn0 Hno]; [lra |].
      fold n in Hn0, Hno. set (o := Qceiling (r / c)) in *.
      assert (Qn0 : 0 <= inject_Z n).
      { change 0 with (inject_Z 0). rewrite <- Zle_Qle. exact Hn0. }
      assert (Qno : inject_Z n <= inject_Z o) by (rewrite <- Zle_Qle; exact Hno).
      cbn [sub neg add].
      destruct (gtb (Fin (inject_Z o + - inject_Z n)) (Fin 0)) eqn:Eg.
      * split; [exact Eg |]. exists (inject_Z n).
        split; [reflexivity |]. split; [exact Qn0 |].
        split; [apply leb_Fin; exact Qno | reflexivity].
      * split; [reflexivity |]. simpl.
        assert (Hle : ~ 0 < inject_Z o + - inject_Z n).
        { intros H. apply gtb_Fin in H. congruence. }
        lra.
    + rewrite (monthsNeeded_not_positive r Hc). cbn [sub neg add].
      change (gtb PInf (Fin 0)) with true. cbv iota.
      split; [reflexivity |]. exists (inject_Z n). split; [reflexivity |].
      split.
      * change 0 with (inject_Z 0). rewrite <- Zle_Qle. unfold n.
        rewrite <- (Qceiling_Z 0). apply Qceiling_resp_le.
        change (inject_Z 0) with 0.
        apply Qle_shift_div_l; [exact Hnew | lra].
      * split; reflexivity.
  - rewrite (monthsNeeded_not_positive r Hnew).
    change (eqb PInf PInf) with true. cbv iota.
    split; [reflexivity |]. apply monthsNeeded_not_positive. lra.
Qed.

Lemma estimate_not_later_witness :
  let result := parseRecommendation sampleAnswer
                  {| choices := None; total_tokens := None; responseModel := [] |}
                  (Fin 1000) (Fin 1200) (Fin 100)
                  (monthsNeeded (Fin 1000) (Fin 100)) in
  exists monthsSaved,
    time_description (estimatedTimeToGoal result) = MonthsFaster monthsSaved /\
    gtb monthsSaved (Fin 0) = true.
Proof.
  cbv zeta.
  pose proof (@estimate_not_later sampleAnswer
                {| choices := None; total_tokens := None; responseModel := [] |}
                (Fin 1200) 1000 100 ltac:(discriminate)) as H.
  cbv zeta in H.
  destruct (time_description
              (estimatedTimeToGoal
                 (parseRecommendation sampleAnswer
                    {| choices := None; total_tokens := None; responseModel := [] |}
                    (Fin 1000) (Fin 1200) (Fin 100)
                    (monthsNeeded (Fin 1000) (Fin 100))))) as [| saved | n] eqn:E.
  - vm_compute in E. discriminate E.
  - exists saved. split; [reflexivity | apply H].
  - vm_compute in E. discriminate E.
Defined.

End SavingsParserFacts.

(* ===================================================================== *)
(** * DashboardOverview: the daily insight and the predictive alert        *)
(* ===================================================================== *)

Module DashboardOverview.
Import JSNum JSString OpenAIChat.

(** The fields of a stored transaction that the dashboard reads. *)
Record TransactionModel : Type := {
  tx_id : jsstring;
  tx_amount : num;
  tx_category : Z;
  tx_description : option jsstring;
  transaction_time : jsstring
}.

(** What the handler does besides calling the hook. *)
Inductive Effect : Type :=
| SetPricingHighlight (feature : string)
| SetShowPricingModal (shown : bool)
| ToastInfo (message : string)
| ToastSuccess (message : string)
| ToastError (message : string)
| ConsoleError (label error : string)
| LoadDashboardData.

(** [try { p } catch (error) { handler(error) }]. *)
Fixpoint tryCatch (A : Type) (p : Prog A) (handler : string -> Prog A) : Prog A :=
  match p with
  | Ret a => Ret a
  | Throw error => handler error
  | Call request k => Call request (fun outcome => tryCatch (k outcome) handler)
  end.

(** [s.startsWith(prefix)]. *)
Fixpoint startsWith (prefix s : jsstring) : bool :=
  match prefix, s with
  | [], _ => true
  | p :: prefix', c :: s' => N.eqb p c && startsWith prefix' s'
  | _ :: _, [] => false
  end.

(** [String(n)] for an integer [n]. *)
Definition String_of (n : Z) : jsstring :=
  js (DecimalString.NilZero.string_of_int (Z.to_int n)).

Definition totalBudget (budgets : list BudgetTracker.BudgetModel) : num :=
  fold_left (fun sum b => add sum (BudgetTracker.monthly_limit b)) budgets (Fin 0).

Definition totalSpent (budgets : list BudgetTracker.BudgetModel) : num :=
  fold_left (fun sum b => add sum (BudgetTracker.current_spent b)) budgets (Fin 0).

(** The argument of [generateInsight.mutateAsync]. *)
Definition insightInput (yesterdayTxs : list TransactionModel)
    (budgets : list BudgetTracker.BudgetModel) : GenerateDailyInsightInput :=
  let totalBudget := totalBudget budgets in
  let totalSpent := totalSpent budgets in
  let categorySpending :=
    map (fun b =>
           {| tc_category := js (BudgetTracker.category_name b);
              tc_amount := BudgetTracker.current_spent b;
              tc_percentage :=
                if gtb totalSpent (Fin 0)
                then mul (div (BudgetTracker.current_spent b) totalSpent) (Fin 100)
                else Fin 0 |})
        budgets in
  {| di_transactions :=
       Some (map (fun t =>
                    {| id := tx_id t;
                       amount := tx_amount t;
                       category := String_of (tx_category t);
                       description := match tx_description t with
                                      | Some d => if truthy d then d else []
                                      | None => []
                                      end;
                       date := transaction_time t;
                       merchant := None |})
                 yesterdayTxs);
     di_budgetStatus :=
       Some {| OpenAIChat.totalBudget := totalBudget;
               spent := totalSpent;
               remaining := sub totalBudget totalSpent;
               categories :=
                 map (fun b =>
                        {| cb_name := js (BudgetTracker.category_name b);
                           cb_budget := BudgetTracker.monthly_limit b;
                           cb_spent := BudgetTracker.current_spent b |})
                     budgets |};
     di_spendingPatterns :=
       Some {| averageDaily := div totalSpent (Fin 30);
               topCategories := firstn 3 categorySpending |} |}.

(** [yesterday] is the date part of the ISO text of the day before the
    click, [isPending] the state of the mutation. *)
Definition handleGenerateInsight (isPremium isPending : bool)
    (yesterday : jsstring) (transactions : list TransactionModel)
    (budgets : list BudgetTracker.BudgetModel) : Prog (list Effect) :=
  if negb isPremium then
    Ret [SetPricingHighlight
           "AI daily financial coach with personalized insights based on your spending patterns";
         SetShowPricingModal true]
  else if isPending then Ret []
  else
    tryCatch
      (let yesterdayTxs :=
         filter (fun t => startsWith yesterday (transaction_time t)) transactions in
       if Nat.eqb (List.length yesterdayTxs) 0 then
         Ret [ToastInfo "No transactions from yesterday to analyze"]
       else
         _ <- useGenerateDailyInsight (insightInput yesterdayTxs budgets) ;;
         Ret [ToastSuccess "Daily insight generated!"; LoadDashboardData])
      (fun error =>
         Ret [ConsoleError "Error generating insight:" error;
              ToastError "Failed to generate insight"]).



(** ** The daily insight *)

Definition yesterdayTxs (yesterday : jsstring) (transactions : list TransactionModel)
  : list TransactionModel :=
  filter (fun t => startsWith yesterday (transaction_time t)) transactions.

(** The handler never throws; it calls the hook only for a premium user
    with a transaction of yesterday, when no call is pending, and then
    the input passes the validation of the hook whatever the budgets are:
    one request is issued, and its answer alone decides between the
    success toast and the error toast. *)
Theorem handleGenerateInsight_outcomes
    (endpoint : ChatRequest -> ApiOutcome) (isPremium isPending : bool)
    (yesterday : jsstring) (transactions : list TransactionModel)
    (budgets : list BudgetTracker.BudgetModel) :
  let p := handleGenerateInsight isPremium isPending yesterday transactions budgets in
  exists effects,
    snd (run endpoint p) = inr effects /\
    (isPremium = false ->
     requests endpoint p = [] /\
     effects = [SetPricingHighlight
                  "AI daily financial coach with personalized insights based on your spending patterns";
                SetShowPricingModal true]) /\
    (isPremium = true -> isPending = true ->
     requests endpoint p = [] /\ effects = []) /\
    (isPremium = true -> isPending = false ->
     yesterdayTxs yesterday transactions = [] ->
     requests endpoint p = [] /\
     effects = [ToastInfo "No transactions from yesterday to analyze"]) /\
    (isPremium = true -> isPending = false ->
     yesterdayTxs yesterday transactions <> [] ->
     exists request,
       requests endpoint p = [request] /\
       ((exists text aiResponse,
            ChatHookFacts.usable (endpoint request) text aiResponse) /\
        effects = [ToastSuccess "Daily insight generated!"; LoadDashboardData]
        \/
        (forall text aiResponse,
            ~ ChatHookFacts.usable (endpoint request) text aiResponse) /\
        exists error,
          effects = [ConsoleError "Error generating insight:" error;
                     ToastError "Failed to generate insight"])).
Proof.
  cbv zeta. unfold handleGenerateInsight, requests.
  destruct isPremium; cbn [negb].
  2:{ eexists. split; [reflexivity |].
      repeat split; try discriminate; reflexivity. }
  destruct isPending.
  { eexists. split; [reflexivity |].
    repeat split; try discriminate; reflexivity. }
  cbv zeta. fold (yesterdayTxs yesterday transactions).
  destruct (yesterdayTxs yesterday transactions) as [| t ts] eqn:Ey.
  { cbn [List.length Nat.eqb tryCatch run snd fst].
    eexists. split; [reflexivity |].
    split; [discriminate |]. split; [discriminate |].
    split; [intros _ _ _; split; reflexivity |].
    intros _ _ H. contradiction. }
  cbn [List.length Nat.eqb].
  unfold useGenerateDailyInsight, insightInput. cbv zeta.
  cbn [di_transactions di_budgetStatus di_spendingPatterns map bind tryCatch run].
  match goal with
  | |- context [endpoint ?req] =>
      set (request := req);
      destruct (ChatHookFacts.extractContent_handled
                  "Failed to generate daily insight" (endpoint request))
        as [[text [ai [E Hu]]] | [message [E [_ Hn]]]]
  end; rewrite E; cbn [bind tryCatch run snd fst].
  - eexists. split; [reflexivity |].
    split; [discriminate |]. split; [discriminate |]. split; [discriminate |].
    intros _ _ _. exists request. split; [reflexivity |].
    left. split; [exists text, ai; exact Hu | reflexivity].
  - eexists. split; [reflexivity |].
    split; [discriminate |]. split; [discriminate |]. split; [discriminate |].
    intros _ _ _. exists request. split; [reflexivity |].
    right. split; [exact Hn | exists message; reflexivity].
Qed.

Definition sampleTx (time : string) : TransactionModel :=
  {| tx_id := js "t1"; tx_amount := Fin 12; tx_category := 3%Z;
     tx_description := None; transaction_time := js time |}.

Lemma handleGenerateInsight_outcomes_witness :
  requests (answering (js "Fine."))
    (handleGenerateInsight false false (js "2025-01-14")
       [sampleTx "2025-01-14T10:00:00.000Z"] []) = [] /\
  exists request,
    requests (answering (js "Fine."))
      (handleGenerateInsight true false (js "2025-01-14")
         [sampleTx "2025-01-14T10:00:00.000Z"] []) = [request].
Proof.
  split.
  - destruct (@handleGenerateInsight_outcomes (answering (js "Fine.")) false false
                (js "2025-01-14") [sampleTx "2025-01-14T10:00:00.000Z"] [])
      as [effects [_ [H _]]].
    apply H. reflexivity.
  - destruct (@handleGenerateInsight_outcomes (answering (js "Fine.")) true false
                (js "2025-01-14") [sampleTx "2025-01-14T10:00:00.000Z"] [])
      as [effects [_ [_ [_ [_ H]]]]].
    destruct H as [request [H _]];
      [reflexivity | reflexivity | vm_compute; discriminate |].
    exists request. exact H.
Defined.

(** ** The predictive alert *)



(** ** The total utilization and the budgets *)






End DashboardOverview.

(* ===================================================================== *)
(** * Integrations: connecting and disconnecting                           *)
(* ===================================================================== *)

Module Integrations.

Inductive Status : Type := connected | disconnected.

Record Integration : Type := {
  id : string;
  name : string;
  description : string;
  icon : string;
  category : string;
  status : Status;
  features : list string;
  color : string
}.

(** The three templates of the toasts, with the name they print. *)
Inductive Toast : Type :=
| DisconnectedSuccessfully (name : string)
| OpeningConnection (name : string)
| ConnectedSuccessfully (name : string).

(** The state of the component, the toasts shown so far, and the timers
    that were started and have not fired: each holds the identifier and
    the name that its callback has captured. *)
Record State : Type := {
  integrations : list Integration;
  toasts : list Toast;
  timers : list (string * string)
}.

(** [{ ...i, status }]. *)
Definition withStatus (i : Integration) (s : Status) : Integration :=
  {| id := id i; name := name i; description := description i; icon := icon i;
     category := category i; status := s; features := features i;
     color := color i |}.

(** The updater [prev => prev.map(i => i.id === integrationId ? {...i, status} : i)]. *)
Definition setStatus (integrationId : string) (s : Status)
    (prev : list Integration) : list Integration :=
  map (fun i => if String.eqb (id i) integrationId then withStatus i s else i) prev.

(** [rendered] is the list that the render which created the handler has
    seen; the updaters work on the state of the moment. *)
Definition handleConnect (rendered : list Integration) (integrationId : string)
    (state : State) : State :=
  match find (fun i => String.eqb (id i) integrationId) rendered with
  | None => state
  | Some integration =>
      match status integration with
      | connected =>
          {| integrations := setStatus integrationId disconnected (integrations state);
             toasts := toasts state ++ [DisconnectedSuccessfully (name integration)];
             timers := timers state |}
      | disconnected =>
          {| integrations := integrations state;
             toasts := toasts state ++ [OpeningConnection (name integration)];
             timers := timers state ++ [(integrationId, name integration)] |}
      end
  end.

(** The callback of the oldest timer runs. *)
Definition fireTimer (state : State) : State :=
  match timers state with
  | [] => state
  | (integrationId, integrationName) :: rest =>
      {| integrations := setStatus integrationId connected (integrations state);
         toasts := toasts state ++ [ConnectedSuccessfully integrationName];
         timers := rest |}
  end.

(** A click and then every timer that is pending. *)
Fixpoint fireAll (fuel : nat) (state : State) : State :=
  match fuel with
  | O => state
  | S fuel' => fireAll fuel' (fireTimer state)
  end.

Definition settle (state : State) : State :=
  fireAll (List.length (timers state)) state.

Definition opposite (s : Status) : Status :=
  match s with
  | connected => disconnected
  | disconnected => connected
  end.

(** Everything of an integration but its status. *)
Definition sameButStatus (i j : Integration) : Prop :=
  id i = id j /\ name i = name j /\ description i = description j /\
  icon i = icon j /\ category i = category j /\ features i = features j /\
  color i = color j.

Lemma setStatus_frame (integrationId : string) (s : Status)
    (prev : list Integration) :
  Forall2 (fun i j => sameButStatus i j /\
                      (id i <> integrationId -> j = i) /\
                      (id i = integrationId -> status j = s))
          prev (setStatus integrationId s prev).
Proof.
  induction prev as [| i rest IH]; cbn [setStatus map]; constructor; [| exact IH].
  destruct (String.eqb (id i) integrationId) eqn:E.
  - apply String.eqb_eq in E. split; [repeat split |].
    split; [intros H; contradiction | intros _; reflexivity].
  - apply String.eqb_neq in E. split; [repeat split |].
    split; [intros _; reflexivity | intros H; contradiction].
Qed.

(** A click on an integration of the rendered list, followed by the timer
    that it may have started, changes nothing but statuses: every
    integration with another identifier is kept as it is, and every one
    with the clicked identifier gets the status opposite to the one that
    was rendered.  A click on an unknown identifier changes nothing. *)
Theorem handleConnect_toggles (integrationId : string) (list : list Integration) :
  let before := {| integrations := list; toasts := []; timers := [] |} in
  let after := settle (handleConnect list integrationId before) in
  timers after = [] /\
  match find (fun i => String.eqb (id i) integrationId) list with
  | None => after = before
  | Some integration =>
      Forall2 (fun i j =>
                 sameButStatus i j /\
                 (id i <> integrationId -> j = i) /\
                 (id i = integrationId ->
                  status j = opposite (status integration)))
              list (integrations after) /\
      toasts after
      = match status integration with
        | connected => [DisconnectedSuccessfully (name integration)]
        | disconnected => [OpeningConnection (name integration);
                           ConnectedSuccessfully (name integration)]
        end
  end.
Proof.
  cbv zeta. unfold handleConnect.
  destruct (find (fun i => String.eqb (id i) integrationId) list)
    as [integration |] eqn:Ef; cbn [integrations toasts timers].
  - destruct (status integration); cbn [settle timers List.length fireAll fireTimer
                                          integrations toasts app].
    + split; [reflexivity |]. split; [apply setStatus_frame | reflexivity].
    + split; [reflexivity |]. split; [apply setStatus_frame | reflexivity].
  - split; reflexivity.
Qed.

(** The list after a click that has settled. *)
Lemma settled_click (integrationId : string) (l : list Integration) :
  integrations (settle (handleConnect l integrationId
                  {| integrations := l; toasts := []; timers := [] |}))
  = match find (fun i => String.eqb (id i) integrationId) l with
    | None => l
    | Some integration =>
        setStatus integrationId (opposite (status integration)) l
    end.
Proof.
  unfold handleConnect.
  destruct (find (fun i => String.eqb (id i) integrationId) l) as [i |];
    [destruct (status i) |]; reflexivity.
Qed.

Lemma setStatus_id (k : string) (s : Status) (l : list Integration) :
  map id (setStatus k s l) = map id l.
Proof.
  induction l as [| j rest IH]; [reflexivity |]. cbn [setStatus map].
  fold (setStatus k s rest). rewrite IH.
  destruct (String.eqb (id j) k); reflexivity.
Qed.

Lemma setStatus_find (k : string) (s : Status) (l : list Integration)
    (i : Integration) :
  find (fun i => String.eqb (id i) k) l = Some i ->
  find (fun i => String.eqb (id i) k) (setStatus k s l) = Some (withStatus i s).
Proof.
  induction l as [| j rest IH]; cbn [find setStatus map]; [discriminate |].
  destruct (String.eqb (id j) k) eqn:E.
  - intros H. injection H as <-. cbn [find withStatus id]. rewrite E. reflexivity.
  - intros H. cbn [find]. rewrite E. apply IH. exact H.
Qed.

Lemma setStatus_find_None (k : string) (s : Status) (l : list Integration) :
  find (fun i => String.eqb (id i) k) l = None -> setStatus k s l = l.
Proof.
  induction l as [| j rest IH]; cbn [find setStatus map]; [reflexivity |].
  destruct (String.eqb (id j) k); [discriminate |].
  intros H. f_equal. apply IH. exact H.
Qed.

Lemma setStatus_twice (k : string) (s s' : Status) (l : list Integration) :
  setStatus k s' (setStatus k s l) = setStatus k s' l.
Proof.
  induction l as [| j rest IH]; [reflexivity |]. cbn [setStatus map].
  fold (setStatus k s rest). fold (setStatus k s' (setStatus k s rest)).
  fold (setStatus k s' rest). rewrite IH.
  destruct (String.eqb (id j) k) eqn:E.
  - cbn [withStatus id]. rewrite E. reflexivity.
  - rewrite E. reflexivity.
Qed.

Lemma setStatus_absent (k : string) (s : Status) (l : list Integration) :
  ~ In k (map id l) -> setStatus k s l = l.
Proof.
  intros H. apply setStatus_find_None.
  destruct (find (fun i => String.eqb (id i) k) l) as [i |] eqn:E; [| reflexivity].
  apply find_some in E. destruct E as [Hin Hk]. apply String.eqb_eq in Hk.
  exfalso. apply H. rewrite <- Hk. apply in_map. exact Hin.
Qed.

Lemma setStatus_own (k : string) (l : list Integration) (i : Integration) :
  NoDup (map id l) ->
  find (fun i => String.eqb (id i) k) l = Some i ->
  map status (setStatus k (status i) l) = map status l.
Proof.
  induction l as [| j rest IH]; cbn [find setStatus map]; [discriminate |].
  intros Hnd. inversion Hnd as [| x xs Hnin Hnd']; subst.
  fold (setStatus k (status i) rest).
  destruct (String.eqb (id j) k) eqn:E.
  - intros H. injection H as <-. apply String.eqb_eq in E. subst k.
    rewrite (@setStatus_absent (id j) (status j) rest Hnin). reflexivity.
  - intros H. rewrite (IH Hnd' H). reflexivity.
Qed.

(** Two clicks on the same integration, each settled before the next
    render, restore the statuses when identifiers are not shared. *)
Theorem handleConnect_twice (integrationId : string) (list : list Integration) :
  NoDup (map id list) ->
  let once := integrations (settle (handleConnect list integrationId
                 {| integrations := list; toasts := []; timers := [] |})) in
  let twice := integrations (settle (handleConnect once integrationId
                 {| integrations := once; toasts := []; timers := [] |})) in
  map status twice = map status list /\ map id twice = map id list.
Proof.
  intros Hnd. cbv zeta. rewrite !settled_click.
  destruct (find (fun i => String.eqb (id i) integrationId) list)
    as [integration |] eqn:Ef.
  - rewrite (@setStatus_find integrationId (opposite (status integration)) list
               integration Ef).
    cbn [withStatus status]. rewrite setStatus_twice, setStatus_id.
    split; [| reflexivity].
    replace (opposite (opposite (status integration))) with (status integration)
      by (destruct (status integration); reflexivity).
    apply setStatus_own; assumption.
  - rewrite Ef. split; reflexivity.
Qed.

Definition stripe (s : Status) : Integration :=
  {| id := "stripe"; name := "Stripe"; description := "Sync"; icon := "icon";
     category := "Payments"; status := s; features := ["Auto-sync transactions"%string];
     color := "bg-purple-50 border-purple-200" |}.

Lemma handleConnect_twice_witness :
  let once := integrations (settle (handleConnect [stripe disconnected] "stripe"
                 {| integrations := [stripe disconnected]; toasts := [];
                    timers := [] |})) in
  map status once = [connected] /\
  map status (integrations (settle (handleConnect once "stripe"
                 {| integrations := once; toasts := []; timers := [] |})))
  = [disconnected].
Proof.
  cbv zeta. split; [reflexivity |].
  apply (@handleConnect_twice "stripe" [stripe disconnected]).
  repeat constructor. intros [].
Defined.

End Integrations.

